(** * youtube-rag-system: a shallow embedding of the retrieval pipeline

    The development follows the layout of the repository:

    - [Transcript]  : [backend/app/rag/transcript.py]
                      ([extract_video_id], the [dynamic_k] policy of
                      [ingest_video_to_chunks]);
    - [Retriever]   : [backend/app/rag/retriever.py]
                      ([is_low_quality_text], [format_evidence]);
    - [Embeddings]  : [backend/app/rag/embeddings.py]
                      ([SafeOllamaEmbeddings], [validate_chunks_for_embeddings]);
    - [Pipeline]    : [backend/app/rag/pipeline.py]
                      (sessions, [chat_with_video], [compare_videos],
                      [_get_universal_summary]);
    - [MultiVideo]  : [multiVideo.py]
                      (its own validator, [answer_question_single],
                      [get_structured_docs], [compare_videos]);
    - [Spec]        : the notions the specification speaks of.

    Python integers are [Z]; strings are [string]; dictionaries are [gmap];
    the external collaborators
    (embedding provider, retriever, completion provider) are oracles whose
    answers are inputs of the embedded functions. *)

From Stdlib Require Import ZArith Lia String Ascii List Bool DecimalString.
From stdpp Require Import base option list strings gmap.

Local Open Scope Z_scope.

(** ** Shared vocabulary *)

(** [max(lo, min(hi, x))], the clamp idiom used throughout the sources. *)
Definition clamp (x lo hi : Z) : Z := Z.max lo (Z.min hi x).

(** ** Python built-ins used by the sources

    The text functions are modelled on the ASCII range: there the Unicode
    general category [C] is the control range [0..31] and [127],
    [str.isspace] holds of [9..13], [28..31] and [32], and [str.isalpha] /
    [str.isdigit] are the ASCII letters and digits. *)

Module Py.

Definition code (c : ascii) : Z := Z.of_N (N_of_ascii c).

Definition in_range (lo hi : Z) (c : ascii) : bool :=
  (lo <=? code c) && (code c <=? hi).

Definition isspace (c : ascii) : bool :=
  in_range 9 13 c || in_range 28 32 c.
Definition isdigit (c : ascii) : bool := in_range 48 57 c.
Definition isalpha (c : ascii) : bool := in_range 65 90 c || in_range 97 122 c.
(** [unicodedata.category(ch)[0] == "C"] *)
Definition is_control (c : ascii) : bool := in_range 0 31 c || (code c =? 127).

(** [len(s)] *)
Definition len (s : string) : Z := Z.of_nat (String.length s).

Fixpoint str_forallb (p : ascii -> bool) (s : string) : bool :=
  match s with
  | EmptyString => true
  | String c s' => p c && str_forallb p s'
  end.

Fixpoint str_existsb (p : ascii -> bool) (s : string) : bool :=
  match s with
  | EmptyString => false
  | String c s' => p c || str_existsb p s'
  end.

(** ["".join(ch for ch in s if p(ch))] *)
Fixpoint str_filter (p : ascii -> bool) (s : string) : string :=
  match s with
  | EmptyString => EmptyString
  | String c s' => if p c then String c (str_filter p s') else str_filter p s'
  end.

Fixpoint str_map (f : ascii -> ascii) (s : string) : string :=
  match s with
  | EmptyString => EmptyString
  | String c s' => String (f c) (str_map f s')
  end.

Fixpoint lstrip (s : string) : string :=
  match s with
  | EmptyString => EmptyString
  | String c s' => if isspace c then lstrip s' else s
  end.

Fixpoint rstrip (s : string) : string :=
  match s with
  | EmptyString => EmptyString
  | String c s' =>
      match rstrip s' with
      | EmptyString => if isspace c then EmptyString else String c EmptyString
      | r => String c r
      end
  end.

(** [s.strip()] *)
Definition strip (s : string) : string := rstrip (lstrip s).

(** [s.split()]: maximal runs of non-whitespace characters.  [cur] is the
    token being read. *)
Fixpoint split_from (cur : string) (s : string) : list string :=
  match s with
  | EmptyString =>
      match cur with EmptyString => [] | _ => [cur] end
  | String c s' =>
      if isspace c then
        match cur with
        | EmptyString => split_from EmptyString s'
        | _ => cur :: split_from EmptyString s'
        end
      else split_from (cur ++ String c EmptyString) s'
  end.

Definition split (s : string) : list string := split_from EmptyString s.

(** [sep.join(l)] *)
Definition join (sep : string) (l : list string) : string := String.concat sep l.

(** [s.replace("\n", " ")] *)
Definition newline : ascii := ascii_of_nat 10.
Definition replace_newlines (s : string) : string :=
  str_map (fun c => if Ascii.eqb c newline then " "%char else c) s.

(** [s[:n]] for a literal [n >= 0] *)
Definition str_take (n : nat) (s : string) : string := String.substring 0 n s.

(** [str(z)] for an integer *)
Definition str_of_int (z : Z) : string := NilZero.string_of_int (Z.to_int z).

(** [f"{z:02d}"]: the sign counts towards the width. *)
Definition format_02d (z : Z) : string :=
  if (0 <=? z) && (z <? 10) then ("0" ++ str_of_int z)%string else str_of_int z.

(** [l[:k]]; a negative bound counts from the end. *)
Definition slice_to {A} (k : Z) (l : list A) : list A :=
  if 0 <=? k then take (Z.to_nat k) l
  else take (Z.to_nat (Z.of_nat (length l) + k)) l.

(** [l[-n:]] for a literal [n > 0]: the last [n] elements. *)
Definition last_n {A} (n : nat) (l : list A) : list A :=
  drop (length l - n)%nat l.

(** [l[::step]] for [step >= 1]: the elements at indices 0, step, 2*step, ...
    [skip] counts the elements still to be passed over. *)
Fixpoint every_nth_from {A} (skip : nat) (step : nat) (l : list A) : list A :=
  match l with
  | [] => []
  | x :: l' =>
      match skip with
      | O => x :: every_nth_from (step - 1)%nat step l'
      | S skip' => every_nth_from skip' step l'
      end
  end.

Definition slice_step {A} (step : Z) (l : list A) : list A :=
  every_nth_from 0%nat (Z.to_nat step) l.

(** [sum(1 for t in l if p(t))] *)
Definition count {A} (p : A -> bool) (l : list A) : Z :=
  Z.of_nat (length (List.filter p l)).

(** [s.lower()] *)
Definition lower_char (c : ascii) : ascii :=
  if in_range 65 90 c then ascii_of_N (N_of_ascii c + 32) else c.
Definition lower (s : string) : string := str_map lower_char s.

(** [tok in s] *)
Fixpoint contains (tok s : string) : bool :=
  String.prefix tok s ||
  match s with
  | EmptyString => false
  | String _ s' => contains tok s'
  end.

End Py.

(** ** Documents

    [langchain_core.documents.Document]: the text and the metadata dictionary
    the chunker fills in, with its three keys. *)

Record Metadata := mkMetadata {
  md_video_id : string;
  md_start : Z;
  md_end : Z
}.

Record Document := mkDocument {
  page_content : string;
  metadata : Metadata
}.

(** * transcript.py *)

Module Transcript.

(** [int(math.log2(num_chunks) * 1.5)].

    For [num_chunks >= 1] the product is [1.5 * log2 n = log2 (n^3) / 2],
    and truncation of a non-negative number is its floor, hence the value
    is [floor (floor (log2 (n^3)) / 2)].  The only [n] in the range where
    the clamp does not already decide the result and where the product is an
    integer is [n = 64], at which [math.log2] is exact, so the double
    computation and the exact one agree. *)
Definition int_log2_times_1_5 (n : Z) : Z := Z.log2 (n ^ 3) / 2.

(** Lines 175-179 of [ingest_video_to_chunks]:
<<
    num_chunks = len(chunks)
    if num_chunks < 20:
        dynamic_k = min(num_chunks, 5)
    else:
        dynamic_k = max(5, min(10, int(math.log2(num_chunks) * 1.5)))
>> *)
Definition dynamic_k (num_chunks : Z) : Z :=
  if num_chunks <? 20 then Z.min num_chunks 5
  else Z.max 5 (Z.min 10 (int_log2_times_1_5 num_chunks)).

(** *** [extract_video_id]

    The pattern is [(?:v=|\/|be\/)([0-9A-Za-z_-]{11})].  Every character the
    pattern can consume is ASCII, so matching the bytes of the text is
    matching the text. *)

Definition is_id_char (c : ascii) : bool :=
  Py.isdigit c || Py.isalpha c || (Py.code c =? 95) || (Py.code c =? 45).

(** [[0-9A-Za-z_-]{k}] anchored at the head of [s]; the result is the text
    of the group. *)
Fixpoint match_id_chars (k : nat) (s : string) : option string :=
  match k with
  | O => Some EmptyString
  | S k' =>
      match s with
      | String c s' =>
          if is_id_char c then String c <$> match_id_chars k' s' else None
      | EmptyString => None
      end
  end.

(** A literal anchored at the head of [s]; the result is what follows it. *)
Fixpoint match_literal (p s : string) : option string :=
  match p with
  | EmptyString => Some s
  | String a p' =>
      match s with
      | String b s' => if Ascii.eqb a b then match_literal p' s' else None
      | EmptyString => None
      end
  end.

(** The alternation, in the order the pattern lists it. *)
Definition alternatives : list string := ["v="; "/"; "be/"]%string.

(** The whole pattern anchored at the head of [s]: the alternatives are
    tried in order, and a failure of the group backtracks into the next
    alternative.  The result is group 1. *)
Fixpoint match_alternatives (alts : list string) (s : string) : option string :=
  match alts with
  | [] => None
  | p :: alts' =>
      match match_literal p s ≫= match_id_chars 11 with
      | Some g => Some g
      | None => match_alternatives alts' s
      end
  end.

Definition match_here (s : string) : option string :=
  match_alternatives alternatives s.

(** [re.search]: the match at the leftmost start position. *)
Fixpoint re_search (s : string) : option string :=
  match match_here s with
  | Some g => Some g
  | None =>
      match s with
      | EmptyString => None
      | String _ s' => re_search s'
      end
  end.

(** [m.group(1) if m else url_or_id] *)
Definition extract_video_id (url_or_id : string) : string :=
  match re_search url_or_id with
  | Some g => g
  | None => url_or_id
  end.

(** *** [sec_to_mmss] *)
Definition sec_to_mmss (s : Z) : string :=
  (Py.format_02d (s / 60) ++ ":" ++ Py.format_02d (s mod 60))%string.

(** *** [ingest_video_to_chunks]

    A transcript fragment as the first loop records it: the text,
    [int(fragment.start)] and [int(fragment.start + fragment.duration)]. *)
Record Fragment := mkFragment {
  frag_text : string;
  frag_start : Z;
  frag_end : Z
}.

Definition fragment_doc (video_id : string) (f : Fragment) : Document :=
  mkDocument (frag_text f) (mkMetadata video_id (frag_start f) (frag_end f)).

Definition total_chars (docs : list Document) : Z :=
  foldr (fun d acc => Py.len (page_content d) + acc) 0 docs.

(** [max(600, min(1200, int(total_chars / 50)))]: the quotient is
    non-negative, so [int] is the floor. *)
Definition target_size (total : Z) : Z := Z.max 600 (Z.min 1200 (total / 50)).

(** [int(target_size * 0.15)] *)
Definition overlap (target : Z) : Z := target * 3 / 20.

(** The state of the accumulation loop. *)
Record Accum := mkAccum {
  current_content : list string;
  current_start : Z;
  current_len : Z
}.

Definition timestamp_label (start : Z) : string :=
  ("[Timestamp: " ++ Py.str_of_int start ++ "s] ")%string.

(** The loop over [enumerate(fragment_docs)]; the test [i == len - 1] is
    "no fragment follows". *)
Fixpoint accumulate (video_id : string) (target : Z) (st : Accum)
    (docs : list Document) : list Document :=
  match docs with
  | [] => []
  | doc :: rest =>
      let start :=
        match current_content st with
        | [] => md_start (metadata doc)
        | _ => current_start st
        end in
      let content := current_content st ++ [page_content doc] in
      let clen := current_len st + Py.len (page_content doc) in
      let cend := md_end (metadata doc) in
      if (target <=? clen) || (match rest with [] => true | _ => false end)
      then
        mkDocument (timestamp_label start ++ Py.join " " content)
                   (mkMetadata video_id start cend)
        :: accumulate video_id target (mkAccum [] start 0) rest
      else accumulate video_id target (mkAccum content start clen) rest
  end.

Section Chunker.

(** [RecursiveCharacterTextSplitter(chunk_size, chunk_overlap).split_documents],
    a library outside the repository. *)
Variable split_documents : Z -> Z -> list Document -> list Document.

Definition ingest_video_to_chunks (video_id : string)
    (fragments : list Fragment) : list Document * Z :=
  let fragment_docs := fragment_doc video_id <$> fragments in
  match fragment_docs with
  | [] => ([], 5)
  | _ =>
      let target := target_size (total_chars fragment_docs) in
      let raw_docs := accumulate video_id target (mkAccum [] 0 0) fragment_docs in
      let chunks := split_documents target (overlap target) raw_docs in
      (chunks, dynamic_k (Z.of_nat (length chunks)))
  end.

End Chunker.

End Transcript.

(** * retriever.py (evidence formatting) *)

Module Retriever.

(** [re.search(r"[,.\?\!]{3,}", txt)] *)
Definition is_punct (c : ascii) : bool :=
  (Py.code c =? 44) || (Py.code c =? 46) || (Py.code c =? 63) || (Py.code c =? 33).

Fixpoint has_punct_run (s : string) : bool :=
  match s with
  | String a ((String b (String c _)) as s') =>
      (is_punct a && is_punct b && is_punct c) || has_punct_run s'
  | _ => false
  end.

(** [re.fullmatch(r"[\d,.\-]+", t)] *)
Definition is_numeric_char (c : ascii) : bool :=
  Py.isdigit c || (Py.code c =? 44) || (Py.code c =? 46) || (Py.code c =? 45).

Definition is_numeric_token (t : string) : bool :=
  match t with
  | EmptyString => false
  | _ => Py.str_forallb is_numeric_char t
  end.

(** [not any(ch.isalpha() or ch.isdigit() for ch in t)] *)
Definition lacks_alnum (t : string) : bool :=
  negb (Py.str_existsb (fun ch => Py.isalpha ch || Py.isdigit ch) t).

(** [is_low_quality_text].  The three ratio tests compare a quotient of two
    token counts with a decimal constant; for counts below [2^50] the
    double comparison [a / m > 0.25] is [4 * a > m], [a / m > 0.4] is
    [5 * a > 2 * m] and [a / m > 0.6] is [5 * a > 3 * m]. *)
Definition is_low_quality_text_min (s : string) (min_len : Z) : bool :=
  match s with
  | EmptyString => true
  | _ =>
      let txt := Py.strip s in
      if Py.len txt <? min_len then true else
      let tokens := Py.split txt in
      match tokens with
      | [] => true
      | _ =>
          let m := Z.max 1 (Z.of_nat (length tokens)) in
          let one_char := Py.count (fun t => Py.len t =? 1) tokens in
          if m <? 4 * one_char then true else
          let non_alnum := Py.count lacks_alnum tokens in
          if 2 * m <? 5 * non_alnum then true else
          if has_punct_run txt then true else
          let numeric_tokens := Py.count is_numeric_token tokens in
          if 3 * m <? 5 * numeric_tokens then true else
          false
      end
  end.

(** The default [min_len = 15]. *)
Definition is_low_quality_text (s : string) : bool :=
  is_low_quality_text_min s 15.

Record Stats := mkStats { kept : Z; dropped : Z }.

(** [content[:277] + "..." if len(content) > 280 else content] *)
Definition quote (content : string) : string :=
  if 280 <? Py.len content then (Py.str_take 277 content ++ "...")%string
  else content.

(** The loop of [format_evidence]: the kept lines and the two counters. *)
Fixpoint format_loop (filter_low_quality : bool) (docs : list Document)
    : list string * Stats :=
  match docs with
  | [] => ([], mkStats 0 0)
  | d :: rest =>
      let content := Py.replace_newlines (Py.strip (page_content d)) in
      let '(lines, st) := format_loop filter_low_quality rest in
      if filter_low_quality && is_low_quality_text content
      then (lines, mkStats (kept st) (dropped st + 1))
      else
        let ts := Transcript.sec_to_mmss (md_start (metadata d)) in
        (("[" ++ ts ++ "] " ++ quote content)%string :: lines,
         mkStats (kept st + 1) (dropped st))
  end.

Definition format_evidence (docs : list Document) (filter_low_quality : bool)
    : string * Stats :=
  match docs with
  | [] => ("No transcript evidence found."%string, mkStats 0 0)
  | _ =>
      let '(kept_lines, st) := format_loop filter_low_quality docs in
      if kept st =? 0 then
        ("No good transcript evidence found (most retrieved segments were low-quality)."%string,
         st)
      else (Py.join (String Py.newline EmptyString) kept_lines, st)
  end.

End Retriever.

(** * embeddings.py *)

(** ** Values returned by the embedding provider *)

(** A Python float, as far as [math.isfinite] can tell. *)
Inductive PyFloat :=
  | Finite (x : Z)
  | NaN
  | PosInf
  | NegInf.

Definition isfinite (f : PyFloat) : bool :=
  match f with Finite _ => true | _ => false end.

(** What the provider may hand back: a number, a list or tuple (possibly
    nested), or anything else ([float(x)] raises on it). *)
#[warnings="-register-all"]
Inductive PyObj :=
  | PyNum (f : PyFloat)
  | PyOther
  | PySeq (items : list PyObj).

(** The leaves in order: the traversal both [_flatten] helpers perform. *)
Fixpoint leaves (x : PyObj) : list PyObj :=
  match x with
  | PySeq items => flat_map leaves items
  | leaf => [leaf]
  end.

(** [float(v)], [None] when it raises. *)
Definition to_float (v : PyObj) : option PyFloat :=
  match v with
  | PyNum f => Some f
  | _ => None
  end.

Definition zero : PyFloat := Finite 0.

(** [SafeOllamaEmbeddings._sanitize_vector] *)
Definition _sanitize_vector (vec : PyObj) : list PyFloat :=
  (fun v =>
     match to_float v with
     | Some fv => if isfinite fv then fv else zero
     | None => zero
     end) <$> leaves vec.

Definition float_list (l : list PyFloat) : PyObj := PySeq (PyNum <$> l).

(** The raw provider, [OllamaEmbeddings.embed_query]: the answer to the
    [n]-th call, [None] when the call raises. *)
Definition Provider := nat -> string -> option PyObj.

(** The body of the [try] in the validators:
<<
    flat = [] ; _flatten(vec)
    if not flat or len(flat) < min_length: raise ValueError
    if any(not math.isfinite(v) for v in flat): raise ValueError
>>
    [min_length] is 100 in [embeddings.py] and [singleVideo.py]; the test is
    absent from [multiVideo.py], which only rejects an empty [flat]. *)
Definition embedding_ok (min_length : Z) (vec : PyObj) : bool :=
  match mapM to_float (leaves vec) with
  | None => false
  | Some flat =>
      match flat with
      | [] => false
      | _ =>
          if Z.of_nat (length flat) <? min_length then false
          else forallb isfinite flat
      end
  end.

(** [validated_chunks[-1] = Document(prev.page_content + " " + content,
    prev.metadata)] *)
Fixpoint merge_into_last (validated : list Document) (content : string)
    : list Document :=
  match validated with
  | [] => []
  | [prev] =>
      [mkDocument (page_content prev ++ " " ++ content)%string (metadata prev)]
  | d :: rest => d :: merge_into_last rest content
  end.

(** The chunk validator, shared text of [embeddings.py], [singleVideo.py] and
    [multiVideo.py]; the copies differ in [embed_query] and in the length
    test, which are the two parameters. *)
Section Validator.

(** [unicodedata.normalize("NFKC", _)]; the identity on ASCII text. *)
Variable nfkc : string -> string.

(** [embeddings.embed_query] of the copy at hand: the call index before,
    the text; the vector ([None] when it raises) and the call index after. *)
Variable embed_query : nat -> string -> option PyObj * nat.
Variable min_length : Z.

(** Lines 78-89: the text that reaches the embedding attempts, [None] when
    the chunk is skipped. *)
Definition sanitize_content (raw : string) : option string :=
  let content := Py.strip raw in
  match content with
  | EmptyString => None
  | _ =>
      let content := Py.str_filter (fun ch => negb (Py.is_control ch)) content in
      let content := Py.join " " (Py.split content) in
      if Py.len content <? 15 then None
      else Some (nfkc content)
  end.

(** [for attempt in range(attempts)]: success flag and call index after. *)
Fixpoint embed_attempts (attempts : nat) (n : nat) (content : string)
    : bool * nat :=
  match attempts with
  | O => (false, n)
  | S attempts' =>
      match embed_query n content with
      | (Some vec, n') =>
          if embedding_ok min_length vec then (true, n')
          else embed_attempts attempts' n' content
      | (None, n') => embed_attempts attempts' n' content
      end
  end.

(** One iteration of [for chunk in chunks]. *)
Definition validate_chunk (st : list Document * nat) (chunk : Document)
    : list Document * nat :=
  let '(validated_chunks, n) := st in
  match sanitize_content (page_content chunk) with
  | None => (validated_chunks, n)
  | Some content =>
      match embed_attempts 2 n content with
      | (true, n') =>
          (validated_chunks ++ [mkDocument content (metadata chunk)], n')
      | (false, n') =>
          (merge_into_last validated_chunks content, n')
      end
  end.

Definition validate_chunks_from (st : list Document * nat)
    (chunks : list Document) : list Document * nat :=
  fold_left validate_chunk chunks st.

Definition validate_chunks_with (n : nat) (chunks : list Document)
    : list Document * nat :=
  validate_chunks_from ([], n) chunks.

End Validator.

Module Embeddings.

(** [SafeOllamaEmbeddings.embed_query]: two tries, then the last exception
    is raised again. *)
Fixpoint embed_query_tries (provider : Provider) (tries : nat) (n : nat)
    (text : string) : option PyObj * nat :=
  match tries with
  | O => (None, n)
  | S tries' =>
      match provider n text with
      | Some raw => (Some (float_list (_sanitize_vector raw)), S n)
      | None => embed_query_tries provider tries' (S n) text
      end
  end.

Definition embed_query (provider : Provider) : nat -> string -> option PyObj * nat :=
  embed_query_tries provider 2.

Definition validate_chunks_for_embeddings (nfkc : string -> string)
    (provider : Provider) : nat -> list Document -> list Document * nat :=
  validate_chunks_with nfkc (embed_query provider) 100.

End Embeddings.

(** * The process state and the collaborators *)

(** The metadata dictionary of [fetch_video_metadata]. *)
Record VideoInfo := mkVideoInfo {
  vi_video_id : string;
  vi_title : string;
  vi_channel : string;
  vi_date : string;
  vi_description : string
}.

(** A [Chroma] handle: the collection and the documents it was built from. *)
Record Chroma := mkChroma {
  collection_name : string;
  indexed : list Document
}.

(** The result dictionary of [process_video] / [process_and_store_video]. *)
Record ProcessedVideo := mkProcessedVideo {
  pv_video_id : string;
  pv_metadata : VideoInfo;
  pv_chunks : list Document;
  pv_dynamic_k : Z;
  pv_vectorstore : option Chroma
}.

(** [ChatMessageHistory]: the messages, oldest first. *)
Inductive MessageType := human | ai.
Record Message := mkMessage { msg_type : MessageType; msg_content : string }.

Definition add_user_message (history : list Message) (m : string) : list Message :=
  history ++ [mkMessage human m].
Definition add_ai_message (history : list Message) (m : string) : list Message :=
  history ++ [mkMessage ai m].

Definition type_name (t : MessageType) : string :=
  match t with human => "human" | ai => "ai" end.

Definition nl : string := String Py.newline EmptyString.

(** ["\n".join([f"{m.type}: {m.content}" for m in history.messages[-n:]])] *)
Definition history_str (n : nat) (history : list Message) : string :=
  Py.join nl
    ((fun m => (type_name (msg_type m) ++ ": " ++ msg_content m)%string)
       <$> Py.last_n n history).

(** The route labels; [ERROR] only ever appears in results. *)
Inductive Intent := SUMMARY | RAG | COMPARE | DUAL_SUMMARY | ERROR.

#[global] Instance Intent_eq_dec : EqDecision Intent.
Proof. solve_decision. Defined.

(** A request to [open_router_model]: the template and the values
    substituted into it.  The router template comes in three variants: the
    two-label [Router] of [pipeline.py] ([secondary = None]), its
    four-label [MultiRouter] and the [RouterModel] of [multiVideo.py]
    ([secondary = Some _], the latter with its [SECONDARY_PROVIDED] flag).
    [QueryConstructorPrompt] is the request of [query_constructor], the
    runnable [load_query_constructor_runnable(llm=open_router_model, ...)]
    that every [SelfQueryRetriever] runs on the query before it searches
    the store. *)
Inductive Prompt :=
  | RouterPrompt (history query : string) (secondary : option bool)
  | QueryConstructorPrompt (query : string)
  | SummaryPrompt (title final_text : string)
  | RagPrompt (context question video_id : string) (seconds : Z)
      (chat_history video_summary : string)
  | ComparisonPrompt (note user_question metadata_a metadata_b
      evidence_a evidence_b : string)
  | FallbackPrompt (user_question title channel date desc : string)
  | DualSummaryPrompt (meta_a : VideoInfo) (text_a : string)
      (meta_b : VideoInfo) (text_b : string).

(** [pipeline.py] keeps [history], [processed_videos] and [summary_cache]
    per session. *)
Record Session := mkSession {
  history : list Message;
  processed_videos : gmap string ProcessedVideo;
  summary_cache : gmap string string
}.

(** Everything the modules mutate: the [sessions] dictionary of
    [pipeline.py], [retrieval_cache] of [multiVideo.py] and the keys of
    [retrieval_locks] currently held by some other thread; [clock] counts
    the calls made to collaborators and [model_calls] lists the requests
    sent to [open_router_model], oldest first. *)
Record World := mkWorld {
  clock : nat;
  model_calls : list Prompt;
  sessions : gmap string Session;
  retrieval_cache : gmap string (list Document);
  locks_held : gset string
}.

(** What [retriever.get_relevant_documents(query)] does.  The method is the
    deprecated entry point of LangChain retrievers: a release that has
    dropped it raises [AttributeError] before anything is sent; a release
    that has it runs the query as [invoke] does. *)
Inductive LegacyQuery :=
  | NoSuchMethod
  | Queried (answer : option (list Document)).

(** The collaborators.  Each answer may depend on the moment of the call;
    [None] stands for a raised exception.  [env_retriever] is what a query
    of a [SelfQueryRetriever] over the given store and [k] comes to, the
    answer of the query constructor's model and the search of the store
    taken together. *)
Record Env := mkEnv {
  env_nfkc : string -> string;
  env_split_documents : Z -> Z -> list Document -> list Document;
  env_fetch_video_metadata : nat -> string -> VideoInfo;
  env_fetch_transcript_fragments : nat -> string -> list Transcript.Fragment;
  env_provider : Provider;
  env_from_documents : nat -> list Document -> string -> option Chroma;
  env_router : nat -> Prompt -> option Intent;
  env_retriever : nat -> Chroma -> Z -> string -> option (list Document);
  env_get_relevant_documents : nat -> Chroma -> Z -> string -> LegacyQuery;
  env_model : nat -> Prompt -> option string
}.

(** ** Computations that may raise *)

Inductive Outcome (A : Type) :=
  | Return (a : A)
  | Raise.
Arguments Return {A} a.
Arguments Raise {A}.

Definition M (A : Type) : Type := World -> Outcome A * World.

Definition ret {A} (a : A) : M A := fun w => (Return a, w).
Definition raise {A} : M A := fun w => (Raise, w).
Definition bind {A B} (m : M A) (k : A -> M B) : M B :=
  fun w =>
    match m w with
    | (Return a, w') => k a w'
    | (Raise, w') => (Raise, w')
    end.

(** [try: m except Exception: h] *)
Definition try_except {A} (m : M A) (h : M A) : M A :=
  fun w =>
    match m w with
    | (Return a, w') => (Return a, w')
    | (Raise, w') => h w'
    end.

Declare Scope m_scope.
Delimit Scope m_scope with M.
Notation "x <- m ;; k" := (bind m (fun x => k))
  (at level 100, m at next level, right associativity) : m_scope.
Notation "m ;;; k" := (bind m (fun _ => k))
  (at level 100, right associativity) : m_scope.

Definition set_clock (n : nat) (w : World) : World :=
  mkWorld n (model_calls w) (sessions w) (retrieval_cache w) (locks_held w).
Definition set_sessions (ss : gmap string Session) (w : World) : World :=
  mkWorld (clock w) (model_calls w) ss (retrieval_cache w) (locks_held w).
Definition set_retrieval_cache (c : gmap string (list Document)) (w : World) : World :=
  mkWorld (clock w) (model_calls w) (sessions w) c (locks_held w).
Definition set_locks_held (l : gset string) (w : World) : World :=
  mkWorld (clock w) (model_calls w) (sessions w) (retrieval_cache w) l.
Definition log_model_call (p : Prompt) (w : World) : World :=
  mkWorld (clock w) (model_calls w ++ [p]) (sessions w) (retrieval_cache w)
    (locks_held w).

(** A call to a collaborator that always answers. *)
Definition call {A} (oracle : nat -> A) : M A :=
  fun w => (Return (oracle (clock w)), set_clock (S (clock w)) w).

(** A call to a collaborator that may raise. *)
Definition call_raising {A} (oracle : nat -> option A) : M A :=
  fun w =>
    match oracle (clock w) with
    | Some a => (Return a, set_clock (S (clock w)) w)
    | None => (Raise, set_clock (S (clock w)) w)
    end.

(** [open_router_model.invoke(prompt)] and the chains ending in a string
    parser. *)
Definition model_invoke (env : Env) (p : Prompt) : M string :=
  fun w => call_raising (fun n => env_model env n p) (log_model_call p w).

(** [build_self_query_retriever(vs, k).invoke(q)]: the query constructor
    sends its request to [open_router_model], then the store is searched;
    an exception of either step is the exception of the call. *)
Definition retriever_invoke (env : Env) (vs : Chroma) (k : Z) (q : string)
    : M (list Document) :=
  fun w =>
    call_raising (fun n => env_retriever env n vs k q)
      (log_model_call (QueryConstructorPrompt q) w).

(** [build_self_query_retriever(vs, k).get_relevant_documents(q)] *)
Definition retriever_get_relevant_documents (env : Env) (vs : Chroma) (k : Z)
    (q : string) : M (list Document) :=
  fun w =>
    match env_get_relevant_documents env (clock w) vs k q with
    | NoSuchMethod => (Raise, w)
    | Queried answer =>
        call_raising (fun _ => answer) (log_model_call (QueryConstructorPrompt q) w)
    end.

(** * pipeline.py *)

Module Pipeline.

Record Source := mkSource { src_timestamp : Z; src_video_id : string }.

(** The dictionary returned by [chat_with_video]. *)
Record ChatResult := mkChatResult {
  response : string;
  intent : Intent;
  sources : list Source
}.

(** The dictionary returned by [summarize_video]. *)
Record SummaryResult := mkSummaryResult {
  summary : string;
  video_info : VideoInfo
}.

(** The dictionary returned by [compare_videos]; the two metadata keys are
    present on the [COMPARE] result only. *)
Record CompareResult := mkCompareResult {
  cmp_response : string;
  cmp_intent : Intent;
  cmp_video_a : option VideoInfo;
  cmp_video_b : option VideoInfo
}.

Definition MAX_CHARS : Z := 500000.

(** The text [_get_universal_summary] puts in the prompt (lines 419-427). *)
Definition summary_text (chunks : list Document) : string :=
  let total_text := Py.join " " (page_content <$> chunks) in
  if MAX_CHARS <? Py.len total_text then
    let step := Py.len total_text / MAX_CHARS + 1 in
    let sampled := Py.slice_step step chunks in
    Py.join " " (page_content <$> sampled)
  else total_text.

Section WithEnv.

Variable env : Env.

Local Open Scope m_scope.

(** [sessions[session_id]]; a missing key raises. *)
Definition get_session (session_id : string) : M Session :=
  fun w =>
    match sessions w !! session_id with
    | Some s => (Return s, w)
    | None => (Raise, w)
    end.

(** An in-place update of the session object. *)
Definition update_session (session_id : string) (f : Session -> Session) : M unit :=
  fun w => (Return tt, set_sessions (alter f session_id (sessions w)) w).

Definition set_history (h : list Message) (s : Session) : Session :=
  mkSession h (processed_videos s) (summary_cache s).
Definition set_processed_videos (p : gmap string ProcessedVideo) (s : Session) : Session :=
  mkSession (history s) p (summary_cache s).
Definition set_summary_cache (c : gmap string string) (s : Session) : Session :=
  mkSession (history s) (processed_videos s) c.

(** [history.add_user_message(q); history.add_ai_message(a)] on the
    session's history object. *)
Definition record_turn (session_id q a : string) : M unit :=
  update_session session_id
    (fun s => set_history (add_ai_message (add_user_message (history s) q) a) s).

(** The labels the two pydantic models accept. *)
Definition route_allowed (multi_mode : bool) (i : Intent) : bool :=
  match i with
  | SUMMARY | RAG => true
  | COMPARE | DUAL_SUMMARY => multi_mode
  | ERROR => false
  end.

(** [get_intent]: any failure of the chain, the parser included, yields
    ["RAG"]. *)
Definition get_intent (query : string) (history : list Message)
    (multi_mode : bool) : M Intent :=
  let p := RouterPrompt (history_str 4 history) query
             (if multi_mode then Some true else None) in
  try_except
    (fun w =>
       (i <- call_raising (fun n => env_router env n p) ;;
        if route_allowed multi_mode i then ret i else raise)
         (log_model_call p w))
    (ret RAG).

(** [retriever.create_vectorstore_for_video] *)
Definition create_vectorstore_for_video (video_id : string)
    (chunks : list Document) (collection : option string) : M (option Chroma) :=
  let collection :=
    match collection with
    | Some c => c
    | None => ("youtube-transcript-" ++ video_id)%string
    end in
  validated <-
    (fun w =>
       let '(v, n) :=
         Embeddings.validate_chunks_for_embeddings (env_nfkc env)
           (env_provider env) (clock w) chunks in
       (Return v, set_clock n w)) ;;
  match validated with
  | [] => ret None
  | _ =>
      store <- call_raising (fun n => env_from_documents env n validated collection) ;;
      ret (Some store)
  end.

(** [transcript.ingest_video_to_chunks] on the fragments the transcript
    service returns. *)
Definition ingest_video_to_chunks (video_id : string) : M (list Document * Z) :=
  fragments <- call (fun n => env_fetch_transcript_fragments env n video_id) ;;
  ret (Transcript.ingest_video_to_chunks (env_split_documents env) video_id fragments).

Definition process_video (session_id video_url : string) : M ProcessedVideo :=
  session <- get_session session_id ;;
  let video_id := Transcript.extract_video_id video_url in
  match processed_videos session !! video_id with
  | Some cached => ret cached
  | None =>
      meta <- call (fun n => env_fetch_video_metadata env n video_id) ;;
      ingested <- ingest_video_to_chunks video_id ;;
      let '(chunks, dynamic_k) := ingested in
      vectorstore <-
        match chunks with
        | [] => ret None
        | _ => create_vectorstore_for_video video_id chunks
                 (Some ("youtube-" ++ video_id)%string)
        end ;;
      let result := mkProcessedVideo video_id meta chunks dynamic_k vectorstore in
      update_session session_id
        (fun s => set_processed_videos (<[video_id := result]> (processed_videos s)) s) ;;;
      ret result
  end.

(** [_get_universal_summary] *)
Definition _get_universal_summary (chunks : list Document) (meta : VideoInfo)
    : M string :=
  model_invoke env (SummaryPrompt (vi_title meta) (summary_text chunks)).

(** [if video_id not in session["summary_cache"]: ...] followed by the
    lookup. *)
Definition cached_summary (session_id video_id : string)
    (chunks : list Document) (meta : VideoInfo) : M string :=
  session <- get_session session_id ;;
  match summary_cache session !! video_id with
  | Some s => ret s
  | None =>
      s <- _get_universal_summary chunks meta ;;
      update_session session_id
        (fun ss => set_summary_cache (<[video_id := s]> (summary_cache ss)) ss) ;;;
      ret s
  end.

Definition error_result (msg : string) : ChatResult := mkChatResult msg ERROR [].

(** [[f"[{d.metadata['start']}s]: {d.page_content}" for d in good_docs]]
    joined by a blank line. *)
Definition context_of (good_docs : list Document) : string :=
  Py.join (nl ++ nl)
    ((fun d => ("[" ++ Py.str_of_int (md_start (metadata d)) ++ "s]: "
                  ++ page_content d)%string) <$> good_docs).

Definition good_docs_of (retrieved_docs : list Document) : list Document :=
  List.filter (fun d => negb (Retriever.is_low_quality_text (page_content d)))
    retrieved_docs.

Definition first_start (good_docs : list Document) : Z :=
  match good_docs with
  | d :: _ => md_start (metadata d)
  | [] => 0
  end.

Definition chat_with_video (session_id video_url message : string) : M ChatResult :=
  session <- get_session session_id ;;
  let video_id := Transcript.extract_video_id video_url in
  processed <- process_video session_id video_url ;;
  let meta := pv_metadata processed in
  let chunks := pv_chunks processed in
  match chunks, pv_vectorstore processed with
  | [], _ | _, None =>
      ret (error_result
             ("Transcript not available for video " ++ video_id
                ++ ". Please provide a video with captions."))
  | _ :: _, Some vectorstore =>
      session <- get_session session_id ;;
      intent <- get_intent message (history session) false ;;
      if decide (intent = SUMMARY) then
        summary <- cached_summary session_id video_id chunks meta ;;
        record_turn session_id message summary ;;;
        ret (mkChatResult summary SUMMARY [])
      else
        retrieved <-
          try_except
            (docs <- retriever_invoke env vectorstore
                       (pv_dynamic_k processed) message ;;
             ret (Some docs))
            (ret None) ;;
        match retrieved with
        | None => ret (error_result "Error retrieving relevant documents.")
        | Some retrieved_docs =>
            let good_docs := good_docs_of retrieved_docs in
            let context_text := context_of good_docs in
            let timestamp := first_start good_docs in
            session <- get_session session_id ;;
            let chat_history := history_str 6 (history session) in
            try_except
              (result <- model_invoke env
                           (RagPrompt context_text message video_id timestamp
                              chat_history (vi_title meta)) ;;
               record_turn session_id message result ;;;
               ret (mkChatResult result RAG
                      ((fun d => mkSource (md_start (metadata d)) video_id)
                         <$> take 3 good_docs)))
              (ret (error_result "Error generating an answer."))
        end
  end.

Definition summarize_video (session_id video_url : string) : M SummaryResult :=
  session <- get_session session_id ;;
  let video_id := Transcript.extract_video_id video_url in
  processed <- process_video session_id video_url ;;
  let meta := pv_metadata processed in
  match pv_chunks processed with
  | [] =>
      ret (mkSummaryResult
             ("Transcript not available for video " ++ video_id ++ ".") meta)
  | chunks =>
      s <- cached_summary session_id video_id chunks meta ;;
      ret (mkSummaryResult s meta)
  end.

(** The metadata block of the comparison prompt. *)
Definition metadata_str (m : VideoInfo) : string :=
  ("video_id: " ++ vi_video_id m ++ nl
   ++ "title: " ++ vi_title m ++ nl
   ++ "channel: " ++ vi_channel m ++ nl
   ++ "date: " ++ vi_date m ++ nl
   ++ "description: " ++ Py.str_take 400 (vi_description m))%string.

(** The evidence block of one side:
<<
    evidence_text = "No evidence available."
    if vs:
        retr = build_self_query_retriever(vs, proc["dynamic_k"] or 5)
        try:
            docs = retr.invoke(question)
            evidence_text, _ = format_evidence(docs)
        except Exception:
            pass
>> *)
Definition evidence_for (proc : ProcessedVideo) (question : string) : M string :=
  match pv_vectorstore proc with
  | None => ret "No evidence available."%string
  | Some vs =>
      let k := if pv_dynamic_k proc =? 0 then 5 else pv_dynamic_k proc in
      try_except
        (docs <- retriever_invoke env vs k question ;;
         ret (fst (Retriever.format_evidence docs true)))
        (ret "No evidence available."%string)
  end.

Definition compare_videos (session_id url1 url2 question : string) : M CompareResult :=
  session <- get_session session_id ;;
  proc_a <- process_video session_id url1 ;;
  proc_b <- process_video session_id url2 ;;
  let meta_a := pv_metadata proc_a in
  let meta_b := pv_metadata proc_b in
  match pv_vectorstore proc_a, pv_vectorstore proc_b with
  | None, None =>
      ret (mkCompareResult "Transcripts missing for both videos. Cannot compare."
             ERROR None None)
  | _, _ =>
      evidence_a_text <- evidence_for proc_a question ;;
      evidence_b_text <- evidence_for proc_b question ;;
      let prompt_text :=
        ComparisonPrompt "" question (metadata_str meta_a) (metadata_str meta_b)
          evidence_a_text evidence_b_text in
      try_except
        (res <- model_invoke env prompt_text ;;
         record_turn session_id question res ;;;
         ret (mkCompareResult res COMPARE (Some meta_a) (Some meta_b)))
        (ret (mkCompareResult "Error during comparison." ERROR None None))
  end.

(** [get_or_create_session]; [uuid4] is the text [str(uuid.uuid4())]
    yields.  An empty [session_id] is falsy, like [None]:
<<
    if session_id and session_id in sessions:
        return session_id
    new_id = session_id or str(uuid.uuid4())
    sessions[new_id] = {"history": ChatMessageHistory(), ...}
    return new_id
>> *)
Definition new_session : Session := mkSession [] ∅ ∅.

Definition get_or_create_session (uuid4 : string) (session_id : option string)
    : M string :=
  fun w =>
    let given :=
      match session_id with
      | Some (String c s) => Some (String c s)
      | _ => None
      end in
    match given with
    | Some sid =>
        match sessions w !! sid with
        | Some _ => (Return sid, w)
        | None =>
            (Return sid, set_sessions (<[sid := new_session]> (sessions w)) w)
        end
    | None =>
        (Return uuid4, set_sessions (<[uuid4 := new_session]> (sessions w)) w)
    end.

(** [routes/video.py], [chat_endpoint]: the session is ensured, its id is
    not looked at again, and the chat runs under the id of the request;
    [Raise] stands for the [HTTPException] with status 500. *)
Definition chat_endpoint (uuid4 session_id video_url message : string)
    : M ChatResult :=
  get_or_create_session uuid4 (Some session_id) ;;;
  chat_with_video session_id video_url message.

End WithEnv.

End Pipeline.

(** * multiVideo.py *)

Module MultiVideo.

(** [extract_video_id]: the pattern of this file is
    [(?:v=|\/)([0-9A-Za-z_-]{11}).*]. *)
Fixpoint re_search (s : string) : option string :=
  match Transcript.match_alternatives ["v="; "/"]%string s with
  | Some g => Some g
  | None =>
      match s with
      | EmptyString => None
      | String _ s' => re_search s'
      end
  end.

Definition extract_video_id (url_or_id : string) : string :=
  match re_search url_or_id with
  | Some g => g
  | None => url_or_id
  end.

(** [SafeOllamaEmbeddings.embed_query] of this file: two tries, then the
    "safe zero vector" [[0.0]]. *)
Fixpoint embed_query_tries (provider : Provider) (tries : nat) (n : nat)
    (text : string) : option PyObj * nat :=
  match tries with
  | O => (Some (float_list [zero]), n)
  | S tries' =>
      match provider n text with
      | Some raw => (Some (float_list (_sanitize_vector raw)), S n)
      | None => embed_query_tries provider tries' (S n) text
      end
  end.

Definition embed_query (provider : Provider) : nat -> string -> option PyObj * nat :=
  embed_query_tries provider 2.

(** The validator of this file rejects an empty [flat] and a non-finite
    element, and has no length test. *)
Definition validate_chunks_for_embeddings (nfkc : string -> string)
    (provider : Provider) : nat -> list Document -> list Document * nat :=
  validate_chunks_with nfkc (embed_query provider) 0.

(** [prepare_text] of [get_dual_video_summary]. *)
Definition MAX_CHARS : Z := 500000.

Definition prepare_text (chunks : list Document) : string :=
  let total_text := Py.join " " (page_content <$> chunks) in
  if MAX_CHARS <? Py.len total_text then
    let step := Py.len total_text / MAX_CHARS + 1 in
    let sampled_chunks := Py.slice_step step chunks in
    Py.join " " (page_content <$> sampled_chunks)
  else total_text.

(** The two de-duplication loops of [get_structured_docs]. *)
Definition doc_key (d : Document) : string * Z :=
  (md_video_id (metadata d), md_start (metadata d)).

(** The fallback path: every first occurrence. *)
Fixpoint dedupe (seen : gset (string * Z)) (docs : list Document) : list Document :=
  match docs with
  | [] => []
  | d :: rest =>
      if decide (doc_key d ∈ seen) then dedupe seen rest
      else d :: dedupe ({[doc_key d]} ∪ seen) rest
  end.

(** The main path: the bound is tested after the append. *)
Fixpoint dedupe_and_trim (k : Z) (seen_keys : gset (string * Z))
    (final : list Document) (docs : list Document) : list Document :=
  match docs with
  | [] => final
  | d :: rest =>
      if decide (doc_key d ∈ seen_keys) then dedupe_and_trim k seen_keys final rest
      else
        let final := final ++ [d] in
        if k <=? Z.of_nat (length final) then final
        else dedupe_and_trim k ({[doc_key d]} ∪ seen_keys) final rest
  end.

(** The dictionary returned by [handle_user_query] ([meta] is always empty). *)
Record QueryResult := mkQueryResult {
  qr_intent : Intent;
  qr_response : string
}.

Section WithEnv.

Variable env : Env.

Local Open Scope m_scope.

Definition create_vectorstore_for_video (video_id : string)
    (chunks : list Document) (collection : option string) : M (option Chroma) :=
  let collection :=
    match collection with
    | Some c => c
    | None => ("youtube-transcript-" ++ video_id)%string
    end in
  validated <-
    (fun w =>
       let '(v, n) :=
         validate_chunks_for_embeddings (env_nfkc env) (env_provider env)
           (clock w) chunks in
       (Return v, set_clock n w)) ;;
  match validated with
  | [] => ret None
  | _ =>
      store <- call_raising (fun n => env_from_documents env n validated collection) ;;
      ret (Some store)
  end.

Definition process_and_store_video (video_url_or_id : string)
    (collection_name : option string) : M ProcessedVideo :=
  let video_id := extract_video_id video_url_or_id in
  meta <- call (fun n => env_fetch_video_metadata env n video_id) ;;
  fragments <- call (fun n => env_fetch_transcript_fragments env n video_id) ;;
  let '(chunks, dynamic_k) :=
    Transcript.ingest_video_to_chunks (env_split_documents env) video_id fragments in
  match chunks with
  | [] => ret (mkProcessedVideo video_id meta [] dynamic_k None)
  | _ =>
      let collection :=
        match collection_name with
        | Some c => c
        | None => ("youtube-" ++ video_id)%string
        end in
      vectorstore <- create_vectorstore_for_video video_id chunks (Some collection) ;;
      ret (mkProcessedVideo video_id meta chunks dynamic_k vectorstore)
  end.

(** A retriever built by [build_self_query_retriever] (the store and [k]),
    or [None], on which every attribute access raises. *)
Definition get_relevant_documents (retriever : option (Chroma * Z)) (q : string)
    : M (list Document) :=
  match retriever with
  | None => raise
  | Some (vs, k) => retriever_get_relevant_documents env vs k q
  end.

Definition invoke (retriever : option (Chroma * Z)) (q : string)
    : M (list Document) :=
  match retriever with
  | None => raise
  | Some (vs, k) => retriever_invoke env vs k q
  end.

(** The retrieval of [answer_question_single] (lines 661-668):
<<
    try:
        retrieved_docs = retriever.get_relevant_documents(user_question)
    except Exception:
        try:
            retrieved_docs = retriever.invoke(user_question)
        except Exception as e:
            return "Error retrieving relevant documents."
>>
    [None] is the early return. *)
Definition retrieve_documents (retriever : option (Chroma * Z)) (q : string)
    : M (option (list Document)) :=
  try_except
    (docs <- get_relevant_documents retriever q ;; ret (Some docs))
    (try_except
       (docs <- invoke retriever q ;; ret (Some docs))
       (ret None)).

(** [answer_question_single]; the history object is threaded. *)
Definition answer_question_single (video_url_or_id user_question : string)
    (history : list Message) : M (string * list Message) :=
  processed <- process_and_store_video video_url_or_id None ;;
  let video_id := pv_video_id processed in
  let meta := pv_metadata processed in
  match pv_chunks processed, pv_vectorstore processed with
  | [], _ | _, None =>
      ret (("Transcript not available for video " ++ video_id
              ++ ". Please enable captions or provide a transcript.")%string,
           history)
  | _ :: _, Some vectorstore =>
      let retriever := Some (vectorstore, pv_dynamic_k processed) in
      retrieved <- retrieve_documents retriever user_question ;;
      match retrieved with
      | None => ret ("Error retrieving relevant documents."%string, history)
      | Some retrieved_docs =>
          let '(evidence_text, stats) :=
            Retriever.format_evidence retrieved_docs true in
          if Retriever.kept stats =? 0 then
            fallback_resp <-
              model_invoke env
                (FallbackPrompt user_question (vi_title meta) (vi_channel meta)
                   (vi_date meta) (vi_description meta)) ;;
            ret (fallback_resp,
                 add_ai_message (add_user_message history user_question)
                   fallback_resp)
          else
            let good_docs := Pipeline.good_docs_of retrieved_docs in
            let context_text := Pipeline.context_of good_docs in
            let seconds := Pipeline.first_start good_docs in
            try_except
              (result <- model_invoke env
                           (RagPrompt context_text user_question video_id seconds
                              (history_str 6 history) (vi_title meta)) ;;
               ret (result,
                    add_ai_message (add_user_message history user_question) result))
              (ret ("Error generating an answer."%string, history))
      end
  end.

Definition cache_key (vectorstore_id user_query : string) : string :=
  (vectorstore_id ++ "__" ++ user_query)%string.

Definition store_in_cache (key : string) (docs : list Document) : M unit :=
  fun w => (Return tt, set_retrieval_cache (<[key := docs]> (retrieval_cache w)) w).

Definition acquire (key : string) : M unit :=
  fun w => (Return tt, set_locks_held ({[key]} ∪ locks_held w) w).
Definition release (key : string) : M unit :=
  fun w => (Return tt, set_locks_held (locks_held w ∖ {[key]}) w).

(** [get_structured_docs].  [lock.acquire(blocking=False)] fails exactly
    when another thread holds the lock of the key. *)
Definition get_structured_docs (vectorstore_id : string)
    (retriever : option (Chroma * Z)) (user_query : string) (k : Z)
    : M (list Document) :=
  let key := cache_key vectorstore_id user_query in
  fun w =>
    match retrieval_cache w !! key with
    | Some cached => (Return (Py.slice_to k cached), w)
    | None =>
        if decide (key ∈ locks_held w) then
          (* the lock is taken: the fast fallback *)
          try_except
            (docs <- get_relevant_documents retriever user_query ;;
             let merged := dedupe ∅ docs in
             store_in_cache key (Py.slice_to k merged) ;;;
             ret (Py.slice_to k merged))
            (ret []) w
        else
          (acquire key ;;;
           docs <-
             try_except (get_relevant_documents retriever user_query)
               (try_except (invoke retriever user_query) (ret [])) ;;
           let final := dedupe_and_trim k ∅ [] docs in
           store_in_cache key final ;;;
           release key ;;;
           ret final) w
    end.

Definition metadata_str (m : VideoInfo) (stats : Retriever.Stats) : string :=
  ("video_id: " ++ vi_video_id m ++ nl
   ++ "title: " ++ vi_title m ++ nl
   ++ "channel: " ++ vi_channel m ++ nl
   ++ "date: " ++ vi_date m ++ nl
   ++ "description: " ++ Py.str_take 400 (vi_description m) ++ nl
   ++ "(evidence_kept: " ++ Py.str_of_int (Retriever.kept stats)
   ++ ", evidence_dropped: " ++ Py.str_of_int (Retriever.dropped stats) ++ ")")%string.

Definition poor_transcript_note : string :=
  ("NOTE: One or both videos have poor-quality transcripts (many segments were dropped). Rely more on metadata."
   ++ nl ++ nl)%string.

Definition no_index (proc : ProcessedVideo) : bool :=
  match pv_chunks proc, pv_vectorstore proc with
  | [], _ | _, None => true
  | _, _ => false
  end.

Definition insufficient_data_compare : string :=
  "INSUFFICIENT_DATA: Transcripts missing for both videos. Please provide videos with captions or transcripts.".

Definition compare_videos (video_a_url_or_id video_b_url_or_id user_question : string)
    (top_k : Z) (history : list Message) : M (string * list Message) :=
  let id_a := extract_video_id video_a_url_or_id in
  let id_b := extract_video_id video_b_url_or_id in
  proc_a <- process_and_store_video video_a_url_or_id (Some ("youtube-" ++ id_a)%string) ;;
  proc_b <- process_and_store_video video_b_url_or_id (Some ("youtube-" ++ id_b)%string) ;;
  let k_of proc := if pv_dynamic_k proc =? 0 then 5 else pv_dynamic_k proc in
  if no_index proc_a && no_index proc_b then
    ret (insufficient_data_compare, history)
  else
    let retr_of proc := (fun vs => (vs, k_of proc)) <$> pv_vectorstore proc in
    docs_a <- get_structured_docs ("youtube-" ++ id_a) (retr_of proc_a) user_question top_k ;;
    docs_b <- get_structured_docs ("youtube-" ++ id_b) (retr_of proc_b) user_question top_k ;;
    let '(evidence_a_text, stats_a) := Retriever.format_evidence docs_a true in
    let '(evidence_b_text, stats_b) := Retriever.format_evidence docs_b true in
    let note :=
      if (Retriever.kept stats_a =? 0) || (Retriever.kept stats_b =? 0)
      then poor_transcript_note else ""%string in
    let prompt_text :=
      ComparisonPrompt note user_question
        (metadata_str (pv_metadata proc_a) stats_a)
        (metadata_str (pv_metadata proc_b) stats_b)
        evidence_a_text evidence_b_text in
    try_except
      (res <- model_invoke env prompt_text ;;
       ret (res, add_ai_message (add_user_message history user_question) res))
      (ret ("Error: comparison model invocation failed."%string, history)).

Definition get_dual_video_summary (chunks_a chunks_b : list Document)
    (metadata_a metadata_b : VideoInfo) : M string :=
  model_invoke env
    (DualSummaryPrompt metadata_a (prepare_text chunks_a)
       metadata_b (prepare_text chunks_b)).

(** [get_intent] of this file: one router model with the four labels. *)
Definition get_intent (user_query : string) (history : list Message)
    (secondary_provided : bool) : M Intent :=
  let p := RouterPrompt (history_str 4 history) user_query (Some secondary_provided) in
  try_except
    (fun w =>
       (i <- call_raising (fun n => env_router env n p) ;;
        if Pipeline.route_allowed true i then ret i else raise)
         (log_model_call p w))
    (ret RAG).

Definition insufficient_data_summary : string :=
  "INSUFFICIENT_DATA: Transcripts missing for both videos. Cannot summarize.".

Definition handle_user_query (primary secondary user_query : string)
    (history : list Message) : M (QueryResult * list Message) :=
  match primary, secondary with
  | EmptyString, _ | _, EmptyString =>
      ret (mkQueryResult ERROR
             "Both primary and secondary video URLs/IDs are required for this MVP.",
           history)
  | _, _ =>
      intent <- get_intent user_query history true ;;
      if decide (intent = DUAL_SUMMARY) then
        proc_a <- process_and_store_video primary
                    (Some ("youtube-" ++ extract_video_id primary)%string) ;;
        proc_b <- process_and_store_video secondary
                    (Some ("youtube-" ++ extract_video_id secondary)%string) ;;
        if no_index proc_a && no_index proc_b then
          ret (mkQueryResult intent insufficient_data_summary,
               add_ai_message (add_user_message history user_query)
                 insufficient_data_summary)
        else
          dual_summary <-
            get_dual_video_summary (pv_chunks proc_a) (pv_chunks proc_b)
              (pv_metadata proc_a) (pv_metadata proc_b) ;;
          ret (mkQueryResult intent dual_summary,
               add_ai_message (add_user_message history user_query) dual_summary)
      else if decide (intent = COMPARE) then
        r <- compare_videos primary secondary user_query 5 history ;;
        ret (mkQueryResult intent (fst r), snd r)
      else
        let q := Py.lower user_query in
        let chosen :=
          if existsb (fun tok => Py.contains tok q)
               ["second"; "video b"; "video 2"; "secondary"]%string
          then secondary else primary in
        r <- answer_question_single chosen user_query history ;;
        ret (mkQueryResult RAG (fst r), snd r)
  end.

End WithEnv.

End MultiVideo.

(** * The vocabulary of the specification *)

Module Spec.

Import Transcript.

Local Open Scope string_scope.

(** The specification's wording of [dynamic_k] uses [round] where the code
    uses [int]:
    [round(log2(n) * 1.5) = floor(log2(n) * 1.5 + 1/2)
                          = floor(log2(2 * n^3) / 2)].
    (The only tie below the clamp is [n = 32], where the product is [7.5];
    both rounding half up and rounding half to even give [8].) *)
Definition round_log2_times_1_5 (n : Z) : Z := (Z.log2 (2 * n ^ 3) / 2)%Z.

Definition dynamic_k_rounded (num_chunks : Z) : Z :=
  if (num_chunks <? 20)%Z then Z.min num_chunks 5
  else clamp (round_log2_times_1_5 num_chunks) 5 10.

(** An 11-character group over [[0-9A-Za-z_-]]. *)
Definition is_group (g : string) : Prop :=
  String.length g = 11%nat /\ Py.str_forallb is_id_char g = true.

(** [g] is such a group starting at offset [i] of [s], and one of ["v="],
    ["/"], ["be/"] stands immediately before it. *)
Definition group_at (s : string) (i : nat) (g : string) : Prop :=
  is_group g /\
  exists p pre post,
    In p alternatives /\ s = pre ++ p ++ g ++ post /\
    i = String.length (pre ++ p).

(** [ceil(a / b)] for a positive [b]. *)
Definition ceil_div (a b : Z) : Z := (a + b - 1) / b.

(** The string of [n] copies of [c]. *)
Definition filler (n : N) (c : ascii) : string :=
  N.iter n (String c) EmptyString.

(** What the validator does with one input chunk. *)
Inductive Verdict :=
  | Skipped                      (* empty or shorter than 15 characters *)
  | Validated (content : string) (* an embedding attempt succeeded *)
  | Merged (content : string)    (* both attempts failed; appended to the
                                    previous validated chunk *)
  | Dropped (content : string).  (* both attempts failed; nothing to merge
                                    into *)

Section Verdicts.

Variable nfkc : string -> string.
Variable embed_query : nat -> string -> option PyObj * nat.
Variable min_length : Z.

(** The verdicts of a run, chunk by chunk; [seen_valid] tells whether a
    validated chunk exists already, [n] is the call index. *)
Fixpoint verdicts (seen_valid : bool) (n : nat) (chunks : list Document)
    : list Verdict :=
  match chunks with
  | [] => []
  | chunk :: rest =>
      match sanitize_content nfkc (page_content chunk) with
      | None => Skipped :: verdicts seen_valid n rest
      | Some content =>
          match embed_attempts embed_query min_length 2 n content with
          | (true, n') => Validated content :: verdicts true n' rest
          | (false, n') =>
              (if seen_valid then Merged content else Dropped content)
                :: verdicts seen_valid n' rest
          end
      end
  end.

End Verdicts.

(** The characters of the sanitized texts that reached the embedding
    attempts, and of those among them that were dropped. *)
Definition reached_chars (vs : list Verdict) : Z :=
  foldr (fun v acc =>
           match v with
           | Skipped => acc
           | Validated c | Merged c | Dropped c => Py.len c + acc
           end) 0 vs.

Definition dropped_chars (vs : list Verdict) : Z :=
  foldr (fun v acc =>
           match v with
           | Dropped c => Py.len c + acc
           | _ => acc
           end) 0 vs.

(** What the output weighs: every validated text, and every merged text
    with the space that joins it. *)
Definition kept_chars (vs : list Verdict) : Z :=
  foldr (fun v acc =>
           match v with
           | Validated c => Py.len c + acc
           | Merged c => Py.len c + 1 + acc
           | _ => acc
           end) 0 vs.

Definition nonempty {A} (l : list A) : bool :=
  match l with [] => false | _ => true end.


(** The text of a chunk as the validator has it when it tests the length
    (lines 78-85): trimmed, without control characters, its whitespace runs
    collapsed; the NFKC normalization comes after the test. *)
Definition cleaned (raw : string) : string :=
  Py.join " "
    (Py.split (Py.str_filter (fun ch => negb (Py.is_control ch)) (Py.strip raw))).

(** The text a verdict is about. *)
Definition verdict_text (v : Verdict) : option string :=
  match v with
  | Skipped => None
  | Validated c | Merged c | Dropped c => Some c
  end.




(** No two documents of [docs] carry the same [(video_id, start)] pair. *)
Definition distinct_keys (docs : list Document) : Prop :=
  NoDup (MultiVideo.doc_key <$> docs).

(** [r] is, in [docs], the first document that carries its pair. *)
Definition first_seen (docs : list Document) (r : Document) : Prop :=
  exists i : nat,
    docs !! i = Some r /\
    forall (j : nat) (d : Document),
      (j < i)%nat -> docs !! j = Some d ->
      MultiVideo.doc_key d <> MultiVideo.doc_key r.

(** What the retriever answers to the queries of one call of
    [get_structured_docs] that begins at call index [n]: the answer of
    [get_relevant_documents] when it answers; otherwise, unless the call is
    on the fast fallback, where nothing else is tried, the answer of
    [invoke]; no document when every try raises. *)
Definition retriever_answer (env : Env) (retriever : option (Chroma * Z))
    (q : string) (n : nat) (fallback : bool) : list Document :=
  match retriever with
  | None => []
  | Some (vs, k) =>
      match env_get_relevant_documents env n vs k q with
      | Queried (Some docs) => docs
      | Queried None =>
          if fallback then [] else default [] (env_retriever env (S n) vs k q)
      | NoSuchMethod =>
          if fallback then [] else default [] (env_retriever env n vs k q)
      end
  end.

(** The documents a call of [get_structured_docs] draws from: the cached
    list on a hit, the answer of the retriever on a miss. *)
Definition retrieval_source (env : Env) (vectorstore_id : string)
    (retriever : option (Chroma * Z)) (q : string) (w : World) : list Document :=
  match retrieval_cache w !! MultiVideo.cache_key vectorstore_id q with
  | Some cached => cached
  | None =>
      retriever_answer env retriever q (clock w)
        (bool_decide (MultiVideo.cache_key vectorstore_id q ∈ locks_held w))
  end.

(** Every entry of [retrieval_cache] is free of duplicate pairs. *)
Definition cache_deduped (cache : gmap string (list Document)) : Prop :=
  forall (key : string) (docs : list Document),
    cache !! key = Some docs -> distinct_keys docs.

(** Collaborators for closed examples: the splitter returns the raw
    segments, the store is always built, the metadata are placeholders, the
    retrievers have no [get_relevant_documents], and the transcript, the
    embedding, the route, the retrieval by [invoke] and the completion are
    the given answers at every call. *)
Definition sample_env (fragments : list Transcript.Fragment)
    (embedding : option PyObj) (route : option Intent)
    (retrieved : option (list Document)) (answer : option string) : Env :=
  mkEnv (fun s => s)
        (fun _ _ docs => docs)
        (fun _ video_id => mkVideoInfo video_id "Unknown" "Unknown" "Unknown" "")
        (fun _ _ => fragments)
        (fun _ _ => embedding)
        (fun _ docs name => Some (mkChroma name docs))
        (fun _ _ => route)
        (fun _ _ _ _ => retrieved)
        (fun _ _ _ _ => NoSuchMethod)
        (fun _ _ => answer).

Definition empty_world : World := mkWorld 0 [] ∅ ∅ ∅.

(** The message history of every session. *)
Definition histories (w : World) : gmap string (list Message) :=
  history <$> sessions w.

(** A world with one fresh session, as [get_or_create_session] makes it. *)
Definition world_with_session (session_id : string) : World :=
  mkWorld 0 [] {[session_id := mkSession [] ∅ ∅]} ∅ ∅.

(** [m] leaves the observation [f] of the world alone, whatever its
    outcome. *)
Definition preserves {A B} (f : World -> B) (m : M A) : Prop :=
  forall (w w' : World) (o : Outcome A), m w = (o, w') -> f w' = f w.

(** A chat turn that keeps the histories whenever it returns an [ERROR]
    result. *)
Definition errors_keep_histories (m : M Pipeline.ChatResult) : Prop :=
  forall (w w' : World) (r : Pipeline.ChatResult),
    m w = (Return r, w') -> Pipeline.intent r = ERROR ->
    histories w' = histories w.

(** A chat turn that never returns an [ERROR] result. *)
Definition never_error (m : M Pipeline.ChatResult) : Prop :=
  forall (w w' : World) (r : Pipeline.ChatResult),
    m w = (Return r, w') -> Pipeline.intent r <> ERROR.

(** A vector of [n] copies of the number 1. *)
Definition ones (n : nat) : PyObj := PySeq (repeat (PyNum (Finite 1)) n).

(** A text that does not begin with whitespace. *)
Definition starts_clean (s : string) : Prop :=
  match s with
  | EmptyString => True
  | String c _ => Py.isspace c = false
  end.

(** A change of characters that keeps what the quality test looks at:
    whitespace stays whitespace, and every other character stays itself. *)
Definition harmless (f : ascii -> ascii) : Prop :=
  forall c, Py.isspace (f c) = Py.isspace c /\
            (Py.isspace c = false -> f c = c).

(** Every result [m] returns satisfies [Q]. *)
Definition returns_only {A} (Q : A -> Prop) (m : M A) : Prop :=
  forall (w w' : World) (a : A), m w = (Return a, w') -> Q a.

(** The history of [session_id] with one turn appended. *)
Definition with_turn (session_id question answer : string)
    (hs : gmap string (list Message)) : gmap string (list Message) :=
  alter (fun h : list Message =>
           (h ++ [mkMessage human question; mkMessage ai answer])%list)
    session_id hs.

(** A chat turn that, when it returns a result that is no [ERROR], has
    appended the question and the response to the history of the session,
    and has changed no other history. *)
Definition records_turn (session_id message : string)
    (m : M Pipeline.ChatResult) : Prop :=
  forall (w w' : World) (r : Pipeline.ChatResult),
    m w = (Return r, w') -> Pipeline.intent r <> ERROR ->
    histories w' = with_turn session_id message (Pipeline.response r) (histories w).

End Spec.

(** * Properties *)

Local Arguments String.append : simpl nomatch.

(** The case analysis of a retrieval: the retriever, the deprecated entry
    point and the answers of the queries. *)
Ltac retrieval_cases :=
  unfold MultiVideo.retrieve_documents, MultiVideo.get_relevant_documents,
    MultiVideo.invoke, retriever_get_relevant_documents, retriever_invoke,
    try_except, bind, call_raising, ret, raise in *;
  cbn [clock model_calls sessions retrieval_cache locks_held log_model_call
       set_clock set_locks_held set_retrieval_cache set_sessions];
  repeat match goal with
         | |- context [match ?r with Some _ => _ | None => _ end] =>
             is_var r; destruct r as [[? ?]|];
             cbn [clock model_calls sessions retrieval_cache locks_held
                  log_model_call set_clock set_locks_held set_retrieval_cache
                  set_sessions]
         | |- context [env_get_relevant_documents ?e ?n ?vs ?k ?q] =>
             destruct (env_get_relevant_documents e n vs k q) as [|[?|]] eqn:?;
             cbn [clock model_calls sessions retrieval_cache locks_held
                  log_model_call set_clock set_locks_held set_retrieval_cache
                  set_sessions]
         | |- context [env_retriever ?e ?n ?vs ?k ?q] =>
             destruct (env_retriever e n vs k q) eqn:?;
             cbn [clock model_calls sessions retrieval_cache locks_held
                  log_model_call set_clock set_locks_held set_retrieval_cache
                  set_sessions]
         end.

(** ** The result-count policy [dynamic_k] *)

Section DynamicK.

Import Transcript Spec.

Lemma cube_pos (n : Z) : 1 <= n -> 1 <= n ^ 3.
Proof. intros Hn. nia. Qed.


(** The truncated product is the exponent [m] with [4^m <= n^3 < 4^(m+1)],
    that is [m <= 1.5 * log2 n < m + 1]. *)
Lemma int_log2_times_1_5_bounds (n : Z) :
  1 <= n ->
  0 <= int_log2_times_1_5 n /\
  4 ^ int_log2_times_1_5 n <= n ^ 3 < 4 ^ (int_log2_times_1_5 n + 1).
Proof.
  intros Hn. unfold int_log2_times_1_5.
  pose proof (cube_pos n Hn) as Hc.
  destruct (Z.log2_spec (n ^ 3)) as [Hlo Hhi]; [lia|].
  pose proof (Z.log2_nonneg (n ^ 3)) as HL.
  set (L := Z.log2 (n ^ 3)) in *.
  assert (Hm : 0 <= L / 2) by (apply Z.div_pos; lia).
  assert (Hdiv : 2 * (L / 2) <= L < 2 * (L / 2) + 2).
  { pose proof (Z.div_mod L 2 ltac:(lia)). pose proof (Z.mod_pos_bound L 2 ltac:(lia)). lia. }
  split; [exact Hm|].
  change 4 with (2 ^ 2).
  rewrite <- !Z.pow_mul_r by lia.
  split.
  - transitivity (2 ^ L); [|exact Hlo].
    apply Z.pow_le_mono_r; lia.
  - eapply Z.lt_le_trans; [exact Hhi|].
    apply Z.pow_le_mono_r; lia.
Qed.


(** C3 (as the code has it).  For a non-empty fragment list that yields
    [num_chunks] chunks, [dynamic_k = min(num_chunks, 5)] below 20 chunks,
    and from 20 chunks on it is [clamp(m, 5, 10)] where [m] is the integer
    with [4^m <= num_chunks^3 < 4^(m+1)], i.e. the product
    [log2(num_chunks) * 1.5] truncated, not rounded. *)
Theorem ingest_dynamic_k_truncates
    (split_documents : Z -> Z -> list Document -> list Document)
    (video_id : string) (fragments : list Fragment)
    (chunks : list Document) (k : Z) :
  fragments <> [] ->
  ingest_video_to_chunks split_documents video_id fragments = (chunks, k) ->
  let num_chunks := Z.of_nat (length chunks) in
  (num_chunks < 20 -> k = Z.min num_chunks 5) /\
  (20 <= num_chunks ->
   exists m, 4 ^ m <= num_chunks ^ 3 < 4 ^ (m + 1) /\ k = clamp m 5 10).
Proof.
  intros Hne Hing num_chunks.
  unfold ingest_video_to_chunks in Hing.
  destruct fragments as [|f fs]; [congruence|].
  cbn [fmap list_fmap] in Hing.
  injection Hing as Hchunks Hk. subst chunks.
  fold num_chunks in Hk. subst k. unfold dynamic_k.
  split; intros Hn.
  - apply Z.ltb_lt in Hn as ->. reflexivity.
  - assert (Hge : (num_chunks <? 20) = false) by (apply Z.ltb_ge; lia).
    rewrite Hge.
    exists (int_log2_times_1_5 num_chunks).
    split; [apply int_log2_times_1_5_bounds; lia|reflexivity].
Qed.

Lemma ingest_dynamic_k_truncates_witness :
  let chunks := [mkDocument "[Timestamp: 0s] hello world foo bar baz"
                   (mkMetadata "vid" 0 3)] in
  (1 < 20 -> 1 = Z.min 1 5) /\
  (20 <= 1 -> exists m, 4 ^ m <= 1 ^ 3 < 4 ^ (m + 1) /\ 1 = clamp m 5 10).
Proof.
  intros chunks.
  apply (ingest_dynamic_k_truncates (fun _ _ docs => docs) "vid"
           [mkFragment "hello world" 0 2; mkFragment "foo bar baz" 2 3]
           chunks 1).
  - discriminate.
  - reflexivity.
Defined.

(** C3 as worded fails twice: at 21 chunks the product is about 6.59
    ([2^13 <= 21^3 < 2^15] places it in [[6.5, 7.5)]), which rounds to 7
    while the code yields 6; and an empty fragment list yields no chunk but
    [dynamic_k = 5], not [min(0, 5)]. *)
Lemma dynamic_k_rounding_counterexample :
  (20 <= 21 /\ 2 ^ 13 <= 21 ^ 3 < 2 ^ 15 /\
   dynamic_k_rounded 21 = 7 /\ dynamic_k 21 = 6) /\
  (ingest_video_to_chunks (fun _ _ docs => docs) "vid" [] = ([], 5) /\
   Z.min (Z.of_nat (length (@nil Document))) 5 <> 5).
Proof. repeat split; try reflexivity; try lia; discriminate. Qed.



End DynamicK.

(** ** [extract_video_id] *)

Section ExtractVideoId.

Import Transcript Spec.

Local Open Scope string_scope.

Lemma str_length_app (a b : string) :
  String.length (a ++ b) = (String.length a + String.length b)%nat.
Proof. induction a as [|c a IH]; simpl; [reflexivity|]. now rewrite IH. Qed.

Lemma match_id_chars_sound (k : nat) (s g : string) :
  match_id_chars k s = Some g ->
  String.length g = k /\ Py.str_forallb is_id_char g = true /\
  exists post, s = g ++ post.
Proof.
  revert s g. induction k as [|k IH]; intros s g H; simpl in H.
  - injection H as <-. repeat split. now exists s.
  - destruct s as [|c s]; [discriminate|].
    destruct (is_id_char c) eqn:Hc; [|discriminate].
    destruct (match_id_chars k s) as [g'|] eqn:Hg; [|discriminate].
    simpl in H. injection H as <-.
    destruct (IH _ _ Hg) as (Hlen & Hall & post & ->).
    simpl. rewrite Hc, Hall, Hlen. repeat split. now exists post.
Qed.

Lemma match_id_chars_complete (g post : string) :
  Py.str_forallb is_id_char g = true ->
  match_id_chars (String.length g) (g ++ post) = Some g.
Proof.
  induction g as [|c g IH]; simpl; intros H; [reflexivity|].
  apply andb_prop in H as [Hc Hg]. rewrite Hc, (IH Hg). reflexivity.
Qed.

Lemma match_literal_sound (p s r : string) :
  match_literal p s = Some r -> s = p ++ r.
Proof.
  revert s. induction p as [|a p IH]; intros s H; simpl in H.
  - now injection H as <-.
  - destruct s as [|b s]; [discriminate|].
    destruct (Ascii.eqb a b) eqn:Hab; [|discriminate].
    apply Ascii.eqb_eq in Hab as <-. simpl. f_equal. now apply IH.
Qed.

Lemma match_alternatives_sound (alts : list string) (s g : string) :
  match_alternatives alts s = Some g ->
  is_group g /\ exists p post, In p alts /\ s = p ++ g ++ post.
Proof.
  induction alts as [|p alts IH]; cbn [match_alternatives]; intros H;
    [discriminate|].
  destruct (match_literal p s ≫= match_id_chars 11) as [g'|] eqn:Hm.
  - injection H as ->.
    destruct (match_literal p s) as [r|] eqn:Hp; [|discriminate].
    change (match_id_chars 11 r = Some g) in Hm.
    apply match_literal_sound in Hp.
    apply match_id_chars_sound in Hm as (Hlen & Hall & post & ->).
    split; [now split|]. exists p, post. split; [now left|assumption].
  - destruct (IH H) as (Hg & p' & post & Hin & Hs).
    split; [assumption|]. exists p', post. split; [now right|assumption].
Qed.

Lemma match_here_complete (p g post : string) :
  In p alternatives -> is_group g ->
  match_here (p ++ g ++ post) = Some g.
Proof.
  intros Hp [Hlen Hall].
  pose proof (match_id_chars_complete g post Hall) as Hm.
  rewrite Hlen in Hm.
  unfold match_here, alternatives in *.
  destruct Hp as [<-|[<-|[<-|[]]]]; cbn -[match_id_chars]; rewrite Hm; reflexivity.
Qed.

(** Where the leftmost match starts decides which group is first: a match
    that starts later cannot reach a group that starts earlier. *)
Lemma match_here_first (p g post pre2 p2 g2 post2 : string) :
  In p alternatives -> In p2 alternatives ->
  p ++ g ++ post = pre2 ++ p2 ++ g2 ++ post2 ->
  (String.length p <= String.length (pre2 ++ p2))%nat.
Proof.
  intros Hp Hp2 Heq. rewrite str_length_app.
  unfold alternatives in *.
  destruct pre2 as [|a [|b pre2]];
    destruct Hp as [<-|[<-|[<-|[]]]], Hp2 as [<-|[<-|[<-|[]]]];
    simpl in *; try lia; discriminate.
Qed.

(** The search finds the group with the least offset, or there is none. *)
Lemma re_search_spec (s : string) :
  match re_search s with
  | Some g =>
      exists i, group_at s i g /\ forall j g', group_at s j g' -> (i <= j)%nat
  | None => forall i g, ~ group_at s i g
  end.
Proof.
  induction s as [|c s IH].
  - simpl. intros i g (_ & p & pre & post & Hp & Heq & _).
    unfold alternatives in Hp.
    destruct pre; destruct Hp as [<-|[<-|[<-|[]]]]; discriminate.
  - cbn [re_search].
    destruct (match_here (String c s)) as [g|] eqn:Hh.
    + destruct (match_alternatives_sound _ _ _ Hh) as (Hg & p & post & Hp & Heq).
      exists (String.length p). split.
      * split; [assumption|]. exists p, "", post.
        split; [assumption|]. split; [exact Heq|reflexivity].
      * intros j g' (_ & p2 & pre2 & post2 & Hp2 & Heq2 & ->).
        rewrite Heq in Heq2. eapply match_here_first; eassumption.
    + assert (Hshift : forall j g', group_at (String c s) j g' ->
                exists j', j = S j' /\ group_at s j' g').
      { intros j g' (Hg' & p2 & pre2 & post2 & Hp2 & Heq2 & ->).
        destruct pre2 as [|a pre2].
        - simpl in Heq2. rewrite Heq2, match_here_complete in Hh by assumption.
          discriminate.
        - simpl in Heq2. injection Heq2 as -> ->.
          exists (String.length (pre2 ++ p2)). split; [reflexivity|].
          split; [assumption|]. exists p2, pre2, post2.
          split; [assumption|]. split; reflexivity. }
      destruct (re_search s) as [g|].
      * destruct IH as (i & (Hg & p & pre & post & Hp & -> & ->) & Hmin).
        exists (S (String.length (pre ++ p))). split.
        -- split; [assumption|]. exists p, (String c pre), post.
           split; [assumption|]. split; reflexivity.
        -- intros j g' Hj. destruct (Hshift _ _ Hj) as (j' & -> & Hj').
           apply le_n_S, (Hmin _ _ Hj').
      * intros j g' Hj. destruct (Hshift _ _ Hj) as (j' & -> & Hj').
        exact (IH _ _ Hj').
Qed.

(** C10.  If the input holds an 11-character id group preceded by ["v="],
    ["/"] or ["be/"], the first such group is returned; otherwise the input
    is returned unchanged. *)
Theorem extract_video_id_first_group (url_or_id : string) :
  (exists i g,
     group_at url_or_id i g /\
     (forall j g', group_at url_or_id j g' -> (i <= j)%nat) /\
     extract_video_id url_or_id = g)
  \/
  ((forall i g, ~ group_at url_or_id i g) /\
   extract_video_id url_or_id = url_or_id).
Proof.
  unfold extract_video_id.
  pose proof (re_search_spec url_or_id) as H.
  destruct (re_search url_or_id) as [g|].
  - left. destruct H as (i & Hi & Hmin). exists i, g.
    split; [exact Hi|]. split; [exact Hmin|reflexivity].
  - right. split; [exact H|reflexivity].
Qed.

End ExtractVideoId.

(** ** The summary generator *)

Section SummarySampling.

Import Spec.

Local Open Scope string_scope.

Lemma every_nth_from_lookup {A} (step : nat) (l : list A) :
  (1 <= step)%nat ->
  forall (skip i : nat),
    Py.every_nth_from skip step l !! i = l !! (skip + i * step)%nat.
Proof.
  intros Hstep. induction l as [|x l IH]; intros skip i.
  - reflexivity.
  - destruct skip as [|skip]; cbn [Py.every_nth_from].
    + destruct i as [|i]; [reflexivity|].
      cbn [lookup list_lookup]. rewrite IH.
      replace (0 + S i * step)%nat with (S (step - 1 + i * step)) by lia.
      reflexivity.
    + rewrite IH. reflexivity.
Qed.

(** [l[::step]] keeps exactly the elements at the multiples of [step]. *)
Lemma slice_step_lookup {A} (step : Z) (l : list A) (i : nat) :
  1 <= step ->
  Py.slice_step step l !! i = l !! (i * Z.to_nat step)%nat.
Proof.
  intros Hstep. unfold Py.slice_step.
  rewrite every_nth_from_lookup by lia. reflexivity.
Qed.

(** C4 (as the code has it).  Over the budget the summary text is the
    join of the chunks at indices 0, step, 2*step, ... with
    [step = len // 500000 + 1]; within the budget it is the whole text. *)
Theorem summary_text_sampling (chunks : list Document) :
  let total_text := Py.join " " (page_content <$> chunks) in
  let step := Py.len total_text / 500000 + 1 in
  (500000 < Py.len total_text ->
   2 <= step /\
   exists sampled : list Document,
     Pipeline.summary_text chunks = Py.join " " (page_content <$> sampled) /\
     MultiVideo.prepare_text chunks = Py.join " " (page_content <$> sampled) /\
     forall i : nat, sampled !! i = chunks !! (i * Z.to_nat step)%nat) /\
  (Py.len total_text <= 500000 ->
   Pipeline.summary_text chunks = total_text /\
   MultiVideo.prepare_text chunks = total_text).
Proof.
  intros total_text step.
  unfold Pipeline.summary_text, MultiVideo.prepare_text,
    Pipeline.MAX_CHARS, MultiVideo.MAX_CHARS.
  fold total_text. fold step.
  split; intros Hlen.
  - assert (Hstep : 2 <= step).
    { unfold step.
      assert (1 <= Py.len total_text / 500000)
        by (apply Z.div_le_lower_bound; lia).
      lia. }
    split; [exact Hstep|].
    apply Z.ltb_lt in Hlen as ->.
    exists (Py.slice_step step chunks).
    split; [reflexivity|]. split; [reflexivity|].
    intros i. apply slice_step_lookup. lia.
  - assert (Hle : (500000 <? Py.len total_text)%Z = false)
      by (apply Z.ltb_ge; lia).
    rewrite Hle. split; reflexivity.
Qed.

Lemma summary_text_sampling_witness :
  let chunks := [mkDocument "hello" (mkMetadata "vid" 0 2);
                 mkDocument "world" (mkMetadata "vid" 2 5)] in
  Pipeline.summary_text chunks = "hello world" /\
  MultiVideo.prepare_text chunks = "hello world".
Proof.
  intros chunks.
  apply (summary_text_sampling chunks). vm_compute. discriminate.
Defined.

Lemma len_app (a b : string) : Py.len (a ++ b) = Py.len a + Py.len b.
Proof. unfold Py.len. rewrite str_length_app. lia. Qed.

Lemma len_filler (n : N) (c : ascii) : Py.len (filler n c) = Z.of_N n.
Proof.
  unfold filler, Py.len.
  induction n as [|n IH] using N.peano_ind; [reflexivity|].
  rewrite N.iter_succ. cbn [String.length]. lia.
Qed.

Lemma join_two (sep a b : string) : Py.join sep [a; b] = a ++ sep ++ b.
Proof. reflexivity. Qed.

Lemma join_four (sep a b c d : string) :
  Py.join sep [a; b; c; d] = a ++ sep ++ b ++ sep ++ c ++ sep ++ d.
Proof. reflexivity. Qed.

(** Four chunks whose joined text has exactly one million characters. *)
Lemma summary_text_of_million (d0 d1 d2 d3 : Document) :
  Py.len (Py.join " " (page_content <$> [d0; d1; d2; d3])) = 1000000 ->
  Pipeline.summary_text [d0; d1; d2; d3]
  = Py.join " " [page_content d0; page_content d3].
Proof.
  intros Hlen. unfold Pipeline.summary_text, Pipeline.MAX_CHARS.
  rewrite Hlen. reflexivity.
Qed.

(** C4 as worded fails when the length is a multiple of the budget: one
    million characters give [ceil(len / budget) = 2] but the code strides by
    3, keeping chunks 0 and 3 where stride 2 keeps chunks 0 and 2. *)
Lemma summary_stride_counterexample :
  let m := mkMetadata "vid" 0 1 in
  let chunks := [mkDocument (filler 250000 "a") m;
                 mkDocument (filler 250000 "a") m;
                 mkDocument (filler 250000 "a") m;
                 mkDocument (filler 249997 "b") m] in
  let total_text := Py.join " " (page_content <$> chunks) in
  Py.len total_text = 1000000 /\
  ceil_div (Py.len total_text) Pipeline.MAX_CHARS = 2 /\
  Pipeline.summary_text chunks
  <> Py.join " "
       (page_content <$>
          Py.slice_step (ceil_div (Py.len total_text) Pipeline.MAX_CHARS) chunks).
Proof.
  intros m chunks total_text.
  assert (Hlen : Py.len total_text = 1000000).
  { unfold total_text, chunks. cbn [fmap list_fmap page_content].
    rewrite join_four, !len_app, !len_filler. reflexivity. }
  split; [exact Hlen|].
  rewrite Hlen. split; [reflexivity|].
  unfold chunks at 1. rewrite summary_text_of_million by exact Hlen.
  change (ceil_div 1000000 Pipeline.MAX_CHARS) with 2.
  unfold chunks. cbn [Py.slice_step Py.every_nth_from Z.to_nat Pos.to_nat
                      Pos.iter_op Nat.add Nat.sub fmap list_fmap page_content].
  rewrite !join_two. intros Heq.
  apply (f_equal Py.len) in Heq.
  rewrite !len_app, !len_filler in Heq. discriminate.
Qed.

End SummarySampling.

(** ** The chunk validator *)

Section ValidatorProperties.

Import Spec.

Variable nfkc : string -> string.
Variable embed_query : nat -> string -> option PyObj * nat.
Variable min_length : Z.

Local Abbreviation validate_from :=
  (validate_chunks_from nfkc embed_query min_length).
Local Abbreviation run_verdicts := (verdicts nfkc embed_query min_length).

Lemma total_chars_app (a b : list Document) :
  Transcript.total_chars (a ++ b)
  = (Transcript.total_chars a + Transcript.total_chars b).
Proof.
  unfold Transcript.total_chars.
  induction a as [|d a IH]; cbn [foldr app]; [reflexivity|].
  change ((d :: a) ++ b) with (d :: (a ++ b)). cbn [foldr]. rewrite IH. lia.
Qed.

Lemma total_chars_merge (v : list Document) (content : string) :
  Transcript.total_chars (merge_into_last v content)
  = (Transcript.total_chars v
     + if nonempty v then Py.len content + 1 else 0).
Proof.
  induction v as [|d v IH]; [reflexivity|].
  destruct v as [|d' v].
  - cbn [merge_into_last nonempty]. unfold Transcript.total_chars.
    cbn [foldr page_content]. rewrite !len_app.
    change (Py.len " "%string) with 1. lia.
  - change (merge_into_last (d :: d' :: v) content)
      with (d :: merge_into_last (d' :: v) content).
    unfold Transcript.total_chars in *. cbn [foldr] in *.
    cbn [nonempty] in *. lia.
Qed.

Lemma nonempty_merge (v : list Document) (content : string) :
  nonempty (merge_into_last v content) = nonempty v.
Proof. destruct v as [|d [|d' v]]; reflexivity. Qed.

Lemma nonempty_snoc {A} (v : list A) (x : A) : nonempty (v ++ [x]) = true.
Proof. destruct v; reflexivity. Qed.

Lemma validate_from_chars (chunks : list Document) :
  forall (v : list Document) (n : nat),
    Transcript.total_chars (fst (validate_from (v, n) chunks))
    = (Transcript.total_chars v + kept_chars (run_verdicts (nonempty v) n chunks)).
Proof.
  induction chunks as [|chunk rest IH]; intros v n.
  - unfold validate_chunks_from, kept_chars.
    cbn [fold_left fst verdicts foldr]. lia.
  - unfold validate_chunks_from in *. cbn [fold_left verdicts].
    unfold validate_chunk at 2.
    destruct (sanitize_content nfkc (page_content chunk)) as [content|].
    + destruct (embed_attempts embed_query min_length 2 n content)
        as [[|] n'] eqn:Hatt.
      * rewrite IH, total_chars_app, nonempty_snoc.
        unfold Transcript.total_chars at 2, kept_chars.
        cbn [foldr page_content]. lia.
      * rewrite IH, total_chars_merge, nonempty_merge.
        unfold kept_chars. destruct (nonempty v); cbn [foldr]; lia.
    + rewrite IH. reflexivity.
Qed.

Lemma kept_reached_dropped (vs : list Verdict) :
  (reached_chars vs - dropped_chars vs <= kept_chars vs).
Proof.
  induction vs as [|[|c|c|c] vs IH];
    unfold reached_chars, dropped_chars, kept_chars in *; cbn [foldr] in *; lia.
Qed.

(** A chunk is dropped only while no chunk has been validated. *)
Lemma dropped_only_before_validated (chunks : list Document) :
  forall (seen : bool) (n : nat) (i : nat) (c : string),
    run_verdicts seen n chunks !! i = Some (Dropped c) ->
    seen = false /\
    forall (j : nat) (c' : string),
      (j < i)%nat -> run_verdicts seen n chunks !! j <> Some (Validated c').
Proof.
  induction chunks as [|chunk rest IH]; intros seen n i c Hi; [discriminate|].
  cbn [verdicts] in *.
  destruct (sanitize_content nfkc (page_content chunk)) as [content|].
  - destruct (embed_attempts embed_query min_length 2 n content) as [[|] n'].
    + destruct i as [|i]; [discriminate|]. cbn in Hi.
      destruct (IH _ _ _ _ Hi) as [? _]. discriminate.
    + destruct i as [|i].
      * cbn in Hi. destruct seen; [discriminate|].
        split; [reflexivity|]. intros j c' Hj. lia.
      * cbn in Hi. destruct (IH _ _ _ _ Hi) as [-> Hbefore].
        split; [reflexivity|]. intros [|j] c' Hj; [discriminate|].
        cbn. apply Hbefore. lia.
  - destruct i as [|i]; [discriminate|]. cbn in Hi.
    destruct (IH _ _ _ _ Hi) as [-> Hbefore].
    split; [reflexivity|]. intros [|j] c' Hj; [discriminate|].
    cbn. apply Hbefore. lia.
Qed.



Lemma sanitize_content_cleaned (raw : string) :
  sanitize_content nfkc raw
  = if Py.len (cleaned raw) <? 15 then None else Some (nfkc (cleaned raw)).
Proof.
  unfold sanitize_content, cleaned.
  destruct (Py.strip raw); reflexivity.
Qed.

(** The verdicts follow the chunks one by one: a chunk whose cleaned text
    has fewer than 15 characters is skipped, and every other verdict is
    about the normalized cleaned text of its chunk. *)
Lemma verdicts_texts (chunks : list Document) :
  forall (seen : bool) (n i : nat) (chunk : Document),
    chunks !! i = Some chunk ->
    if Py.len (cleaned (page_content chunk)) <? 15
    then run_verdicts seen n chunks !! i = Some Skipped
    else exists v : Verdict,
           run_verdicts seen n chunks !! i = Some v /\
           verdict_text v = Some (nfkc (cleaned (page_content chunk))).
Proof.
  induction chunks as [|c rest IH]; intros seen n i chunk Hi; [discriminate|].
  cbn [verdicts]. rewrite (sanitize_content_cleaned (page_content c)).
  destruct i as [|i].
  - injection Hi as <-.
    destruct (Py.len (cleaned (page_content c)) <? 15); [reflexivity|].
    destruct (embed_attempts embed_query min_length 2 n _) as [[|] n'];
      [|destruct seen]; eexists; split; reflexivity.
  - cbn [lookup list_lookup] in Hi.
    destruct (Py.len (cleaned (page_content c)) <? 15);
      [exact (IH _ _ _ _ Hi)|].
    destruct (embed_attempts embed_query min_length 2 n _) as [[|] n'];
      exact (IH _ _ _ _ Hi).
Qed.

End ValidatorProperties.

Section ValidatorClaims.

Import Spec.


(** C2 (as the code has it).  The output holds at least the characters of
    the texts that reached the embedding attempts, less those of the texts
    that failed both attempts while no validated chunk existed; and a text
    is dropped only while no validated chunk exists.  A chunk reaches the
    attempts when its cleaned text (trimmed, without control characters,
    whitespace runs collapsed) has at least 15 characters, a length tested
    before the NFKC normalization; the text that is then embedded, stored
    and counted is the normalized one. *)
Theorem validator_keeps_reached_text (nfkc : string -> string)
    (provider : Provider) (n : nat) (chunks : list Document) :
  let out := fst (Embeddings.validate_chunks_for_embeddings nfkc provider n chunks) in
  let vs := verdicts nfkc (Embeddings.embed_query provider) 100 false n chunks in
  reached_chars vs - dropped_chars vs <= Transcript.total_chars out /\
  (forall (i : nat) (c : string),
     vs !! i = Some (Dropped c) ->
     forall (j : nat) (c' : string), (j < i)%nat -> vs !! j <> Some (Validated c')) /\
  (forall (i : nat) (chunk : Document),
     chunks !! i = Some chunk ->
     if Py.len (cleaned (page_content chunk)) <? 15
     then vs !! i = Some Skipped
     else exists v : Verdict,
            vs !! i = Some v /\
            verdict_text v = Some (nfkc (cleaned (page_content chunk)))).
Proof.
  intros out vs. split; [|split].
  - unfold out, Embeddings.validate_chunks_for_embeddings, validate_chunks_with.
    rewrite validate_from_chars. cbn [nonempty]. fold vs.
    pose proof (kept_reached_dropped vs).
    change (Transcript.total_chars []) with 0. lia.
  - intros i c Hi.
    exact (proj2 (dropped_only_before_validated _ _ _ _ _ _ _ _ Hi)).
  - intros i chunk Hi. exact (verdicts_texts _ _ _ _ _ _ _ _ Hi).
Qed.

(** C2 as worded fails: the first chunk is validated, no chunk is dropped
    for want of a predecessor, and yet the ten characters of the second
    chunk are gone, because a text shorter than 15 characters is skipped. *)
Lemma validator_skips_short_chunk :
  let provider : Provider := fun _ _ => Some (ones 100) in
  let m := mkMetadata "vid" 0 1 in
  let chunks := [mkDocument "the opening words of the video" m;
                 mkDocument "short text" m] in
  let out := fst (Embeddings.validate_chunks_for_embeddings (fun s => s)
                    provider 0 chunks) in
  out = [mkDocument "the opening words of the video" m] /\
  verdicts (fun s => s) (Embeddings.embed_query provider) 100 false 0 chunks
  = [Validated "the opening words of the video"; Skipped] /\
  Transcript.total_chars out < Transcript.total_chars chunks - 0.
Proof. vm_compute. repeat split. Qed.

(** C5 fails on [multiVideo.py]: when the provider raises on every call,
    [embed_query] of that file answers [[0.0]], its validator has no length
    test, and the chunk is returned as validated although no vector of at
    least 100 numbers was ever produced for it. *)
Lemma multivideo_validator_accepts_zero_vector :
  let provider : Provider := fun _ _ => None in
  let text := "a transcript chunk that is long enough"%string in
  let chunk := mkDocument text (mkMetadata "vid" 0 1) in
  MultiVideo.validate_chunks_for_embeddings (fun s => s) provider 0 [chunk]
  = ([chunk], 2%nat) /\
  MultiVideo.embed_query provider 0 text = (Some (float_list [zero]), 2%nat) /\
  embedding_ok 100 (float_list [zero]) = false /\
  Embeddings.validate_chunks_for_embeddings (fun s => s) provider 0 [chunk]
  = ([], 4%nat).
Proof. vm_compute. repeat split. Qed.

End ValidatorClaims.

(** ** The retrieval cache of [multiVideo.py] *)

Section RetrievalCache.

Import Spec MultiVideo.

Lemma dedupe_keys (docs : list Document) :
  forall seen : gset (string * Z),
    distinct_keys (dedupe seen docs) /\
    forall r, r ∈ dedupe seen docs -> doc_key r ∉ seen.
Proof.
  unfold distinct_keys.
  induction docs as [|d rest IH]; intros seen; cbn [dedupe].
  - split; [constructor|]. intros r Hr. inversion Hr.
  - destruct (decide (doc_key d ∈ seen)) as [Hin|Hnot]; [apply IH|].
    destruct (IH ({[doc_key d]} ∪ seen)) as [Hnd Hfresh].
    split.
    + cbn [fmap list_fmap]. constructor; [|exact Hnd].
      intros Hmem. apply list_elem_of_fmap in Hmem as (r & Hkey & Hr).
      apply Hfresh in Hr. apply Hr.
      apply elem_of_union_l, elem_of_singleton_2. symmetry. exact Hkey.
    + intros r Hr. apply elem_of_cons in Hr as [->|Hr]; [exact Hnot|].
      apply Hfresh in Hr. intros Hin. apply Hr, elem_of_union_r, Hin.
Qed.

Lemma dedupe_first_seen (docs : list Document) :
  forall (seen : gset (string * Z)) (r : Document),
    r ∈ dedupe seen docs -> first_seen docs r.
Proof.
  induction docs as [|d rest IH]; intros seen r Hr; cbn [dedupe] in Hr.
  - inversion Hr.
  - destruct (decide (doc_key d ∈ seen)) as [Hin|Hnot].
    + pose proof (proj2 (dedupe_keys rest seen) r Hr) as Hfresh.
      destruct (IH _ _ Hr) as (i & Hi & Hbefore).
      exists (S i). split; [exact Hi|].
      intros [|j] d' Hj Hd'.
      * cbn in Hd'. injection Hd' as <-. intros Heq. rewrite Heq in Hin. tauto.
      * cbn in Hd'. apply (Hbefore j); [lia|exact Hd'].
    + apply elem_of_cons in Hr as [->|Hr].
      * exists 0%nat. split; [reflexivity|]. intros j d' Hj. lia.
      * pose proof (proj2 (dedupe_keys rest _) r Hr) as Hfresh.
        destruct (IH _ _ Hr) as (i & Hi & Hbefore).
        exists (S i). split; [exact Hi|].
        intros [|j] d' Hj Hd'.
        -- cbn in Hd'. injection Hd' as <-. intros Heq. apply Hfresh.
           apply elem_of_union_l, elem_of_singleton_2. symmetry. exact Heq.
        -- cbn in Hd'. apply (Hbefore j); [lia|exact Hd'].
Qed.

(** While the bound is not reached, the main loop is the fallback loop
    followed by a truncation. *)
Lemma dedupe_and_trim_take (k : Z) (docs : list Document) :
  forall (seen : gset (string * Z)) (final : list Document),
    Z.of_nat (length final) < k ->
    dedupe_and_trim k seen final docs
    = final ++ take (Z.to_nat k - length final) (dedupe seen docs).
Proof.
  induction docs as [|d rest IH]; intros seen final Hlen;
    cbn [dedupe_and_trim dedupe].
  - rewrite take_nil, app_nil_r. reflexivity.
  - destruct (decide (doc_key d ∈ seen)) as [Hin|Hnot]; [apply IH, Hlen|].
    rewrite length_app. cbn [length].
    destruct (k <=? Z.of_nat (length final + 1)) eqn:Hk.
    + apply Z.leb_le in Hk.
      replace (Z.to_nat k - length final)%nat with 1%nat by lia.
      cbn [take]. rewrite take_0. reflexivity.
    + apply Z.leb_gt in Hk.
      rewrite IH by (rewrite length_app; cbn [length]; lia).
      rewrite length_app. cbn [length].
      replace (Z.to_nat k - length final)%nat
        with (S (Z.to_nat k - (length final + 1))) by lia.
      cbn [take]. rewrite <- app_assoc. reflexivity.
Qed.

Lemma distinct_keys_take (n : nat) (docs : list Document) :
  distinct_keys docs -> distinct_keys (take n docs).
Proof.
  unfold distinct_keys. intros H. rewrite fmap_take.
  eapply sublist_NoDup; [exact H|apply sublist_take].
Qed.

Lemma distinct_keys_slice_to (k : Z) (docs : list Document) :
  distinct_keys docs -> distinct_keys (Py.slice_to k docs).
Proof.
  unfold Py.slice_to. destruct (0 <=? k); apply distinct_keys_take.
Qed.

Lemma length_slice_to (k : Z) {A} (l : list A) :
  0 <= k -> Z.of_nat (length (Py.slice_to k l)) <= k.
Proof.
  intros Hk. unfold Py.slice_to.
  apply Z.leb_le in Hk as Hk'. rewrite Hk'. rewrite length_take. lia.
Qed.

Lemma cache_deduped_insert (cache : gmap string (list Document))
    (key : string) (docs : list Document) :
  cache_deduped cache -> distinct_keys docs ->
  cache_deduped (<[key := docs]> cache).
Proof.
  intros Hc Hd key' docs' Hlook.
  destruct (decide (key = key')) as [->|Hne].
  - rewrite lookup_insert_eq in Hlook. injection Hlook as <-. exact Hd.
  - rewrite lookup_insert_ne in Hlook by exact Hne. exact (Hc _ _ Hlook).
Qed.

Lemma dedupe_and_trim_fresh (k : Z) (docs : list Document) :
  1 <= k ->
  dedupe_and_trim k ∅ [] docs = take (Z.to_nat k) (dedupe ∅ docs).
Proof.
  intros Hk. rewrite dedupe_and_trim_take by (cbn; lia).
  cbn [app length]. rewrite Nat.sub_0_r. reflexivity.
Qed.

Lemma dedupe_distinct (docs : list Document) :
  forall seen : gset (string * Z),
    distinct_keys docs ->
    (forall d, d ∈ docs -> doc_key d ∉ seen) ->
    dedupe seen docs = docs.
Proof.
  unfold distinct_keys.
  induction docs as [|d rest IH]; intros seen Hnd Hfresh; cbn [dedupe];
    [reflexivity|].
  cbn [fmap list_fmap] in Hnd. apply NoDup_cons in Hnd as [Hd Hnd].
  destruct (decide (doc_key d ∈ seen)) as [Hin|_].
  - exfalso. apply (Hfresh d); [left|exact Hin].
  - f_equal. apply IH; [exact Hnd|].
    intros r Hr Hin. apply elem_of_union in Hin as [Hin|Hin].
    + apply elem_of_singleton in Hin. apply Hd. rewrite <- Hin.
      apply list_elem_of_fmap. exists r. split; [reflexivity|exact Hr].
    + apply (Hfresh r); [right; exact Hr|exact Hin].
Qed.

Lemma slice_to_take {A} (k : Z) (l : list A) :
  0 <= k -> Py.slice_to k l = take (Z.to_nat k) l.
Proof.
  intros Hk. unfold Py.slice_to.
  apply Z.leb_le in Hk. rewrite Hk. reflexivity.
Qed.

(** What a fresh retrieval hands to the de-duplication. *)
Lemma get_structured_docs_miss (env : Env) (vectorstore_id : string)
    (retriever : option (Chroma * Z)) (user_query : string) (k : Z)
    (w : World) :
  1 <= k ->
  retrieval_cache w !! cache_key vectorstore_id user_query = None ->
  exists w' : World,
    get_structured_docs env vectorstore_id retriever user_query k w
    = (Return (take (Z.to_nat k)
                 (dedupe ∅ (retrieval_source env vectorstore_id retriever
                              user_query w))), w') /\
    (retrieval_cache w' = retrieval_cache w \/
     retrieval_cache w'
     = <[cache_key vectorstore_id user_query :=
           take (Z.to_nat k)
             (dedupe ∅ (retrieval_source env vectorstore_id retriever
                          user_query w))]> (retrieval_cache w)).
Proof.
  intros Hk Hmiss. unfold get_structured_docs, retrieval_source.
  rewrite Hmiss. unfold retriever_answer.
  destruct (decide (cache_key vectorstore_id user_query ∈ locks_held w))
    as [Hheld|Hfree].
  - rewrite (bool_decide_eq_true_2 _ Hheld).
    unfold store_in_cache. retrieval_cases;
      cbn [dedupe take]; rewrite ?take_nil, ?slice_to_take by lia;
      eexists; (split; [reflexivity|]); cbn; auto.
  - rewrite (bool_decide_eq_false_2 _ Hfree).
    unfold store_in_cache, acquire, release. retrieval_cases;
      cbn -[dedupe_and_trim dedupe take];
      rewrite ?dedupe_and_trim_fresh by exact Hk;
      cbn [dedupe take default]; rewrite ?take_nil;
      eexists; (split; [reflexivity|]); cbn; auto.
Qed.

(** C6 (as the code has it).  For a bound of at least one, every call
    returns the first [k] documents of its source after the later
    occurrences of a [(video_id, start)] pair are removed: no pair twice,
    every document the first of its pair, at most [k] documents.  The
    source is the cached list on a hit and the answer of the retriever on a
    miss.  The entries of the cache are free of duplicates when the call
    begins, as they are in the empty cache and after every call. *)
Theorem get_structured_docs_deduped_bounded (env : Env) (vectorstore_id : string)
    (retriever : option (Chroma * Z)) (user_query : string) (k : Z)
    (w : World) :
  1 <= k ->
  cache_deduped (retrieval_cache w) ->
  let source := retrieval_source env vectorstore_id retriever user_query w in
  exists (docs : list Document) (w' : World),
    get_structured_docs env vectorstore_id retriever user_query k w
    = (Return docs, w') /\
    docs = take (Z.to_nat k) (dedupe ∅ source) /\
    distinct_keys docs /\
    (forall r, r ∈ docs -> first_seen source r) /\
    Z.of_nat (length docs) <= k /\
    cache_deduped (retrieval_cache w').
Proof.
  intros Hk Hcache source.
  assert (Hgood : distinct_keys (take (Z.to_nat k) (dedupe ∅ source)) /\
                  (forall r, r ∈ take (Z.to_nat k) (dedupe ∅ source) ->
                             first_seen source r) /\
                  Z.of_nat (length (take (Z.to_nat k) (dedupe ∅ source))) <= k).
  { split; [apply distinct_keys_take, dedupe_keys|].
    split; [|rewrite length_take; lia].
    intros r Hr. apply (dedupe_first_seen source ∅).
    eapply elem_of_sublist; [exact Hr|apply sublist_take]. }
  destruct Hgood as (Hdistinct & Hfirst & Hlen).
  destruct (retrieval_cache w !! cache_key vectorstore_id user_query)
    as [cached|] eqn:Hhit.
  - exists (take (Z.to_nat k) (dedupe ∅ source)), w.
    split; [|repeat split; assumption].
    unfold get_structured_docs. rewrite Hhit.
    unfold source, retrieval_source. rewrite Hhit.
    rewrite dedupe_distinct;
      [rewrite slice_to_take by lia; reflexivity|exact (Hcache _ _ Hhit)|].
    intros d _. apply not_elem_of_empty.
  - destruct (get_structured_docs_miss env vectorstore_id retriever user_query
                k w Hk Hhit) as (w' & Hcall & Hstore).
    fold source in Hcall, Hstore.
    exists (take (Z.to_nat k) (dedupe ∅ source)), w'.
    split; [exact Hcall|]. repeat split; try assumption.
    destruct Hstore as [-> | ->]; [exact Hcache|].
    apply cache_deduped_insert; assumption.
Qed.

Lemma get_structured_docs_deduped_bounded_witness :
  let m := mkMetadata "vid" 0 9 in
  let d := mkDocument "the opening words of the video" m in
  let d' := mkDocument "the words that follow the opening" (mkMetadata "vid" 9 20) in
  let d'' := mkDocument "and the words that close the video" (mkMetadata "vid" 20 31) in
  let env := sample_env [] None None (Some [d; d; d'; d; d'']) None in
  let retriever := Some (mkChroma "youtube-vid" [d; d'; d''], 5) in
  let w := mkWorld 0 [] ∅ {[cache_key "youtube-vid" "closing" := [d'']]} ∅ in
  exists w' : World,
    get_structured_docs env "youtube-vid" retriever "opening" 2 w
    = (Return [d; d'], w') /\
    distinct_keys [d; d'] /\
    first_seen [d; d; d'; d; d''] d' /\
    cache_deduped (retrieval_cache w').
Proof.
  intros m d d' d'' env retriever w.
  destruct (get_structured_docs_deduped_bounded env "youtube-vid" retriever
              "opening" 2 w)
    as (docs & w' & Hcall & Hdocs & Hdistinct & Hfirst & _ & Hcache).
  - lia.
  - apply (cache_deduped_insert ∅ _ [d'']).
    + intros key docs Hlook. rewrite lookup_empty in Hlook. discriminate.
    + unfold distinct_keys. cbn. apply NoDup_singleton.
  - assert (Hval : docs = [d; d']) by (rewrite Hdocs; vm_compute; reflexivity).
    subst docs. exists w'. split; [exact Hcall|].
    split; [exact Hdistinct|]. split; [|exact Hcache].
    apply Hfirst. right. left.
Defined.

(** C6 as worded fails at [k = 0] on a fresh key: the main path appends the
    first document before it tests the bound and returns one document,
    while the cache hit that follows, like the fallback path, returns
    none. *)
Lemma get_structured_docs_ignores_zero_bound :
  let d := mkDocument "the opening words of the video" (mkMetadata "vid" 0 9) in
  let env := sample_env [] None None (Some [d]) None in
  let retriever := Some (mkChroma "youtube-vid" [d], 5) in
  let first := get_structured_docs env "youtube-vid" retriever "opening" 0
                 empty_world in
  let again := get_structured_docs env "youtube-vid" retriever "opening" 0
                 (snd first) in
  fst first = Return [d] /\
  ~ Z.of_nat (length [d]) <= 0 /\
  fst again = Return [].
Proof. vm_compute. repeat split. intros H. exact (H eq_refl). Qed.

End RetrievalCache.

(** ** Sessions and chat turns of [pipeline.py] *)

Section Histories.

Import Spec Pipeline.

Variable env : Env.

(** An observation of the world that neither the clock nor a rewrite of
    the sessions that keeps every history can change. *)
Section Frames.

Context {B : Type} (f : World -> B).
Hypothesis f_clock : forall n w, f (set_clock n w) = f w.
Hypothesis f_sessions :
  forall ss w, history <$> ss = history <$> sessions w -> f (set_sessions ss w) = f w.

Lemma preserves_ret {A} (a : A) : preserves f (ret a).
Proof. intros w w' o H. injection H as _ <-. reflexivity. Qed.

Lemma preserves_raise {A} : preserves f (@raise A).
Proof. intros w w' o H. injection H as _ <-. reflexivity. Qed.

Lemma preserves_bind {A C} (m : M A) (k : A -> M C) :
  preserves f m -> (forall a, preserves f (k a)) -> preserves f (bind m k).
Proof.
  intros Hm Hk w w' o H. unfold bind in H.
  destruct (m w) as [[a|] w1] eqn:Hmw.
  - rewrite (Hk a _ _ _ H). exact (Hm _ _ _ Hmw).
  - injection H as _ <-. exact (Hm _ _ _ Hmw).
Qed.

Lemma preserves_try_except {A} (m h : M A) :
  preserves f m -> preserves f h -> preserves f (try_except m h).
Proof.
  intros Hm Hh w w' o H. unfold try_except in H.
  destruct (m w) as [[a|] w1] eqn:Hmw.
  - injection H as _ <-. exact (Hm _ _ _ Hmw).
  - rewrite (Hh _ _ _ H). exact (Hm _ _ _ Hmw).
Qed.

Lemma preserves_call {A} (oracle : nat -> A) : preserves f (call oracle).
Proof. intros w w' o H. injection H as _ <-. apply f_clock. Qed.

Lemma preserves_call_raising {A} (oracle : nat -> option A) :
  preserves f (call_raising oracle).
Proof.
  intros w w' o H. unfold call_raising in H.
  destruct (oracle (clock w)); injection H as _ <-; apply f_clock.
Qed.

Lemma preserves_get_session (session_id : string) :
  preserves f (get_session session_id).
Proof.
  intros w w' o H. unfold get_session in H.
  destruct (sessions w !! session_id); injection H as _ <-; reflexivity.
Qed.

Lemma preserves_update_session (session_id : string) (g : Session -> Session) :
  (forall s, history (g s) = history s) ->
  preserves f (update_session session_id g).
Proof.
  intros Hg w w' o H. injection H as _ <-.
  apply f_sessions. apply map_eq. intros sid.
  rewrite !lookup_fmap, lookup_alter.
  destruct (decide (session_id = sid)) as [->|]; [|reflexivity].
  destruct (sessions w !! sid); cbn; [|reflexivity]. now rewrite Hg.
Qed.

Lemma preserves_create_vectorstore (video_id : string) (chunks : list Document)
    (collection : option string) :
  preserves f (create_vectorstore_for_video env video_id chunks collection).
Proof.
  unfold create_vectorstore_for_video. apply preserves_bind.
  - intros w w' o H.
    destruct (Embeddings.validate_chunks_for_embeddings _ _ _ _) in H.
    injection H as _ <-. apply f_clock.
  - intros [|d v]; [apply preserves_ret|].
    apply preserves_bind; [apply preserves_call_raising|intros; apply preserves_ret].
Qed.

Lemma preserves_process_video (session_id video_url : string) :
  preserves f (process_video env session_id video_url).
Proof.
  unfold process_video. apply preserves_bind; [apply preserves_get_session|].
  intros session.
  destruct (processed_videos session !! _); [apply preserves_ret|].
  apply preserves_bind; [apply preserves_call|]. intros meta.
  apply preserves_bind.
  { unfold ingest_video_to_chunks.
    apply preserves_bind; [apply preserves_call|intros; apply preserves_ret]. }
  intros [chunks k].
  apply preserves_bind.
  { destruct chunks; [apply preserves_ret|apply preserves_create_vectorstore]. }
  intros vs. apply preserves_bind; [|intros; apply preserves_ret].
  apply preserves_update_session. reflexivity.
Qed.

End Frames.

Lemma histories_clock (n : nat) (w : World) : histories (set_clock n w) = histories w.
Proof. reflexivity. Qed.

Lemma histories_sessions (ss : gmap string Session) (w : World) :
  history <$> ss = history <$> sessions w -> histories (set_sessions ss w) = histories w.
Proof. intros H. exact H. Qed.

Lemma model_calls_clock (n : nat) (w : World) :
  model_calls (set_clock n w) = model_calls w.
Proof. reflexivity. Qed.

Lemma model_calls_sessions (ss : gmap string Session) (w : World) :
  history <$> ss = history <$> sessions w ->
  model_calls (set_sessions ss w) = model_calls w.
Proof. reflexivity. Qed.

Lemma keeps_model_invoke (p : Prompt) : preserves histories (model_invoke env p).
Proof.
  intros w w' o H. unfold model_invoke in H.
  apply (preserves_call_raising histories histories_clock) in H. exact H.
Qed.

Lemma keeps_retriever_invoke (vs : Chroma) (k : Z) (q : string) :
  preserves histories (retriever_invoke env vs k q).
Proof.
  intros w w' o H. unfold retriever_invoke in H.
  apply (preserves_call_raising histories histories_clock) in H. exact H.
Qed.

Lemma keeps_get_intent (query : string) (h : list Message) (multi : bool) :
  preserves histories (get_intent env query h multi).
Proof.
  unfold get_intent. apply preserves_try_except; [|apply preserves_ret].
  intros w w' o H.
  eapply (preserves_bind histories _ _
            (preserves_call_raising histories histories_clock _)) in H;
    [exact H|].
  intros i. destruct (route_allowed multi i);
    [apply preserves_ret|apply preserves_raise].
Qed.

Lemma keeps_cached_summary (session_id video_id : string)
    (chunks : list Document) (meta : VideoInfo) :
  preserves histories (cached_summary env session_id video_id chunks meta).
Proof.
  unfold cached_summary. apply preserves_bind; [apply preserves_get_session|].
  intros session.
  destruct (summary_cache session !! video_id); [apply preserves_ret|].
  apply preserves_bind; [apply keeps_model_invoke|]. intros s.
  apply preserves_bind; [|intros; apply preserves_ret].
  apply (preserves_update_session histories histories_sessions). reflexivity.
Qed.

Lemma keeps_process_video (session_id video_url : string) :
  preserves histories (process_video env session_id video_url).
Proof. exact (preserves_process_video histories histories_clock histories_sessions _ _). Qed.

Lemma silent_process_video (session_id video_url : string) :
  preserves model_calls (process_video env session_id video_url).
Proof.
  exact (preserves_process_video model_calls model_calls_clock
           model_calls_sessions _ _).
Qed.

Lemma errors_keep_of_keeps (m : M ChatResult) :
  preserves histories m -> errors_keep_histories m.
Proof. intros Hm w w' r H _. exact (Hm _ _ _ H). Qed.

Lemma errors_keep_of_never (m : M ChatResult) :
  never_error m -> errors_keep_histories m.
Proof. intros Hm w w' r H He. destruct (Hm _ _ _ H He). Qed.

Lemma errors_keep_bind {A} (m : M A) (k : A -> M ChatResult) :
  preserves histories m -> (forall a, errors_keep_histories (k a)) ->
  errors_keep_histories (bind m k).
Proof.
  intros Hm Hk w w' r H He. unfold bind in H.
  destruct (m w) as [[a|] w1] eqn:Hmw; [|discriminate].
  rewrite (Hk a _ _ _ H He). exact (Hm _ _ _ Hmw).
Qed.

Lemma never_error_bind {A} (m : M A) (k : A -> M ChatResult) :
  (forall a, never_error (k a)) -> never_error (bind m k).
Proof.
  intros Hk w w' r H. unfold bind in H.
  destruct (m w) as [[a|] w1]; [|discriminate]. exact (Hk a _ _ _ H).
Qed.

Lemma never_error_ret (r : ChatResult) : intent r <> ERROR -> never_error (ret r).
Proof. intros Hr w w' r' H. injection H as <- _. exact Hr. Qed.

(** The guarded generation step: the turn is recorded only after the
    model has answered, so the error result of the handler finds the
    histories as they were. *)
Lemma errors_keep_generation (session_id message : string) (p : Prompt)
    (answer : string -> ChatResult) (failure : ChatResult) :
  (forall a, intent (answer a) <> ERROR) ->
  errors_keep_histories
    (try_except
       (bind (model_invoke env p)
          (fun result =>
             bind (record_turn session_id message result)
               (fun _ => ret (answer result))))
       (ret failure)).
Proof.
  intros Hanswer w w' r H He.
  unfold try_except, bind, model_invoke, call_raising, record_turn,
    update_session, ret in H.
  destruct (env_model env (clock (log_model_call p w)) p) as [a|].
  - injection H as <- _. destruct (Hanswer _ He).
  - injection H as _ <-. reflexivity.
Qed.

(** C7.  A chat turn that returns an [ERROR] result (no transcript or no
    index, a failed retrieval, a failed generation) leaves the message
    history of every session as it was: neither the user message nor an
    assistant message is appended. *)
Theorem chat_error_keeps_history (session_id video_url message : string)
    (w w' : World) (r : ChatResult) :
  chat_with_video env session_id video_url message w = (Return r, w') ->
  intent r = ERROR ->
  histories w' = histories w.
Proof.
  revert w w' r. change (errors_keep_histories
    (chat_with_video env session_id video_url message)).
  unfold chat_with_video.
  apply errors_keep_bind; [apply preserves_get_session|]. intros _.
  apply errors_keep_bind; [apply keeps_process_video|]. intros processed.
  destruct (pv_chunks processed) as [|c chunks];
    [apply errors_keep_of_keeps, preserves_ret|].
  destruct (pv_vectorstore processed) as [vectorstore|];
    [|apply errors_keep_of_keeps, preserves_ret].
  apply errors_keep_bind; [apply preserves_get_session|]. intros session.
  apply errors_keep_bind; [apply keeps_get_intent|]. intros i.
  destruct (decide (i = SUMMARY)).
  - apply errors_keep_of_never, never_error_bind. intros summary.
    apply never_error_bind. intros _. apply never_error_ret. discriminate.
  - apply errors_keep_bind.
    { apply preserves_try_except; [|apply preserves_ret].
      apply preserves_bind; [|intros; apply preserves_ret].
      apply keeps_retriever_invoke. }
    intros [retrieved_docs|]; [|apply errors_keep_of_keeps, preserves_ret].
    apply errors_keep_bind; [apply preserves_get_session|]. intros session'.
    apply (errors_keep_generation session_id message _
             (fun result => mkChatResult result RAG _)).
    intros a. discriminate.
Qed.

End Histories.

Lemma chat_error_keeps_history_witness :
  let env := Spec.sample_env
               [Transcript.mkFragment "hello world, this is the opening of the video" 0 4]
               (Some (Spec.ones 100)) (Some RAG) None None in
  let w := Spec.world_with_session "s" in
  let out := Pipeline.chat_with_video env "s" "https://youtu.be/dQw4w9WgXcQ"
               "what is said at the start?" w in
  fst out = Return (Pipeline.error_result "Error retrieving relevant documents.") /\
  Spec.histories (snd out) = Spec.histories w.
Proof.
  intros env w out. split; [vm_compute; reflexivity|].
  apply (chat_error_keeps_history env "s" "https://youtu.be/dQw4w9WgXcQ"
           "what is said at the start?" w (snd out)
           (Pipeline.error_result "Error retrieving relevant documents.")).
  - vm_compute. reflexivity.
  - reflexivity.
Defined.

(** ** Comparison without any index *)

Section CompareWithoutIndex.

Import Spec.

Variable env : Env.

Lemma silent_process_and_store_video (video : string) (collection : option string) :
  preserves model_calls (MultiVideo.process_and_store_video env video collection).
Proof.
  pose proof model_calls_clock as Hclock.
  unfold MultiVideo.process_and_store_video.
  apply preserves_bind; [apply preserves_call, Hclock|]. intros meta.
  apply preserves_bind; [apply preserves_call, Hclock|]. intros fragments.
  destruct (Transcript.ingest_video_to_chunks _ _ _) as [chunks k].
  destruct chunks as [|c chunks]; [apply preserves_ret|].
  apply preserves_bind; [|intros; apply preserves_ret].
  unfold MultiVideo.create_vectorstore_for_video. apply preserves_bind.
  - intros w w' o H.
    destruct (MultiVideo.validate_chunks_for_embeddings _ _ _ _) in H.
    injection H as _ <-. reflexivity.
  - intros [|d v]; [apply preserves_ret|].
    apply preserves_bind; [apply preserves_call_raising, Hclock|].
    intros; apply preserves_ret.
Qed.

Lemma no_index_without_store (proc : ProcessedVideo) :
  pv_vectorstore proc = None -> MultiVideo.no_index proc = true.
Proof.
  intros H. unfold MultiVideo.no_index. rewrite H.
  destruct (pv_chunks proc); reflexivity.
Qed.

(** C8 (as the code has it).  When neither video has an index, both
    comparison entry points return at once, send nothing to the model and
    record nothing: [compare_videos] of [pipeline.py] returns the [ERROR]
    result "Transcripts missing for both videos. Cannot compare.", and
    [compare_videos] of [multiVideo.py] returns the [INSUFFICIENT_DATA]
    message. *)
Theorem compare_without_index :
  (forall (session_id url1 url2 question : string) (w w1 w2 : World)
          (proc_a proc_b : ProcessedVideo),
     Pipeline.process_video env session_id url1 w = (Return proc_a, w1) ->
     Pipeline.process_video env session_id url2 w1 = (Return proc_b, w2) ->
     pv_vectorstore proc_a = None ->
     pv_vectorstore proc_b = None ->
     Pipeline.compare_videos env session_id url1 url2 question w
     = (Return (Pipeline.mkCompareResult
                  "Transcripts missing for both videos. Cannot compare."
                  ERROR None None), w2) /\
     model_calls w2 = model_calls w /\
     histories w2 = histories w)
  /\
  (forall (video_a video_b question : string) (top_k : Z)
          (history : list Message) (w w1 w2 : World)
          (proc_a proc_b : ProcessedVideo),
     MultiVideo.process_and_store_video env video_a
       (Some ("youtube-" ++ MultiVideo.extract_video_id video_a)%string) w
     = (Return proc_a, w1) ->
     MultiVideo.process_and_store_video env video_b
       (Some ("youtube-" ++ MultiVideo.extract_video_id video_b)%string) w1
     = (Return proc_b, w2) ->
     pv_vectorstore proc_a = None ->
     pv_vectorstore proc_b = None ->
     MultiVideo.compare_videos env video_a video_b question top_k history w
     = (Return (MultiVideo.insufficient_data_compare, history), w2) /\
     model_calls w2 = model_calls w).
Proof.
  split.
  - intros session_id url1 url2 question w w1 w2 proc_a proc_b Ha Hb Hva Hvb.
    split; [|split].
    + unfold Pipeline.compare_videos, bind.
      assert (Hs : exists s, Pipeline.get_session session_id w = (Return s, w)).
      { unfold Pipeline.process_video, bind, Pipeline.get_session in *.
        destruct (sessions w !! session_id) as [s|]; [|discriminate].
        exists s. reflexivity. }
      destruct Hs as [s ->]. rewrite Ha, Hb, Hva, Hvb. reflexivity.
    + rewrite (silent_process_video env _ _ _ _ _ Hb).
      exact (silent_process_video env _ _ _ _ _ Ha).
    + rewrite (keeps_process_video env _ _ _ _ _ Hb).
      exact (keeps_process_video env _ _ _ _ _ Ha).
  - intros video_a video_b question top_k history w w1 w2 proc_a proc_b
      Ha Hb Hva Hvb.
    split.
    + unfold MultiVideo.compare_videos, bind. rewrite Ha, Hb.
      rewrite (no_index_without_store _ Hva), (no_index_without_store _ Hvb).
      reflexivity.
    + rewrite (silent_process_and_store_video _ _ _ _ _ Hb).
      exact (silent_process_and_store_video _ _ _ _ _ Ha).
Qed.

End CompareWithoutIndex.

Lemma compare_without_index_witness :
  let env := Spec.sample_env [] None None None None in
  let w := Spec.world_with_session "s" in
  let out := Pipeline.compare_videos env "s" "videoA" "videoB"
               "which is better?" w in
  fst out = Return (Pipeline.mkCompareResult
                      "Transcripts missing for both videos. Cannot compare."
                      ERROR None None) /\
  model_calls (snd out) = model_calls w /\
  Spec.histories (snd out) = Spec.histories w.
Proof.
  intros env w out.
  pose (pa := mkProcessedVideo "videoA"
                (mkVideoInfo "videoA" "Unknown" "Unknown" "Unknown" "") [] 5 None).
  pose (pb := mkProcessedVideo "videoB"
                (mkVideoInfo "videoB" "Unknown" "Unknown" "Unknown" "") [] 5 None).
  pose (w1 := snd (Pipeline.process_video env "s" "videoA" w)).
  pose (w2 := snd (Pipeline.process_video env "s" "videoB" w1)).
  destruct (proj1 (compare_without_index env) "s" "videoA" "videoB"
              "which is better?" w w1 w2 pa pb) as (Hres & Hcalls & Hhist).
  - vm_compute. reflexivity.
  - vm_compute. reflexivity.
  - reflexivity.
  - reflexivity.
  - unfold out. rewrite Hres. cbn [fst snd]. repeat split; assumption.
Defined.

(** C8 as worded fails on [pipeline.py]: the result is an [ERROR] result
    whose message does not mention [INSUFFICIENT_DATA]. *)
Lemma backend_compare_reports_error :
  let env := Spec.sample_env [] None None None None in
  let out := Pipeline.compare_videos env "s" "videoA" "videoB"
               "which is better?" (Spec.world_with_session "s") in
  exists r : Pipeline.CompareResult,
    fst out = Return r /\
    Pipeline.cmp_intent r = ERROR /\
    Pipeline.cmp_response r
    = "Transcripts missing for both videos. Cannot compare."%string /\
    Py.contains "INSUFFICIENT_DATA" (Pipeline.cmp_response r) = false /\
    model_calls (snd out) = [].
Proof.
  eexists. split; [vm_compute; reflexivity|]. vm_compute. repeat split.
Qed.

(** ** The entry point of [multiVideo.py] *)

Section ChatPaths.

Import Spec.

Variable env : Env.

(** X27.  [handle_user_query] returns an [ERROR] result only when a video is
    missing, and then leaves the history and the world as they were. *)
Lemma handle_user_query_error (primary secondary user_query : string)
    (history history' : list Message) (w w' : World)
    (r : MultiVideo.QueryResult) :
  MultiVideo.handle_user_query env primary secondary user_query history w
  = (Return (r, history'), w') ->
  MultiVideo.qr_intent r = ERROR ->
  history' = history /\ w' = w /\ (primary = ""%string \/ secondary = ""%string).
Proof.
  intros H He. unfold MultiVideo.handle_user_query in H.
  destruct primary as [|a primary].
  { unfold ret in H. injection H as _ <- <-. repeat split. left. reflexivity. }
  destruct secondary as [|b secondary].
  { unfold ret in H. injection H as _ <- <-. repeat split. right. reflexivity. }
  exfalso. unfold bind in H.
  destruct (MultiVideo.get_intent env user_query history true w)
    as [[i|] w1] eqn:Hi; [|discriminate].
  assert (Hne : i <> ERROR).
  { unfold MultiVideo.get_intent, try_except, bind, call_raising, ret, raise in Hi.
    cbn in Hi.
    destruct (env_router env _ _) as [j|]; cbn in Hi.
    - destruct j; cbn in Hi; injection Hi as <- _; discriminate.
    - injection Hi as <- _. discriminate. }
  destruct (decide (i = DUAL_SUMMARY)) as [->|Hnd].
  - repeat (match type of H with
            | context [match ?x with _ => _ end] => destruct x
            end; try discriminate).
    all: injection H as <- _ _; discriminate.
  - destruct (decide (i = COMPARE)) as [->|Hnc].
    + repeat (match type of H with
              | context [match ?x with _ => _ end] => destruct x
              end; try discriminate).
      all: injection H as <- _ _; discriminate.
    + repeat (match type of H with
              | context [match ?x with _ => _ end] => destruct x
              end; try discriminate).
      all: injection H as <- _ _; discriminate.
Qed.

End ChatPaths.

(** * Further properties of the code *)

(** ** [get_structured_docs] as a cache *)

Section RetrievalCacheMore.

Import Spec MultiVideo.

Lemma slice_to_short {A} (k : Z) (l : list A) :
  Z.of_nat (length l) <= k -> Py.slice_to k l = l.
Proof.
  intros H. unfold Py.slice_to.
  assert (Hk : (0 <=? k) = true) by (apply Z.leb_le; lia).
  rewrite Hk. apply take_ge. lia.
Qed.

Lemma dedupe_and_trim_length (k : Z) (docs : list Document) :
  1 <= k -> Z.of_nat (length (dedupe_and_trim k ∅ [] docs)) <= k.
Proof.
  intros Hk. rewrite dedupe_and_trim_fresh by exact Hk.
  rewrite length_take. lia.
Qed.


(** X3.  When the lock of the key is free and the bound is at least one,
    what a call returns is what it leaves in the cache: the same call made
    again, with any retriever, returns the same documents and changes
    nothing, so the retriever is not asked twice. *)
Lemma get_structured_docs_hit_after_miss (env : Env)
    (vectorstore_id user_query : string)
    (retriever retriever' : option (Chroma * Z)) (k : Z) (w w' : World)
    (docs : list Document) :
  1 <= k ->
  retrieval_cache w !! cache_key vectorstore_id user_query = None ->
  cache_key vectorstore_id user_query ∉ locks_held w ->
  get_structured_docs env vectorstore_id retriever user_query k w
  = (Return docs, w') ->
  get_structured_docs env vectorstore_id retriever' user_query k w'
  = (Return docs, w').
Proof.
  intros Hk Hmiss Hfree Hcall.
  assert (Hstored : exists (ds : list Document) (w1 : World),
             get_structured_docs env vectorstore_id retriever user_query k w
             = (Return ds, w1) /\
             retrieval_cache w1 !! cache_key vectorstore_id user_query = Some ds /\
             Z.of_nat (length ds) <= k).
  { unfold get_structured_docs. rewrite Hmiss.
    destruct (decide (cache_key vectorstore_id user_query ∈ locks_held w));
      [contradiction|].
    unfold store_in_cache, acquire, release.
    retrieval_cases; cbn -[dedupe_and_trim];
      eexists _, _; (split; [reflexivity|]); cbn -[dedupe_and_trim];
      rewrite lookup_insert_eq; (split; [reflexivity|]);
      first [apply dedupe_and_trim_length, Hk | cbn; lia]. }
  destruct Hstored as (ds & w1 & Hcall' & Hstored & Hlen).
  rewrite Hcall in Hcall'. injection Hcall' as <- <-.
  unfold get_structured_docs. rewrite Hstored.
  rewrite slice_to_short by exact Hlen. reflexivity.
Qed.

Lemma get_structured_docs_hit_after_miss_witness :
  let d := mkDocument "the opening words of the video" (mkMetadata "vid" 0 9) in
  let env := sample_env [] None None (Some [d; d]) None in
  let w' := snd (get_structured_docs env "youtube-vid"
                   (Some (mkChroma "youtube-vid" [d], 5)) "opening" 5
                   empty_world) in
  get_structured_docs env "youtube-vid" None "opening" 5 w' = (Return [d], w').
Proof.
  intros d env w'.
  apply (get_structured_docs_hit_after_miss env "youtube-vid" "opening"
           (Some (mkChroma "youtube-vid" [d], 5)) None 5 empty_world w' [d]).
  - lia.
  - reflexivity.
  - exact (not_elem_of_empty _).
  - vm_compute. reflexivity.
Defined.

(** X4.  A retrieval that fails while the lock is free is remembered: the
    call returns no document and stores the empty list under the key, so
    that every later call for the key returns no document either, whatever
    its retriever.  The fallback taken while the lock is held stores
    nothing on failure. *)
Lemma get_structured_docs_failure_is_cached (env : Env)
    (vectorstore_id user_query : string)
    (k : Z) (w : World) :
  retrieval_cache w !! cache_key vectorstore_id user_query = None ->
  exists w' : World,
    get_structured_docs env vectorstore_id None user_query k w = (Return [], w') /\
    (cache_key vectorstore_id user_query ∉ locks_held w ->
     retrieval_cache w' !! cache_key vectorstore_id user_query = Some [] /\
     forall (retriever : option (Chroma * Z)) (k' : Z),
       get_structured_docs env vectorstore_id retriever user_query k' w'
       = (Return [], w')) /\
    (cache_key vectorstore_id user_query ∈ locks_held w -> w' = w).
Proof.
  intros Hmiss. unfold get_structured_docs at 1. rewrite Hmiss.
  destruct (decide (cache_key vectorstore_id user_query ∈ locks_held w))
    as [Hheld|Hfree].
  - exists w. split; [reflexivity|]. split; [contradiction|reflexivity].
  - eexists. split; [reflexivity|]. split; [|contradiction].
    intros _. cbn. rewrite lookup_insert_eq. split; [reflexivity|].
    intros retriever k'. unfold get_structured_docs. cbn.
    rewrite lookup_insert_eq.
    unfold Py.slice_to. destruct (0 <=? k'); rewrite take_nil; reflexivity.
Qed.

Lemma get_structured_docs_failure_is_cached_witness :
  exists w' : World,
    get_structured_docs (sample_env [] None None None None) "youtube-vid" None
      "opening" 5 empty_world = (Return [], w') /\
    (cache_key "youtube-vid" "opening" ∉ locks_held empty_world ->
     retrieval_cache w' !! cache_key "youtube-vid" "opening" = Some [] /\
     forall (retriever : option (Chroma * Z)) (k' : Z),
       get_structured_docs (sample_env [] None None None None) "youtube-vid"
         retriever "opening" k' w' = (Return [], w')) /\
    (cache_key "youtube-vid" "opening" ∈ locks_held empty_world -> w' = empty_world).
Proof.
  apply (get_structured_docs_failure_is_cached
           (sample_env [] None None None None) "youtube-vid" "opening" 5
           empty_world).
  reflexivity.
Defined.


End RetrievalCacheMore.

(** ** The embedding wrapper and the validator *)

Section EmbeddingsMore.

Import Spec.

Lemma leaves_float_list (l : list PyFloat) : leaves (float_list l) = PyNum <$> l.
Proof.
  unfold float_list. cbn [leaves].
  induction l as [|x l IH]; [reflexivity|].
  cbn [fmap list_fmap flat_map leaves app]. cbn [fmap list_fmap] in IH.
  rewrite IH. reflexivity.
Qed.

Lemma mapM_to_float_nums (l : list PyFloat) : mapM to_float (PyNum <$> l) = Some l.
Proof.
  induction l as [|x l IH]; [reflexivity|].
  cbn [fmap list_fmap mapM to_float]. cbn [fmap list_fmap] in IH.
  rewrite IH. reflexivity.
Qed.

Lemma sanitize_vector_finite (vec : PyObj) :
  forallb isfinite (_sanitize_vector vec) = true.
Proof.
  unfold _sanitize_vector.
  induction (leaves vec) as [|v l IH]; [reflexivity|].
  cbn [fmap list_fmap forallb]. cbn [fmap list_fmap] in IH. rewrite IH.
  destruct (to_float v) as [fv|]; [|reflexivity].
  destruct (isfinite fv) eqn:Hf; [rewrite Hf|]; reflexivity.
Qed.

(** X6.  [_sanitize_vector] returns one finite number per leaf of its
    argument, so that on a vector that went through it the test of the
    validator depends on the number of leaves alone: a NaN, an infinity or a
    value that is no number has become [0.0] and no longer fails it. *)
Lemma sanitize_vector_passes_by_length (vec : PyObj) (min_length : Z) :
  length (_sanitize_vector vec) = length (leaves vec) /\
  Forall (fun v => isfinite v = true) (_sanitize_vector vec) /\
  embedding_ok min_length (float_list (_sanitize_vector vec))
  = negb (Z.of_nat (length (leaves vec)) <? Z.max 1 min_length).
Proof.
  assert (Hlen : length (_sanitize_vector vec) = length (leaves vec)).
  { unfold _sanitize_vector. apply length_fmap. }
  split; [exact Hlen|]. split.
  - apply Forall_forall. intros x Hx.
    pose proof (sanitize_vector_finite vec) as H.
    rewrite forallb_forall in H. apply H. now apply list_elem_of_In.
  - unfold embedding_ok.
    rewrite leaves_float_list, mapM_to_float_nums, <- Hlen.
    pose proof (sanitize_vector_finite vec) as Hfin.
    destruct (_sanitize_vector vec) as [|x l] eqn:Hs.
    + cbn [length]. symmetry. apply negb_false_iff, Z.ltb_lt. lia.
    + rewrite Hfin.
      destruct (Z.of_nat (length (x :: l)) <? min_length) eqn:Hm.
      * symmetry. apply negb_false_iff, Z.ltb_lt. apply Z.ltb_lt in Hm. lia.
      * symmetry. apply negb_true_iff, Z.ltb_ge. apply Z.ltb_ge in Hm.
        cbn [length] in *. lia.
Qed.

Lemma embed_query_tries_result (provider : Provider) (tries : nat) :
  forall (n n' : nat) (text : string) (vec : PyObj),
    Embeddings.embed_query_tries provider tries n text = (Some vec, n') ->
    exists (raw : PyObj) (t : nat),
      (n <= t < n')%nat /\ (n' <= n + tries)%nat /\
      provider t text = Some raw /\
      vec = float_list (_sanitize_vector raw).
Proof.
  induction tries as [|tries IH]; intros n n' text vec H;
    cbn [Embeddings.embed_query_tries] in H; [discriminate|].
  destruct (provider n text) as [raw|] eqn:Hp.
  - injection H as <- <-. exists raw, n. repeat split; try lia. exact Hp.
  - destruct (IH _ _ _ _ H) as (raw & t & Ht & Hn & Hq & Hv).
    exists raw, t. repeat split; try lia; assumption.
Qed.

Lemma embed_query_tries_clock (provider : Provider) (tries : nat) :
  forall (n : nat) (text : string),
    (n <= snd (Embeddings.embed_query_tries provider tries n text) <= n + tries)%nat.
Proof.
  induction tries as [|tries IH]; intros n text;
    cbn [Embeddings.embed_query_tries]; [cbn; lia|].
  destruct (provider n text); [cbn; lia|].
  specialize (IH (S n) text). lia.
Qed.

(** X7.  What [SafeOllamaEmbeddings.embed_query] of [embeddings.py] returns
    is the sanitized answer of one of at most two calls to the provider: a
    flat list of finite numbers. *)
Lemma embed_query_returns_sanitized (provider : Provider) (n n' : nat)
    (text : string) (vec : PyObj) :
  Embeddings.embed_query provider n text = (Some vec, n') ->
  exists (raw : PyObj) (t : nat),
    (n <= t < n')%nat /\ (n' <= n + 2)%nat /\
    provider t text = Some raw /\
    vec = float_list (_sanitize_vector raw) /\
    Forall (fun v => isfinite v = true) (_sanitize_vector raw).
Proof.
  intros H. apply embed_query_tries_result in H as (raw & t & Ht & Hn & Hp & Hv).
  exists raw, t. repeat split; try assumption; try lia.
  apply Forall_forall. intros x Hx.
  pose proof (sanitize_vector_finite raw) as Hfin.
  rewrite forallb_forall in Hfin. apply Hfin. now apply list_elem_of_In.
Qed.

Lemma embed_query_returns_sanitized_witness :
  exists (raw : PyObj) (t : nat),
    (0 <= t < 2)%nat /\ (2 <= 0 + 2)%nat /\
    (fun (n : nat) (_ : string) =>
       match n with O => None | _ => Some (PySeq [PyNum NaN; PyNum (Finite 3)]) end)
      t "some text"%string = Some raw /\
    float_list [zero; Finite 3] = float_list (_sanitize_vector raw) /\
    Forall (fun v => isfinite v = true) (_sanitize_vector raw).
Proof.
  apply (embed_query_returns_sanitized
           (fun (n : nat) (_ : string) =>
              match n with O => None | _ => Some (PySeq [PyNum NaN; PyNum (Finite 3)]) end)
           0 2 "some text" (float_list [zero; Finite 3])).
  reflexivity.
Defined.

End EmbeddingsMore.

Section ValidatorMore.

Import Spec.

Variable nfkc : string -> string.
Variable embed_query : nat -> string -> option PyObj * nat.
Variable min_length : Z.

Local Abbreviation validate_from' :=
  (validate_chunks_from nfkc embed_query min_length).

Lemma merge_into_last_metadata (v : list Document) (content : string) :
  metadata <$> merge_into_last v content = metadata <$> v.
Proof.
  induction v as [|d v IH]; [reflexivity|].
  destruct v as [|d' v]; [reflexivity|].
  change (merge_into_last (d :: d' :: v) content)
    with (d :: merge_into_last (d' :: v) content).
  cbn [fmap list_fmap] in *. rewrite IH. reflexivity.
Qed.

Lemma validate_from_metadata (chunks : list Document) :
  forall (v : list Document) (n : nat),
    exists l : list Metadata,
      l `sublist_of` (metadata <$> chunks) /\
      metadata <$> fst (validate_from' (v, n) chunks) = (metadata <$> v) ++ l.
Proof.
  induction chunks as [|chunk rest IH]; intros v n.
  - exists []. split; [constructor|]. cbn. rewrite app_nil_r. reflexivity.
  - unfold validate_chunks_from in *. cbn [fold_left].
    unfold validate_chunk at 2.
    destruct (sanitize_content nfkc (page_content chunk)) as [content|].
    + destruct (embed_attempts embed_query min_length 2 n content) as [[|] n'].
      * destruct (IH (v ++ [mkDocument content (metadata chunk)]) n')
          as (l & Hl & Heq).
        exists (metadata chunk :: l). split.
        -- cbn [fmap list_fmap]. now apply sublist_skip.
        -- rewrite Heq, fmap_app, <- app_assoc. reflexivity.
      * destruct (IH (merge_into_last v content) n') as (l & Hl & Heq).
        exists l. split.
        -- cbn [fmap list_fmap]. now apply sublist_cons.
        -- rewrite Heq, merge_into_last_metadata. reflexivity.
    + destruct (IH v n) as (l & Hl & Heq).
      exists l. split; [|exact Heq].
      cbn [fmap list_fmap]. now apply sublist_cons.
Qed.

End ValidatorMore.

Section ValidatorMoreClaims.

Import Spec.

(** X8.  Both validators return the metadata of input chunks, in the
    order of the input and none twice: a chunk is kept with its own
    metadata or not at all, and merging a failed text into the previous
    chunk leaves that chunk's video id and time range as they were.  In
    particular no more chunks are returned than were given. *)
Lemma validators_keep_metadata (nfkc : string -> string) (provider : Provider)
    (n : nat) (chunks : list Document) :
  let backend := fst (Embeddings.validate_chunks_for_embeddings nfkc provider n chunks) in
  let script := fst (MultiVideo.validate_chunks_for_embeddings nfkc provider n chunks) in
  (metadata <$> backend) `sublist_of` (metadata <$> chunks) /\
  (metadata <$> script) `sublist_of` (metadata <$> chunks) /\
  (length backend <= length chunks)%nat /\
  (length script <= length chunks)%nat.
Proof.
  intros backend script.
  assert (Hb : (metadata <$> backend) `sublist_of` (metadata <$> chunks)).
  { destruct (validate_from_metadata nfkc (Embeddings.embed_query provider) 100
                chunks [] n) as (l & Hl & Heq).
    unfold backend, Embeddings.validate_chunks_for_embeddings, validate_chunks_with.
    rewrite Heq. exact Hl. }
  assert (Hs : (metadata <$> script) `sublist_of` (metadata <$> chunks)).
  { destruct (validate_from_metadata nfkc (MultiVideo.embed_query provider) 0
                chunks [] n) as (l & Hl & Heq).
    unfold script, MultiVideo.validate_chunks_for_embeddings, validate_chunks_with.
    rewrite Heq. exact Hl. }
  split; [exact Hb|]. split; [exact Hs|].
  apply sublist_length in Hb, Hs. rewrite !length_fmap in Hb, Hs.
  split; assumption.
Qed.

Lemma embed_attempts_clock (provider : Provider) (attempts : nat) :
  forall (n : nat) (content : string),
    (n <= snd (embed_attempts (Embeddings.embed_query provider) 100 attempts n content)
     <= n + 2 * attempts)%nat.
Proof.
  induction attempts as [|attempts IH]; intros n content;
    cbn [embed_attempts]; [cbn; lia|].
  pose proof (embed_query_tries_clock provider 2 n content) as Hq.
  unfold Embeddings.embed_query in *.
  destruct (Embeddings.embed_query_tries provider 2 n content) as [[vec|] n1].
  - cbn [snd] in Hq. destruct (embedding_ok 100 vec); [cbn; lia|].
    specialize (IH n1 content). lia.
  - cbn [snd] in Hq. specialize (IH n1 content). lia.
Qed.

(** X9.  The validator of [embeddings.py] gives up: for every chunk it
    asks the provider at most four times (two attempts of two tries), so a
    run over [m] chunks makes at most [4 * m] provider calls, however the
    provider behaves. *)
Lemma validator_bounded_calls (nfkc : string -> string) (provider : Provider)
    (n : nat) (chunks : list Document) :
  (n <= snd (Embeddings.validate_chunks_for_embeddings nfkc provider n chunks)
   <= n + 4 * length chunks)%nat.
Proof.
  unfold Embeddings.validate_chunks_for_embeddings, validate_chunks_with,
    validate_chunks_from.
  generalize (@nil Document) as v. revert n.
  induction chunks as [|chunk rest IH]; intros n v; cbn [fold_left length];
    [cbn; lia|].
  unfold validate_chunk at 2 4.
  destruct (sanitize_content nfkc (page_content chunk)) as [content|].
  - pose proof (embed_attempts_clock provider 2 n content) as Ha.
    destruct (embed_attempts (Embeddings.embed_query provider) 100 2 n content)
      as [[|] n1]; cbn [snd] in Ha.
    + specialize (IH n1 (v ++ [mkDocument content (metadata chunk)])). lia.
    + specialize (IH n1 (merge_into_last v content)). lia.
  - specialize (IH n v). lia.
Qed.

Lemma embed_attempts_all_fail (provider : Provider) (attempts : nat) :
  (forall n s, provider n s = None) ->
  forall (n : nat) (content : string),
    fst (embed_attempts (Embeddings.embed_query provider) 100 attempts n content)
    = false.
Proof.
  intros Hfail. induction attempts as [|attempts IH]; intros n content;
    cbn [embed_attempts]; [reflexivity|].
  unfold Embeddings.embed_query. cbn [Embeddings.embed_query_tries].
  rewrite !Hfail. apply IH.
Qed.

(** When the provider raises on every call, the validator of
    [embeddings.py] returns no chunk. *)
Lemma validator_all_fail (nfkc : string -> string) (provider : Provider)
    (n : nat) (chunks : list Document) :
  (forall n s, provider n s = None) ->
  fst (Embeddings.validate_chunks_for_embeddings nfkc provider n chunks) = [].
Proof.
  intros Hfail.
  unfold Embeddings.validate_chunks_for_embeddings, validate_chunks_with,
    validate_chunks_from.
  revert n. induction chunks as [|chunk rest IH]; intros n; cbn [fold_left];
    [reflexivity|].
  unfold validate_chunk at 2.
  destruct (sanitize_content nfkc (page_content chunk)) as [content|];
    [|apply IH].
  pose proof (embed_attempts_all_fail provider 2 Hfail n content) as Ha.
  destruct (embed_attempts (Embeddings.embed_query provider) 100 2 n content)
    as [ok n1]. cbn [fst] in Ha. subst ok. cbn [merge_into_last]. apply IH.
Qed.



Section Promise.

Variable nfkc : string -> string.
Variable provider : Provider.





End Promise.



End ValidatorMoreClaims.

(** ** Video ids *)

Section VideoIdMore.

Import Transcript Spec.

Local Open Scope string_scope.

Lemma str_forallb_app (p : ascii -> bool) (a b : string) :
  Py.str_forallb p (a ++ b) = Py.str_forallb p a && Py.str_forallb p b.
Proof.
  induction a as [|c a IH]; [reflexivity|].
  cbn [String.append Py.str_forallb]. rewrite IH. apply andb_assoc.
Qed.

(** A text made of id characters holds no match: each of the three
    prefixes has a character that is no id character. *)
Lemma re_search_id_chars (g : string) :
  Py.str_forallb is_id_char g = true -> re_search g = None.
Proof.
  intros Hall. pose proof (re_search_spec g) as H.
  destruct (re_search g) as [g'|]; [|reflexivity].
  destruct H as (i & (_ & p & pre & post & Hp & -> & _) & _).
  rewrite !str_forallb_app in Hall.
  apply andb_prop in Hall as [_ Hall]. apply andb_prop in Hall as [Hall _].
  unfold alternatives in Hp.
  destruct Hp as [<-|[<-|[<-|[]]]]; vm_compute in Hall; discriminate.
Qed.

(** X11.  [extract_video_id] returns its argument or an 11-character id,
    and an id it has extracted is returned unchanged when it is passed
    again: the function is idempotent. *)
Lemma extract_video_id_idempotent (url_or_id : string) :
  (extract_video_id url_or_id = url_or_id \/
   (String.length (extract_video_id url_or_id) = 11%nat /\
    Py.str_forallb is_id_char (extract_video_id url_or_id) = true)) /\
  extract_video_id (extract_video_id url_or_id) = extract_video_id url_or_id.
Proof.
  assert (Hcases :
            (re_search url_or_id = None /\ extract_video_id url_or_id = url_or_id)
            \/ exists g, extract_video_id url_or_id = g /\ is_group g).
  { unfold extract_video_id. pose proof (re_search_spec url_or_id) as H.
    destruct (re_search url_or_id) as [g|].
    - right. exists g. split; [reflexivity|].
      destruct H as (i & (Hg & _) & _). exact Hg.
    - left. split; reflexivity. }
  destruct Hcases as [[Hs He]|(g & He & Hlen & Hall)]; rewrite !He.
  - split; [left; reflexivity|reflexivity].
  - split; [right; split; assumption|].
    unfold extract_video_id. rewrite (re_search_id_chars g Hall). reflexivity.
Qed.

Lemma match_here_extends (s : string) :
  match_here s
  = match match_alternatives ["v="; "/"] s with
    | Some g => Some g
    | None => match_literal "be/" s ≫= match_id_chars 11
    end.
Proof.
  unfold match_here, alternatives. cbn [match_alternatives].
  destruct (match_literal "v=" s ≫= match_id_chars 11); [reflexivity|].
  destruct (match_literal "/" s ≫= match_id_chars 11); [reflexivity|].
  destruct (match_literal "be/" s ≫= match_id_chars 11); reflexivity.
Qed.

(** X12.  The pattern of [multiVideo.py], which lacks the alternative
    ["be/"], extracts the same id as the pattern of [transcript.py] from
    every input: a group after ["be/"] is also a group after ["/"]. *)
Lemma extract_video_id_patterns_agree (url_or_id : string) :
  MultiVideo.extract_video_id url_or_id = extract_video_id url_or_id.
Proof.
  unfold MultiVideo.extract_video_id, extract_video_id.
  assert (H : MultiVideo.re_search url_or_id = re_search url_or_id);
    [|rewrite H; reflexivity].
  induction url_or_id as [|c s IH].
  - reflexivity.
  - cbn [MultiVideo.re_search re_search]. rewrite match_here_extends.
    destruct (match_alternatives ["v="; "/"] (String c s)) as [g|] eqn:Hm;
      [reflexivity|].
    destruct (match_literal "be/" (String c s)) as [r|] eqn:Hlit.
    + cbn [mbind option_bind].
      destruct (match_id_chars 11 r) as [g|] eqn:Hg; [|exact IH].
      apply match_literal_sound in Hlit.
      change ("be/" ++ r) with (String "b" (String "e" (String "/" r))) in Hlit.
      injection Hlit as -> ->.
      cbn [MultiVideo.re_search match_alternatives match_literal Ascii.eqb
           Bool.eqb mbind option_bind].
      rewrite Hg. reflexivity.
    + exact IH.
Qed.

End VideoIdMore.

(** ** The chunker *)

Section ChunkerMore.

Import Transcript Spec.

(** The raw segments, whatever the state of the loop: there is one as soon
    as a fragment is left, none has another video id, the first starts where
    the pending text or else the first fragment starts, the last ends where
    the last fragment ends, and there are no more segments than fragments. *)
Lemma accumulate_covers (video_id : string) (target : Z) (docs : list Document) :
  forall (st : Accum) (d0 : Document),
    docs <> [] ->
    exists (r : Document) (rs : list Document),
      accumulate video_id target st docs = r :: rs /\
      md_start (metadata r)
      = match current_content st with
        | [] => md_start (metadata (hd d0 docs))
        | _ => current_start st
        end /\
      (fun x => md_end (metadata x)) <$> last (r :: rs)
      = (fun x => md_end (metadata x)) <$> last docs /\
      (length (r :: rs) <= length docs)%nat /\
      Forall (fun x => md_video_id (metadata x) = video_id) (r :: rs).
Proof.
  induction docs as [|doc rest IH]; intros st d0 Hne; [contradiction|].
  cbn [accumulate hd].
  destruct rest as [|doc' rest'].
  - rewrite orb_true_r. eexists _, []. split; [reflexivity|].
    cbn [metadata md_start md_end length].
    repeat split; try lia. repeat constructor.
  - destruct (target <=? current_len st + Py.len (page_content doc)).
    + cbn [orb].
      destruct (IH (mkAccum []
                      match current_content st with
                      | [] => md_start (metadata doc)
                      | _ => current_start st
                      end 0) d0 ltac:(discriminate))
        as (r & rs & Heq & _ & Hend & Hlen & Hvid).
      eexists _, _. split; [reflexivity|].
      rewrite Heq. cbn [metadata md_start].
      split; [reflexivity|]. split.
      * rewrite !last_cons_cons in *. exact Hend.
      * split; [cbn [length] in *; lia|].
        constructor; [reflexivity|exact Hvid].
    + cbn [orb].
      destruct (IH (mkAccum (current_content st ++ [page_content doc])
                      match current_content st with
                      | [] => md_start (metadata doc)
                      | _ => current_start st
                      end
                      (current_len st + Py.len (page_content doc))) d0
                  ltac:(discriminate))
        as (r & rs & Heq & Hstart & Hend & Hlen & Hvid).
      exists r, rs. split; [exact Heq|].
      split.
      * rewrite Hstart. cbn [current_content current_start].
        destruct (current_content st); reflexivity.
      * split; [rewrite last_cons_cons; exact Hend|].
        split; [cbn [length] in *; lia|exact Hvid].
Qed.

(** X13.  For a non-empty transcript the raw segments handed to the
    splitter cover the transcript: the first starts at the first fragment's
    start, the last ends at the last fragment's end, every segment carries
    the video id, and there are at least one and at most as many segments as
    fragments. *)
Lemma raw_segments_cover_transcript (video_id : string) (target : Z)
    (f : Fragment) (fragments : list Fragment) :
  let docs := fragment_doc video_id <$> (f :: fragments) in
  let raw := accumulate video_id target (mkAccum [] 0 0) docs in
  exists (r : Document) (rs : list Document),
    raw = r :: rs /\
    md_start (metadata r) = frag_start f /\
    (fun x => md_end (metadata x)) <$> last raw
    = frag_end <$> last (f :: fragments) /\
    (length raw <= length (f :: fragments))%nat /\
    Forall (fun x => md_video_id (metadata x) = video_id) raw.
Proof.
  intros docs raw.
  destruct (accumulate_covers video_id target docs (mkAccum [] 0 0)
              (fragment_doc video_id f) ltac:(discriminate))
    as (r & rs & Heq & Hstart & Hend & Hlen & Hvid).
  exists r, rs. unfold raw. rewrite Heq. split; [reflexivity|].
  split; [exact Hstart|]. split.
  - rewrite Hend. unfold docs. rewrite fmap_last.
    destruct (last (f :: fragments)); reflexivity.
  - unfold docs in Hlen. rewrite length_fmap in Hlen.
    split; [exact Hlen|exact Hvid].
Qed.

(** X14.  [ingest_video_to_chunks] never asks for more than ten results,
    and for a non-empty transcript never for more results than there are
    chunks; without a transcript it returns no chunk and the floor 5. *)
Lemma ingest_dynamic_k_bounds
    (split_documents : Z -> Z -> list Document -> list Document)
    (video_id : string) (fragments : list Fragment) :
  let chunks := fst (ingest_video_to_chunks split_documents video_id fragments) in
  let k := snd (ingest_video_to_chunks split_documents video_id fragments) in
  0 <= k <= 10 /\
  (fragments <> [] -> k <= Z.of_nat (length chunks)) /\
  (fragments = [] -> chunks = [] /\ k = 5).
Proof.
  intros chunks k. unfold chunks, k, ingest_video_to_chunks.
  destruct fragments as [|f fs]; cbn [fmap list_fmap fst snd].
  - split; [lia|]. split; [intros Hne; contradiction|].
    intros _. split; reflexivity.
  - set (n := Z.of_nat (length _)).
    assert (Hn : 0 <= n) by (unfold n; lia).
    assert (Hk : 0 <= dynamic_k n <= 10 /\ dynamic_k n <= n).
    { unfold dynamic_k. destruct (n <? 20) eqn:Hlt.
      - apply Z.ltb_lt in Hlt. lia.
      - apply Z.ltb_ge in Hlt. lia. }
    split; [apply Hk|]. split; [intros _; apply Hk|].
    intros Hnil. discriminate.
Qed.

End ChunkerMore.

(** ** Evidence formatting *)

Section EvidenceMore.

Import Retriever Spec.

Local Open Scope string_scope.

Lemma rstrip_cons (c : ascii) (s : string) :
  Py.rstrip (String c s)
  = match Py.rstrip s with
    | EmptyString => if Py.isspace c then EmptyString else String c EmptyString
    | r => String c r
    end.
Proof. reflexivity. Qed.

Lemma rstrip_idempotent (s : string) : Py.rstrip (Py.rstrip s) = Py.rstrip s.
Proof.
  induction s as [|c s IH]; [reflexivity|].
  rewrite rstrip_cons. destruct (Py.rstrip s) as [|c' r] eqn:Hr.
  - destruct (Py.isspace c) eqn:Hc; [reflexivity|].
    rewrite rstrip_cons. cbn [Py.rstrip]. rewrite Hc. reflexivity.
  - rewrite rstrip_cons, IH. reflexivity.
Qed.

Lemma lstrip_starts_clean (s : string) : starts_clean (Py.lstrip s).
Proof.
  induction s as [|c s IH]; [exact I|].
  cbn [Py.lstrip]. destruct (Py.isspace c) eqn:Hc; [exact IH|exact Hc].
Qed.

Lemma lstrip_of_clean (s : string) : starts_clean s -> Py.lstrip s = s.
Proof.
  destruct s as [|c s]; [reflexivity|]. cbn [starts_clean Py.lstrip].
  intros ->. reflexivity.
Qed.

Lemma rstrip_starts_clean (s : string) :
  starts_clean s -> starts_clean (Py.rstrip s).
Proof.
  destruct s as [|c s]; [intros _; exact I|].
  cbn [starts_clean Py.rstrip]. intros Hc. rewrite Hc.
  destruct (Py.rstrip s); exact Hc.
Qed.

Lemma strip_idempotent (s : string) : Py.strip (Py.strip s) = Py.strip s.
Proof.
  unfold Py.strip.
  rewrite (lstrip_of_clean (Py.rstrip (Py.lstrip s)))
    by apply rstrip_starts_clean, lstrip_starts_clean.
  apply rstrip_idempotent.
Qed.

Lemma length_str_map (f : ascii -> ascii) (s : string) :
  String.length (Py.str_map f s) = String.length s.
Proof. induction s as [|c s IH]; [reflexivity|]. cbn. now rewrite IH. Qed.

Lemma lstrip_str_map (f : ascii -> ascii) (s : string) :
  harmless f -> Py.lstrip (Py.str_map f s) = Py.str_map f (Py.lstrip s).
Proof.
  intros Hf. induction s as [|c s IH]; [reflexivity|].
  cbn [Py.str_map Py.lstrip]. rewrite (proj1 (Hf c)).
  destruct (Py.isspace c); [exact IH|reflexivity].
Qed.

Lemma rstrip_str_map (f : ascii -> ascii) (s : string) :
  harmless f -> Py.rstrip (Py.str_map f s) = Py.str_map f (Py.rstrip s).
Proof.
  intros Hf. induction s as [|c s IH]; [reflexivity|].
  cbn [Py.str_map Py.rstrip]. rewrite IH, (proj1 (Hf c)).
  destruct (Py.rstrip s); cbn [Py.str_map]; [|reflexivity].
  destruct (Py.isspace c); reflexivity.
Qed.

Lemma strip_str_map (f : ascii -> ascii) (s : string) :
  harmless f -> Py.strip (Py.str_map f s) = Py.str_map f (Py.strip s).
Proof.
  intros Hf. unfold Py.strip.
  rewrite lstrip_str_map, rstrip_str_map by exact Hf. reflexivity.
Qed.

Lemma split_from_str_map (f : ascii -> ascii) (s : string) :
  harmless f ->
  forall cur, Py.split_from cur (Py.str_map f s) = Py.split_from cur s.
Proof.
  intros Hf. induction s as [|c s IH]; intros cur; [reflexivity|].
  cbn [Py.str_map Py.split_from]. rewrite (proj1 (Hf c)).
  destruct (Py.isspace c) eqn:Hc.
  - destruct cur; rewrite IH; reflexivity.
  - rewrite (proj2 (Hf c) Hc). apply IH.
Qed.

Lemma is_punct_not_space (c : ascii) : is_punct c = true -> Py.isspace c = false.
Proof.
  unfold is_punct, Py.isspace, Py.in_range. intros H.
  repeat (apply orb_prop in H as [H|H]); apply Z.eqb_eq in H; rewrite H;
    reflexivity.
Qed.

Lemma is_punct_str_map (f : ascii -> ascii) (c : ascii) :
  harmless f -> is_punct (f c) = is_punct c.
Proof.
  intros Hf. destruct (Py.isspace c) eqn:Hc.
  - destruct (is_punct c) eqn:Hp.
    + apply is_punct_not_space in Hp. congruence.
    + destruct (is_punct (f c)) eqn:Hp'; [|reflexivity].
      apply is_punct_not_space in Hp'. rewrite (proj1 (Hf c)) in Hp'. congruence.
  - rewrite (proj2 (Hf c) Hc). reflexivity.
Qed.

Lemma has_punct_run_str_map (f : ascii -> ascii) (s : string) :
  harmless f -> has_punct_run (Py.str_map f s) = has_punct_run s.
Proof.
  intros Hf. induction s as [|a s IH]; [reflexivity|].
  destruct s as [|b [|c s]]; try reflexivity.
  change (has_punct_run (Py.str_map f (String a (String b (String c s)))))
    with (is_punct (f a) && is_punct (f b) && is_punct (f c)
          || has_punct_run (Py.str_map f (String b (String c s)))).
  change (has_punct_run (String a (String b (String c s))))
    with (is_punct a && is_punct b && is_punct c
          || has_punct_run (String b (String c s))).
  rewrite IH, !(is_punct_str_map f) by exact Hf. reflexivity.
Qed.

Lemma is_low_quality_str_map (f : ascii -> ascii) (s : string) (min_len : Z) :
  harmless f ->
  is_low_quality_text_min (Py.str_map f s) min_len = is_low_quality_text_min s min_len.
Proof.
  intros Hf. destruct s as [|c s]; [reflexivity|].
  unfold is_low_quality_text_min.
  cbn [Py.str_map]. change (String (f c) (Py.str_map f s))
    with (Py.str_map f (String c s)).
  rewrite (strip_str_map f) by exact Hf.
  unfold Py.len, Py.split.
  rewrite length_str_map, (split_from_str_map f) by exact Hf.
  rewrite (has_punct_run_str_map f) by exact Hf. reflexivity.
Qed.

Lemma is_low_quality_strip (s : string) (min_len : Z) :
  (0 < min_len)%Z ->
  is_low_quality_text_min (Py.strip s) min_len = is_low_quality_text_min s min_len.
Proof.
  intros Hmin. destruct s as [|c s]; [reflexivity|].
  unfold is_low_quality_text_min at 2.
  destruct (Py.strip (String c s)) as [|c' s'] eqn:Hs.
  - cbn. assert (H : (0 <? min_len)%Z = true) by (apply Z.ltb_lt; lia).
    change (Py.len "") with 0%Z. rewrite H. reflexivity.
  - unfold is_low_quality_text_min. rewrite <- Hs, strip_idempotent.
    rewrite Hs. reflexivity.
Qed.

Lemma replace_newlines_harmless :
  harmless (fun c => if Ascii.eqb c Py.newline then " "%char else c).
Proof.
  intros c. destruct (Ascii.eqb c Py.newline) eqn:Hc.
  - apply Ascii.eqb_eq in Hc as ->. split; [reflexivity|]. discriminate.
  - split; reflexivity.
Qed.

Lemma low_quality_of_evidence_text (s : string) :
  is_low_quality_text (Py.strip s) = is_low_quality_text s /\
  is_low_quality_text (Py.replace_newlines (Py.strip s)) = is_low_quality_text s.
Proof.
  unfold is_low_quality_text, Py.replace_newlines.
  rewrite is_low_quality_str_map by exact replace_newlines_harmless.
  rewrite is_low_quality_strip by lia. split; reflexivity.
Qed.

(** X15.  The quality test does not depend on surrounding whitespace nor on
    whether line breaks are spaces: the text [format_evidence] tests, trimmed
    and with its line breaks replaced, is low-quality exactly when the raw
    text is. *)
Lemma is_low_quality_text_normalized (s : string) :
  is_low_quality_text (Py.strip s) = is_low_quality_text s /\
  is_low_quality_text (Py.replace_newlines (Py.strip s)) = is_low_quality_text s.
Proof. exact (low_quality_of_evidence_text s). Qed.

Lemma format_loop_counts (filter_low_quality : bool) (docs : list Document) :
  let st := snd (format_loop filter_low_quality docs) in
  let lines := fst (format_loop filter_low_quality docs) in
  (kept st + dropped st = Z.of_nat (length docs) /\
   kept st = Z.of_nat (length lines) /\ 0 <= dropped st)%Z /\
  (filter_low_quality = false -> dropped st = 0%Z) /\
  (filter_low_quality = true ->
   kept st = Z.of_nat (length (Pipeline.good_docs_of docs))).
Proof.
  induction docs as [|d rest IH]; [cbn; repeat split; lia|].
  cbn [format_loop]. cbn zeta in IH.
  destruct (format_loop filter_low_quality rest) as [lines st].
  cbn [fst snd] in IH. destruct IH as ((Hsum & Hlines & Hdrop) & Hnofilter & Hgood).
  pose proof (proj2 (low_quality_of_evidence_text (page_content d))) as Hnorm.
  unfold Pipeline.good_docs_of in *. cbn [List.filter].
  destruct filter_low_quality; cbn [andb].
  - rewrite Hnorm. specialize (Hgood eq_refl).
    destruct (is_low_quality_text (page_content d));
      cbn [negb fst snd kept dropped length].
    + split; [repeat split; lia|]. split; [discriminate|]. intros _. exact Hgood.
    + split; [repeat split; lia|]. split; [discriminate|]. intros _. lia.
  - cbn [fst snd kept dropped length]. specialize (Hnofilter eq_refl).
    split; [repeat split; lia|]. split; [intros _; exact Hnofilter|discriminate].
Qed.

(** X16.  [format_evidence] accounts for every document: [kept] and
    [dropped] add up to the number of documents, nothing is dropped when the
    filter is off, and with the filter on [kept] is the number of documents
    that [chat_with_video] and [answer_question_single] keep as [good_docs];
    so [kept == 0] exactly when [good_docs] is empty. *)
Lemma format_evidence_counts (docs : list Document) (filter_low_quality : bool) :
  let st := snd (format_evidence docs filter_low_quality) in
  (kept st + dropped st = Z.of_nat (length docs))%Z /\
  (filter_low_quality = false -> dropped st = 0%Z) /\
  (filter_low_quality = true ->
   kept st = Z.of_nat (length (Pipeline.good_docs_of docs)) /\
   (kept st = 0%Z <-> Pipeline.good_docs_of docs = [])).
Proof.
  intros st.
  assert (Hst : st = snd (format_loop filter_low_quality docs)).
  { unfold st, format_evidence. destruct docs as [|d rest]; [reflexivity|].
    destruct (format_loop filter_low_quality (d :: rest)) as [lines s].
    destruct (kept s =? 0)%Z; reflexivity. }
  rewrite Hst.
  destruct (format_loop_counts filter_low_quality docs)
    as ((Hsum & _ & _) & Hnofilter & Hgood).
  split; [exact Hsum|]. split; [exact Hnofilter|].
  intros Hf. specialize (Hgood Hf). split; [exact Hgood|].
  rewrite Hgood. destruct (Pipeline.good_docs_of docs); cbn [length]; split;
    intros H; try reflexivity; try discriminate; lia.
Qed.

Lemma length_substring_0 (n : nat) (s : string) :
  String.length (String.substring 0 n s) = Nat.min n (String.length s).
Proof.
  revert s. induction n as [|n IH]; intros s.
  - destruct s; reflexivity.
  - destruct s as [|c s]; [reflexivity|]. cbn. rewrite IH. reflexivity.
Qed.

(** X17.  A quote of [format_evidence] never has more than 280
    characters: a text of at most 280 characters is quoted whole, a longer
    one is cut to 277 characters and an ellipsis. *)
Lemma quote_at_most_280 (content : string) :
  (Py.len (quote content) <= 280)%Z /\
  ((Py.len content <= 280)%Z -> quote content = content) /\
  ((280 < Py.len content)%Z ->
   quote content = Py.str_take 277 content ++ "..." /\
   Py.len (quote content) = 280%Z).
Proof.
  unfold quote.
  destruct (280 <? Py.len content)%Z eqn:Hlen.
  - apply Z.ltb_lt in Hlen.
    assert (Hq : Py.len (Py.str_take 277 content ++ "...") = 280%Z).
    { rewrite len_app. unfold Py.len at 1, Py.str_take.
      rewrite length_substring_0. unfold Py.len in Hlen.
      change (Py.len "...") with 3%Z. lia. }
    split; [lia|]. split; [lia|]. intros _. split; [reflexivity|exact Hq].
  - apply Z.ltb_ge in Hlen. split; [exact Hlen|].
    split; [reflexivity|lia].
Qed.

End EvidenceMore.

(** ** Sessions of [pipeline.py] *)

Section SessionsMore.

Import Spec Pipeline.

Lemma sessions_clock (n : nat) (w : World) : sessions (set_clock n w) = sessions w.
Proof. reflexivity. Qed.

(** What [process_video] leaves behind when it returns: the same result
    under the video id in the session. *)
Lemma process_video_stored (env : Env) (session_id video_url : string)
    (w w1 : World) (proc : ProcessedVideo) :
  process_video env session_id video_url w = (Return proc, w1) ->
  exists session1 : Session,
    sessions w1 !! session_id = Some session1 /\
    processed_videos session1 !! Transcript.extract_video_id video_url = Some proc.
Proof.
  intros H. unfold process_video, bind, get_session in H.
  destruct (sessions w !! session_id) as [session|] eqn:Hs; [|discriminate].
  destruct (processed_videos session !! Transcript.extract_video_id video_url)
    as [cached|] eqn:Hc.
  { injection H as <- <-. exists session. split; assumption. }
  unfold call, ingest_video_to_chunks, bind, call, ret in H. cbn [fst snd] in H.
  destruct (Transcript.ingest_video_to_chunks _ _ _) as [chunks k].
  match type of H with
  | context [match ?m ?w0 with _ => _ end] =>
      destruct (m w0) as [[vs|] w2] eqn:Hv; [|discriminate];
      assert (Hs2 : sessions w2 = sessions w)
  end.
  { destruct chunks as [|c chunks].
    - injection Hv as _ <-. reflexivity.
    - apply (preserves_create_vectorstore env sessions sessions_clock) in Hv.
      exact Hv. }
  unfold update_session, ret in H. injection H as <- <-.
  cbn [sessions set_sessions]. rewrite lookup_alter, Hs2, Hs.
  destruct (decide (session_id = session_id)) as [_|Hne]; [|contradiction].
  eexists. split; [reflexivity|].
  cbn [processed_videos set_processed_videos]. apply lookup_insert_eq.
Qed.

Lemma process_video_cached (env : Env) (session_id video_url : string)
    (w : World) (session : Session) (proc : ProcessedVideo) :
  sessions w !! session_id = Some session ->
  processed_videos session !! Transcript.extract_video_id video_url = Some proc ->
  process_video env session_id video_url w = (Return proc, w).
Proof.
  intros Hs Hp. unfold process_video, bind, get_session. rewrite Hs, Hp.
  reflexivity.
Qed.

(** X18.  [process_video] memoizes: once it has returned a result for a
    video in a session, the same call returns the same result again and
    changes nothing, so metadata, transcript and embeddings are not fetched
    twice. *)
Lemma process_video_memoized (env : Env) (session_id video_url : string)
    (w w1 : World) (proc : ProcessedVideo) :
  process_video env session_id video_url w = (Return proc, w1) ->
  process_video env session_id video_url w1 = (Return proc, w1).
Proof.
  intros H. destruct (process_video_stored _ _ _ _ _ _ H) as (s1 & Hs & Hp).
  exact (process_video_cached env _ _ _ _ _ Hs Hp).
Qed.

Lemma process_video_memoized_witness :
  let env := sample_env
               [Transcript.mkFragment "hello world, this is the opening of the video" 0 4]
               (Some (ones 100)) None None None in
  let out := process_video env "s" "https://youtu.be/dQw4w9WgXcQ"
               (world_with_session "s") in
  exists proc : ProcessedVideo,
    fst out = Return proc /\
    process_video env "s" "https://youtu.be/dQw4w9WgXcQ" (snd out)
    = (Return proc, snd out).
Proof.
  intros env out.
  eexists. split; [vm_compute; reflexivity|].
  apply (process_video_memoized env "s" "https://youtu.be/dQw4w9WgXcQ"
           (world_with_session "s")).
  vm_compute. reflexivity.
Defined.

(** X19.  [get_or_create_session] leaves a session under the id it
    returns; an existing session is returned as it is, with nothing
    changed; every other session is untouched; and an empty id is treated
    like a missing one, the session being created under the generated id. *)
Lemma get_or_create_session_spec (uuid4 : string) (session_id : option string)
    (w : World) :
  exists (sid : string) (w' : World),
    get_or_create_session uuid4 session_id w = (Return sid, w') /\
    is_Some (sessions w' !! sid) /\
    (forall other, other <> sid -> sessions w' !! other = sessions w !! other) /\
    (forall given, session_id = Some given -> given <> ""%string ->
       sid = given /\ (is_Some (sessions w !! given) -> w' = w)) /\
    (session_id = None \/ session_id = Some ""%string -> sid = uuid4).
Proof.
  unfold get_or_create_session.
  destruct session_id as [[|c s]|].
  - eexists _, _. split; [reflexivity|]. cbn [sessions set_sessions].
    split; [rewrite lookup_insert_eq; eauto|].
    split; [intros other Hne; apply lookup_insert_ne; congruence|].
    split; [intros given Hg Hne; congruence|reflexivity].
  - destruct (sessions w !! String c s) as [session|] eqn:Hs.
    + eexists _, _. split; [reflexivity|].
      split; [rewrite Hs; eauto|]. split; [reflexivity|].
      split; [|intros [H|H]; discriminate].
      intros given Hg _. injection Hg as <-. split; reflexivity.
    + eexists _, _. split; [reflexivity|]. cbn [sessions set_sessions].
      split; [rewrite lookup_insert_eq; eauto|].
      split; [intros other Hne; apply lookup_insert_ne; congruence|].
      split; [|intros [H|H]; discriminate].
      intros given Hg _. injection Hg as <-. split; [reflexivity|].
      rewrite Hs. intros [x Hx]. discriminate.
  - eexists _, _. split; [reflexivity|]. cbn [sessions set_sessions].
    split; [rewrite lookup_insert_eq; eauto|].
    split; [intros other Hne; apply lookup_insert_ne; congruence|].
    split; [intros given Hg; discriminate|reflexivity].
Qed.

Lemma get_or_create_session_given (uuid4 session_id : string) (w : World) :
  session_id <> ""%string ->
  exists w1,
    get_or_create_session uuid4 (Some session_id) w = (Return session_id, w1) /\
    is_Some (sessions w1 !! session_id).
Proof.
  intros Hne. unfold get_or_create_session.
  destruct session_id as [|c s]; [congruence|].
  destruct (sessions w !! String c s) as [session|] eqn:Hs.
  - eexists. split; [reflexivity|]. rewrite Hs. eauto.
  - eexists. split; [reflexivity|]. cbn [sessions set_sessions].
    rewrite lookup_insert_eq. eauto.
Qed.

(** X20.  [chat_endpoint] with an empty session id fails: the session is
    created under a generated id while the chat looks for the empty id, so
    unless a session with the empty id exists the request ends in the
    exception (status 500); with a non-empty id the chat finds its
    session. *)
Lemma chat_endpoint_session (env : Env)
    (uuid4 session_id video_url message : string) (w : World) :
  (session_id = ""%string -> uuid4 <> ""%string ->
   sessions w !! ""%string = None ->
   exists w', chat_endpoint env uuid4 session_id video_url message w = (Raise, w')) /\
  (session_id <> ""%string ->
   exists w1,
     get_or_create_session uuid4 (Some session_id) w = (Return session_id, w1) /\
     is_Some (sessions w1 !! session_id) /\
     chat_endpoint env uuid4 session_id video_url message w
     = chat_with_video env session_id video_url message w1).
Proof.
  split.
  - intros -> Hne Hmiss. unfold chat_endpoint, bind, get_or_create_session.
    unfold chat_with_video, bind, get_session. cbn [sessions set_sessions].
    rewrite lookup_insert_ne by exact Hne. rewrite Hmiss. eexists. reflexivity.
  - intros Hne.
    destruct (get_or_create_session_given uuid4 session_id w Hne)
      as (w1 & Hcall & Hsome).
    exists w1. split; [exact Hcall|]. split; [exact Hsome|].
    unfold chat_endpoint, bind. rewrite Hcall. reflexivity.
Qed.

End SessionsMore.

(** ** Chat turns of [pipeline.py] *)

Section ChatMore.

Import Spec Pipeline.

Variable env : Env.

Lemma histories_record_turn (session_id q a : string) (w w' : World) (o : Outcome unit) :
  record_turn session_id q a w = (o, w') ->
  histories w' = with_turn session_id q a (histories w).
Proof.
  intros H. unfold record_turn, update_session in H. injection H as _ <-.
  unfold histories, with_turn. cbn [sessions set_sessions].
  apply map_eq. intros sid.
  rewrite lookup_fmap, !lookup_alter.
  destruct (decide (session_id = sid)) as [->|]; rewrite ?lookup_fmap;
    [|reflexivity].
  destruct (sessions w !! sid) as [s|]; [|reflexivity].
  cbn. unfold add_ai_message, add_user_message. rewrite <- app_assoc.
  reflexivity.
Qed.

Lemma records_turn_of_errors (session_id message : string) (r : ChatResult) :
  intent r = ERROR -> records_turn session_id message (ret r).
Proof.
  intros He w w' r' H Hne. injection H as <- _. contradiction.
Qed.

Lemma records_turn_bind {A} (session_id message : string) (m : M A)
    (k : A -> M ChatResult) :
  preserves histories m -> (forall a, records_turn session_id message (k a)) ->
  records_turn session_id message (bind m k).
Proof.
  intros Hm Hk w w' r H Hne. unfold bind in H.
  destruct (m w) as [[a|] w1] eqn:Hmw; [|discriminate].
  rewrite (Hk a _ _ _ H Hne). rewrite (Hm _ _ _ Hmw). reflexivity.
Qed.

Lemma records_turn_answer (session_id message : string) (m : M string)
    (answer : string -> ChatResult) :
  preserves histories m ->
  (forall a, response (answer a) = a) ->
  records_turn session_id message
    (bind m (fun result =>
       bind (record_turn session_id message result)
         (fun _ => ret (answer result)))).
Proof.
  intros Hm Hanswer w w' r H _. unfold bind, ret in H.
  destruct (m w) as [[a|] w1] eqn:Hmw; [|discriminate].
  destruct (record_turn session_id message a w1) as [[[]|] w2] eqn:Hrec;
    [|discriminate].
  injection H as <- <-. rewrite Hanswer.
  rewrite (histories_record_turn _ _ _ _ _ _ Hrec), (Hm _ _ _ Hmw). reflexivity.
Qed.

(** X21.  A chat turn that returns a [SUMMARY] or [RAG] result has appended
    exactly two messages to the history of its session, the user's message
    and then the response, and has left the history of every other session
    as it was. *)
Lemma chat_records_turn (session_id video_url message : string)
    (w w' : World) (r : ChatResult) :
  chat_with_video env session_id video_url message w = (Return r, w') ->
  intent r <> ERROR ->
  histories w' = with_turn session_id message (response r) (histories w).
Proof.
  revert w w' r.
  change (records_turn session_id message
            (chat_with_video env session_id video_url message)).
  unfold chat_with_video.
  apply records_turn_bind; [apply preserves_get_session|]. intros _.
  apply records_turn_bind; [apply keeps_process_video|]. intros processed.
  destruct (pv_chunks processed) as [|c chunks];
    [apply records_turn_of_errors; reflexivity|].
  destruct (pv_vectorstore processed) as [vectorstore|];
    [|apply records_turn_of_errors; reflexivity].
  apply records_turn_bind; [apply preserves_get_session|]. intros session.
  apply records_turn_bind; [apply keeps_get_intent|]. intros i.
  destruct (decide (i = SUMMARY)).
  - apply (records_turn_answer session_id message _
             (fun summary => mkChatResult summary SUMMARY []));
      [apply keeps_cached_summary|reflexivity].
  - apply records_turn_bind.
    { apply preserves_try_except; [|apply preserves_ret].
      apply preserves_bind; [|intros; apply preserves_ret].
      apply keeps_retriever_invoke. }
    intros [retrieved_docs|]; [|apply records_turn_of_errors; reflexivity].
    apply records_turn_bind; [apply preserves_get_session|]. intros session'.
    intros w w' r H Hne. unfold try_except in H.
    match type of H with
    | context [match ?m w with _ => _ end] =>
        destruct (m w) as [[r0|] w1] eqn:Hbody
    end.
    + injection H as <- <-.
      exact (records_turn_answer session_id message _
               (fun result => mkChatResult result RAG _)
               (keeps_model_invoke env _) (fun _ => eq_refl) _ _ _ Hbody Hne).
    + injection H as <- _. contradiction Hne. reflexivity.
Qed.

Lemma post_ret {A} (Q : A -> Prop) (a : A) : Q a -> returns_only Q (ret a).
Proof. intros Ha w w' a' H. injection H as <- _. exact Ha. Qed.

Lemma post_bind {A B} (Q : B -> Prop) (m : M A) (k : A -> M B) :
  (forall a, returns_only Q (k a)) -> returns_only Q (bind m k).
Proof.
  intros Hk w w' b H. unfold bind in H.
  destruct (m w) as [[a|] w1]; [|discriminate]. exact (Hk a _ _ _ H).
Qed.

Lemma post_try_except {A} (Q : A -> Prop) (m h : M A) :
  returns_only Q m -> returns_only Q h -> returns_only Q (try_except m h).
Proof.
  intros Hm Hh w w' a H. unfold try_except in H.
  destruct (m w) as [[a0|] w1] eqn:Hmw.
  - injection H as <- _. exact (Hm _ _ _ Hmw).
  - exact (Hh _ _ _ H).
Qed.

(** X22.  Whatever [chat_with_video] returns is an [ERROR], a [SUMMARY]
    or a [RAG] result; only a [RAG] result has sources, at most three of
    them, and each carries the id extracted from the request's URL. *)
Lemma chat_result_shape (session_id video_url message : string)
    (w w' : World) (r : ChatResult) :
  chat_with_video env session_id video_url message w = (Return r, w') ->
  (intent r = ERROR \/ intent r = SUMMARY \/ intent r = RAG) /\
  (intent r <> RAG -> sources r = []) /\
  (length (sources r) <= 3)%nat /\
  Forall (fun s => src_video_id s = Transcript.extract_video_id video_url)
    (sources r).
Proof.
  revert w w' r.
  set (Q := fun r : ChatResult =>
    (intent r = ERROR \/ intent r = SUMMARY \/ intent r = RAG) /\
    (intent r <> RAG -> sources r = []) /\
    (length (sources r) <= 3)%nat /\
    Forall (fun s => src_video_id s = Transcript.extract_video_id video_url)
      (sources r)).
  change (returns_only Q (chat_with_video env session_id video_url message)).
  assert (Herr : forall msg, Q (error_result msg)).
  { intros msg. unfold Q. cbn. repeat split; auto. }
  unfold chat_with_video.
  apply post_bind. intros _. apply post_bind. intros processed.
  destruct (pv_chunks processed) as [|c chunks]; [apply post_ret, Herr|].
  destruct (pv_vectorstore processed) as [vectorstore|]; [|apply post_ret, Herr].
  apply post_bind. intros session. apply post_bind. intros i.
  destruct (decide (i = SUMMARY)).
  - apply post_bind. intros summary. apply post_bind. intros _.
    apply post_ret. unfold Q. cbn. repeat split; auto.
  - apply post_bind. intros [retrieved_docs|]; [|apply post_ret, Herr].
    apply post_bind. intros session'.
    apply post_try_except; [|apply post_ret, Herr].
    apply post_bind. intros result. apply post_bind. intros _.
    apply post_ret. unfold Q. cbn [intent sources].
    split; [auto|]. split; [intros H; contradiction H; reflexivity|].
    split.
    + rewrite length_fmap, length_take. lia.
    + apply Forall_fmap, Forall_forall. intros d _. reflexivity.
Qed.

End ChatMore.

Lemma chat_result_shape_witness :
  let segments :=
    (fun i : Z => mkDocument "this segment is a perfectly good transcript line"
                    (mkMetadata "dQw4w9WgXcQ" i (i + 5))) <$> [0; 5; 10; 15; 20] in
  let env := Spec.sample_env
               [Transcript.mkFragment "hello world, this is the opening of the video" 0 4]
               (Some (Spec.ones 100)) (Some RAG) (Some segments)
               (Some "The video covers it.") in
  let out := Pipeline.chat_with_video env "s" "https://youtu.be/dQw4w9WgXcQ"
               "what is covered?" (Spec.world_with_session "s") in
  exists r : Pipeline.ChatResult,
    fst out = Return r /\
    Pipeline.intent r = RAG /\ length (Pipeline.sources r) = 3%nat /\
    (Pipeline.intent r = ERROR \/ Pipeline.intent r = SUMMARY \/ Pipeline.intent r = RAG) /\
    (Pipeline.intent r <> RAG -> Pipeline.sources r = []) /\
    (length (Pipeline.sources r) <= 3)%nat /\
    Forall (fun s => Pipeline.src_video_id s = Transcript.extract_video_id "https://youtu.be/dQw4w9WgXcQ")
      (Pipeline.sources r).
Proof.
  intros segments env0 out.
  eexists. split; [vm_compute; reflexivity|].
  split; [reflexivity|]. split; [reflexivity|].
  apply (chat_result_shape env0 "s" "https://youtu.be/dQw4w9WgXcQ"
           "what is covered?" (Spec.world_with_session "s") (snd out)).
  vm_compute. reflexivity.
Defined.


Lemma chat_records_turn_witness :
  let env := Spec.sample_env
               [Transcript.mkFragment "hello world, this is the opening of the video" 0 4]
               (Some (Spec.ones 100)) (Some RAG)
               (Some [mkDocument "this segment is a perfectly good transcript line"
                        (mkMetadata "dQw4w9WgXcQ" 0 5)])
               (Some "The video covers it.") in
  let w := Spec.world_with_session "s" in
  let out := Pipeline.chat_with_video env "s" "https://youtu.be/dQw4w9WgXcQ"
               "what is covered?" w in
  Spec.histories (snd out) !! "s"
  = Some [mkMessage human "what is covered?"; mkMessage ai "The video covers it."] /\
  Spec.histories (snd out)
  = Spec.with_turn "s" "what is covered?" "The video covers it." (Spec.histories w).
Proof.
  intros env w out. split; [vm_compute; reflexivity|].
  apply (chat_records_turn env "s" "https://youtu.be/dQw4w9WgXcQ"
           "what is covered?" w (snd out)
           (Pipeline.mkChatResult "The video covers it." RAG
              [Pipeline.mkSource 0 "dQw4w9WgXcQ"])).
  - vm_compute. reflexivity.
  - discriminate.
Defined.

(** ** Summaries, comparisons and the router of [pipeline.py] *)

Section PipelineMore.

Import Spec Pipeline.

Variable env : Env.

(** X23.  [get_intent] never raises and always sends exactly one request
    to the model; the label it returns is one its mode allows ([SUMMARY] or
    [RAG], and with two videos also [COMPARE] or [DUAL_SUMMARY]), and it is
    [RAG] whenever the router fails or answers anything else. *)
Lemma get_intent_total (query : string) (h : list Message) (multi_mode : bool)
    (w : World) :
  exists (i : Intent) (w' : World),
    get_intent env query h multi_mode w = (Return i, w') /\
    route_allowed multi_mode i = true /\
    model_calls w'
    = model_calls w
      ++ [RouterPrompt (history_str 4 h) query
            (if multi_mode then Some true else None)] /\
    sessions w' = sessions w /\
    i = match env_router env (clock w)
                (RouterPrompt (history_str 4 h) query
                   (if multi_mode then Some true else None)) with
        | Some l => if route_allowed multi_mode l then l else RAG
        | None => RAG
        end.
Proof.
  unfold get_intent, try_except, bind, call_raising, ret, raise.
  cbn [clock log_model_call].
  destruct (env_router env (clock w) _) as [l|] eqn:Hr.
  - destruct (route_allowed multi_mode l) eqn:Ha.
    + eexists _, _. split; [reflexivity|]. split; [exact Ha|].
      repeat split.
    + eexists _, _. split; [reflexivity|].
      split; [destruct multi_mode; reflexivity|]. repeat split.
  - eexists _, _. split; [reflexivity|].
    split; [destruct multi_mode; reflexivity|]. repeat split.
Qed.

Lemma cached_summary_stored (session_id video_id : string)
    (chunks : list Document) (meta : VideoInfo) (w w1 : World) (s : string) :
  cached_summary env session_id video_id chunks meta w = (Return s, w1) ->
  exists session1 : Session,
    sessions w1 !! session_id = Some session1 /\
    summary_cache session1 !! video_id = Some s /\
    forall session0, sessions w !! session_id = Some session0 ->
      processed_videos session1 = processed_videos session0.
Proof.
  intros H. unfold cached_summary, bind, get_session in H.
  destruct (sessions w !! session_id) as [session|] eqn:Hs; [|discriminate].
  destruct (summary_cache session !! video_id) as [cached|] eqn:Hc.
  - injection H as <- <-. exists session. split; [exact Hs|].
    split; [exact Hc|]. intros s0 Hs0. congruence.
  - unfold _get_universal_summary, model_invoke, call_raising in H.
    destruct (env_model env _ _) as [a|]; [|discriminate].
    unfold update_session, ret in H. injection H as <- <-.
    cbn [sessions set_sessions set_clock log_model_call].
    rewrite lookup_alter, Hs.
    destruct (decide (session_id = session_id)) as [_|Hne]; [|contradiction].
    eexists. split; [reflexivity|].
    cbn [summary_cache processed_videos set_summary_cache].
    split; [apply lookup_insert_eq|]. intros s0 Hs0. congruence.
Qed.

(** X24.  [summarize_video] never touches a history, and a summary is
    computed once: when the call has returned, the same call returns the
    same dictionary again and changes nothing, so the model is not asked a
    second time. *)
Lemma summarize_video_cached (session_id video_url : string) (w w1 : World)
    (r : SummaryResult) :
  summarize_video env session_id video_url w = (Return r, w1) ->
  histories w1 = histories w /\
  summarize_video env session_id video_url w1 = (Return r, w1).
Proof.
  intros H. unfold summarize_video, bind in H.
  unfold get_session at 1 in H.
  destruct (sessions w !! session_id) as [session|] eqn:Hs; [|discriminate].
  destruct (process_video env session_id video_url w) as [[proc|] wa] eqn:Hp;
    [|discriminate].
  pose proof (keeps_process_video env _ _ _ _ _ Hp) as Hkeep.
  destruct (process_video_stored env _ _ _ _ _ Hp) as (sa & Hsa & Hpa).
  destruct (pv_chunks proc) as [|c chunks] eqn:Hchunks.
  - unfold ret in H. injection H as <- <-. split; [exact Hkeep|].
    unfold summarize_video, bind, get_session. rewrite Hsa.
    rewrite (process_video_cached env _ _ _ _ _ Hsa Hpa), Hchunks. reflexivity.
  - destruct (cached_summary env session_id (Transcript.extract_video_id video_url)
                (c :: chunks) (pv_metadata proc) wa) as [[s|] wb] eqn:Hc;
      [|discriminate].
    unfold ret in H. injection H as <- <-.
    pose proof (keeps_cached_summary env _ _ _ _ _ _ _ Hc) as Hkeep2.
    split; [rewrite Hkeep2; exact Hkeep|].
    destruct (cached_summary_stored _ _ _ _ _ _ _ Hc) as (sb & Hsb & Hcache & Hpv).
    assert (Hpb : processed_videos sb !! Transcript.extract_video_id video_url
                  = Some proc) by (rewrite (Hpv sa Hsa); exact Hpa).
    unfold summarize_video, bind. unfold get_session at 1. rewrite Hsb.
    rewrite (process_video_cached env _ _ _ _ _ Hsb Hpb), Hchunks.
    unfold cached_summary, bind, get_session. rewrite Hsb, Hcache. reflexivity.
Qed.

Lemma keeps_evidence_for (proc : ProcessedVideo) (question : string) :
  preserves histories (evidence_for env proc question).
Proof.
  unfold evidence_for. destruct (pv_vectorstore proc); [|apply preserves_ret].
  apply preserves_try_except; [|apply preserves_ret].
  apply preserves_bind; [|intros; apply preserves_ret].
  apply keeps_retriever_invoke.
Qed.

(** X25.  [compare_videos] of [pipeline.py] returns an [ERROR] or a
    [COMPARE] result.  An [ERROR] result carries no metadata and leaves
    every history as it was; a [COMPARE] result carries the metadata of both
    videos, and the question and the response have been appended to the
    history of the session. *)
Lemma compare_videos_result (session_id url1 url2 question : string)
    (w w' : World) (r : CompareResult) :
  compare_videos env session_id url1 url2 question w = (Return r, w') ->
  (cmp_intent r = ERROR /\ cmp_video_a r = None /\ cmp_video_b r = None /\
   histories w' = histories w)
  \/
  (cmp_intent r = COMPARE /\ is_Some (cmp_video_a r) /\ is_Some (cmp_video_b r) /\
   histories w' = with_turn session_id question (cmp_response r) (histories w)).
Proof.
  intros H. unfold compare_videos, bind in H.
  unfold get_session at 1 in H.
  destruct (sessions w !! session_id) as [session|]; [|discriminate].
  destruct (process_video env session_id url1 w) as [[pa|] wa] eqn:Hpa;
    [|discriminate].
  destruct (process_video env session_id url2 wa) as [[pb|] wb] eqn:Hpb;
    [|discriminate].
  assert (Hkeep : histories wb = histories w).
  { rewrite (keeps_process_video env _ _ _ _ _ Hpb).
    exact (keeps_process_video env _ _ _ _ _ Hpa). }
  assert (Hrest : forall wc wd ea eb,
            histories wc = histories w ->
            try_except
              (bind (model_invoke env
                       (ComparisonPrompt "" question (metadata_str (pv_metadata pa))
                          (metadata_str (pv_metadata pb)) ea eb))
                 (fun res =>
                    bind (record_turn session_id question res)
                      (fun _ => ret (mkCompareResult res COMPARE
                                       (Some (pv_metadata pa))
                                       (Some (pv_metadata pb))))))
              (ret (mkCompareResult "Error during comparison." ERROR None None))
              wc = (Return r, wd) ->
            (cmp_intent r = ERROR /\ cmp_video_a r = None /\ cmp_video_b r = None /\
             histories wd = histories w)
            \/
            (cmp_intent r = COMPARE /\ is_Some (cmp_video_a r) /\
             is_Some (cmp_video_b r) /\
             histories wd
             = with_turn session_id question (cmp_response r) (histories w))).
  { intros wc wd ea eb Hc Hrun.
    unfold try_except, bind, ret in Hrun.
    destruct (model_invoke env _ wc) as [[res|] we] eqn:Hm.
    - destruct (record_turn session_id question res we) as [[[]|] wf] eqn:Hrec;
        [|discriminate].
      injection Hrun as <- <-. right. cbn.
      split; [reflexivity|]. split; [eauto|]. split; [eauto|].
      rewrite (histories_record_turn _ _ _ _ _ _ Hrec).
      rewrite (keeps_model_invoke env _ _ _ _ Hm), Hc. reflexivity.
    - injection Hrun as <- <-. left. cbn.
      repeat split. rewrite (keeps_model_invoke env _ _ _ _ Hm). exact Hc. }
  assert (Hev : forall wc wd (r0 : CompareResult),
            histories wc = histories w ->
            bind (evidence_for env pa question)
              (fun ea => bind (evidence_for env pb question)
                 (fun eb =>
                    try_except
                      (bind (model_invoke env
                               (ComparisonPrompt "" question
                                  (metadata_str (pv_metadata pa))
                                  (metadata_str (pv_metadata pb)) ea eb))
                         (fun res =>
                            bind (record_turn session_id question res)
                              (fun _ => ret (mkCompareResult res COMPARE
                                               (Some (pv_metadata pa))
                                               (Some (pv_metadata pb))))))
                      (ret (mkCompareResult "Error during comparison." ERROR
                              None None)))) wc = (Return r, wd) ->
            (cmp_intent r = ERROR /\ cmp_video_a r = None /\ cmp_video_b r = None /\
             histories wd = histories w)
            \/
            (cmp_intent r = COMPARE /\ is_Some (cmp_video_a r) /\
             is_Some (cmp_video_b r) /\
             histories wd
             = with_turn session_id question (cmp_response r) (histories w))).
  { intros wc wd _ Hc Hrun. unfold bind at 1 2 in Hrun.
    destruct (evidence_for env pa question wc) as [[ea|] w2] eqn:Ha; [|discriminate].
    destruct (evidence_for env pb question w2) as [[eb|] w3] eqn:Hb; [|discriminate].
    apply (Hrest w3 wd ea eb); [|exact Hrun].
    rewrite (keeps_evidence_for _ _ _ _ _ Hb), (keeps_evidence_for _ _ _ _ _ Ha).
    exact Hc. }
  destruct (pv_vectorstore pa) as [va|] eqn:Hva;
    [|destruct (pv_vectorstore pb) as [vb|] eqn:Hvb].
  - exact (Hev wb w' r Hkeep H).
  - exact (Hev wb w' r Hkeep H).
  - unfold ret in H. injection H as <- <-. left. cbn. repeat split. exact Hkeep.
Qed.

End PipelineMore.

Lemma summarize_video_cached_witness :
  let env := Spec.sample_env
               [Transcript.mkFragment "hello world, this is the opening of the video" 0 4]
               (Some (Spec.ones 100)) None None (Some "A summary.") in
  let w := Spec.world_with_session "s" in
  let out := Pipeline.summarize_video env "s" "https://youtu.be/dQw4w9WgXcQ" w in
  let r := Pipeline.mkSummaryResult "A summary."
             (mkVideoInfo "dQw4w9WgXcQ" "Unknown" "Unknown" "Unknown" "") in
  fst out = Return r /\
  length (model_calls (snd out)) = 1%nat /\
  Spec.histories (snd out) = Spec.histories w /\
  Pipeline.summarize_video env "s" "https://youtu.be/dQw4w9WgXcQ" (snd out)
  = (Return r, snd out).
Proof.
  intros env w out r. split; [vm_compute; reflexivity|].
  split; [vm_compute; reflexivity|].
  apply (summarize_video_cached env "s" "https://youtu.be/dQw4w9WgXcQ" w
           (snd out) r).
  vm_compute. reflexivity.
Defined.

Lemma compare_videos_result_witness :
  let env := Spec.sample_env
               [Transcript.mkFragment "hello world, this is the opening of the video" 0 4]
               (Some (Spec.ones 100)) None
               (Some [mkDocument "this segment is a perfectly good transcript line"
                        (mkMetadata "videoA" 0 5)])
               (Some "Video A is better.") in
  let w := Spec.world_with_session "s" in
  let out := Pipeline.compare_videos env "s" "videoA" "videoB" "which is better?" w in
  exists r : Pipeline.CompareResult,
    fst out = Return r /\
    Pipeline.cmp_response r = "Video A is better."%string /\
    ((Pipeline.cmp_intent r = ERROR /\ Pipeline.cmp_video_a r = None /\
      Pipeline.cmp_video_b r = None /\
      Spec.histories (snd out) = Spec.histories w)
     \/
     (Pipeline.cmp_intent r = COMPARE /\ is_Some (Pipeline.cmp_video_a r) /\
      is_Some (Pipeline.cmp_video_b r) /\
      Spec.histories (snd out)
      = Spec.with_turn "s" "which is better?" (Pipeline.cmp_response r)
          (Spec.histories w))).
Proof.
  intros env w out.
  eexists. split; [vm_compute; reflexivity|]. split; [reflexivity|].
  apply (compare_videos_result env "s" "videoA" "videoB" "which is better?" w
           (snd out)).
  vm_compute. reflexivity.
Defined.

(** ** Videos without an index *)

Section NoIndex.

Import Spec Pipeline.

Lemma process_video_without_embeddings (env : Env)
    (session_id video_url : string) (w : World) (session : Session) :
  (forall n s, env_provider env n s = None) ->
  sessions w !! session_id = Some session ->
  processed_videos session !! Transcript.extract_video_id video_url = None ->
  exists (proc : ProcessedVideo) (w1 : World),
    process_video env session_id video_url w = (Return proc, w1) /\
    pv_vectorstore proc = None.
Proof.
  intros Hfail Hs Hp.
  unfold process_video, bind, get_session. rewrite Hs, Hp.
  unfold call, ingest_video_to_chunks, bind, call, ret. cbn [fst snd].
  destruct (Transcript.ingest_video_to_chunks _ _ _) as [chunks k].
  destruct chunks as [|c chunks].
  - unfold update_session. eexists _, _. split; reflexivity.
  - unfold create_vectorstore_for_video, bind.
    pose proof (validator_all_fail (env_nfkc env) (env_provider env)
                  (clock (set_clock (S (clock (set_clock (S (clock w)) w)))
                            (set_clock (S (clock w)) w)))
                  (c :: chunks) Hfail) as Hv.
    destruct (Embeddings.validate_chunks_for_embeddings _ _ _ _) as [v n].
    cbn [fst] in Hv. subst v. unfold ret, update_session.
    eexists _, _. split; reflexivity.
Qed.

(** X26.  If the embedding provider raises on every call, a video that is
    processed for the first time gets no index, and the chat about it
    answers with the [ERROR] result that names the video, without sources,
    without a request to the model and without a change of any history. *)
Lemma chat_without_embeddings (env : Env) (session_id video_url message : string)
    (w : World) (session : Session) :
  (forall n s, env_provider env n s = None) ->
  sessions w !! session_id = Some session ->
  processed_videos session !! Transcript.extract_video_id video_url = None ->
  exists w' : World,
    chat_with_video env session_id video_url message w
    = (Return (mkChatResult
                 ("Transcript not available for video "
                    ++ Transcript.extract_video_id video_url
                    ++ ". Please provide a video with captions.")
                 ERROR []), w') /\
    model_calls w' = model_calls w /\
    histories w' = histories w.
Proof.
  intros Hfail Hs Hp.
  destruct (process_video_without_embeddings env _ _ _ _ Hfail Hs Hp)
    as (proc & w1 & Hproc & Hvs).
  exists w1. split.
  - unfold chat_with_video, bind. unfold get_session at 1. rewrite Hs, Hproc, Hvs.
    destruct (pv_chunks proc); reflexivity.
  - split.
    + exact (silent_process_video env _ _ _ _ _ Hproc).
    + exact (keeps_process_video env _ _ _ _ _ Hproc).
Qed.

Lemma chat_without_embeddings_witness :
  exists w' : World,
    chat_with_video
      (sample_env
         [Transcript.mkFragment "hello world, this is the opening of the video" 0 4]
         None (Some RAG) None None)
      "s" "https://youtu.be/dQw4w9WgXcQ" "what is said?" (world_with_session "s")
    = (Return (mkChatResult
                 ("Transcript not available for video "
                    ++ Transcript.extract_video_id "https://youtu.be/dQw4w9WgXcQ"
                    ++ ". Please provide a video with captions.")
                 ERROR []), w') /\
    model_calls w' = model_calls (world_with_session "s") /\
    histories w' = histories (world_with_session "s").
Proof.
  apply (chat_without_embeddings
           (sample_env
              [Transcript.mkFragment "hello world, this is the opening of the video" 0 4]
              None (Some RAG) None None)
           "s" "https://youtu.be/dQw4w9WgXcQ" "what is said?"
           (world_with_session "s") (mkSession [] ∅ ∅)).
  - reflexivity.
  - reflexivity.
  - reflexivity.
Defined.

(** The witness of [handle_user_query_error]. *)
Lemma handle_user_query_error_witness :
  let env := sample_env [] None None None None in
  let h := [mkMessage human "hello"] in
  h = h /\ empty_world = empty_world /\ (""%string = ""%string \/ "videoB"%string = ""%string).
Proof.
  intros env h.
  apply (handle_user_query_error env "" "videoB" "compare them" h h
           empty_world empty_world
           (MultiVideo.mkQueryResult ERROR
              "Both primary and secondary video URLs/IDs are required for this MVP.")).
  - reflexivity.
  - reflexivity.
Defined.

End NoIndex.

(** ** Retrieval with no usable evidence *)

Section EmptyEvidence.

Import Spec.

Lemma kept_zero_good_docs (retrieved : list Document) :
  Retriever.kept (snd (Retriever.format_evidence retrieved true)) = 0 ->
  Pipeline.good_docs_of retrieved = [].
Proof.
  intros Hkept.
  destruct (format_loop_counts true retrieved) as (_ & _ & Hgood).
  specialize (Hgood eq_refl). cbn zeta in Hgood.
  unfold Retriever.format_evidence in Hkept.
  destruct retrieved as [|d rest]; [reflexivity|].
  destruct (Retriever.format_loop true (d :: rest)) as [lines st].
  cbn [snd] in Hgood.
  assert (Hst : Retriever.kept st = 0)
    by (destruct (Retriever.kept st =? 0); exact Hkept).
  rewrite Hst in Hgood.
  destruct (Pipeline.good_docs_of (d :: rest)); [reflexivity|].
  cbn [length] in Hgood. lia.
Qed.

Lemma get_intent_sessions (env : Env) (query : string) (h : list Message)
    (multi_mode : bool) (w w' : World) (o : Outcome Intent) :
  Pipeline.get_intent env query h multi_mode w = (o, w') ->
  sessions w' = sessions w.
Proof.
  unfold Pipeline.get_intent, try_except, bind, call_raising, ret, raise.
  cbn [clock log_model_call]. intros H.
  destruct (env_router env _ _) as [j|];
    [destruct (Pipeline.route_allowed multi_mode j)|];
    injection H as _ <-; reflexivity.
Qed.

Lemma retriever_invoke_requests (env : Env) (vs : Chroma) (k : Z) (q : string)
    (w w' : World) (o : Outcome (list Document)) :
  retriever_invoke env vs k q w = (o, w') ->
  sessions w' = sessions w /\
  model_calls w' = model_calls w ++ [QueryConstructorPrompt q].
Proof.
  unfold retriever_invoke, call_raising. cbn [clock log_model_call]. intros H.
  destruct (env_retriever env _ _ _ _); injection H as _ <-; split; reflexivity.
Qed.

Lemma retrieve_documents_requests (env : Env) (retriever : option (Chroma * Z))
    (q : string) (w w' : World) (o : Outcome (option (list Document))) :
  MultiVideo.retrieve_documents env retriever q w = (o, w') ->
  exists requests : list Prompt,
    model_calls w' = model_calls w ++ requests /\
    Forall (fun p => p = QueryConstructorPrompt q) requests /\
    (length requests <= 2)%nat.
Proof.
  revert o w'.
  assert (H : exists requests : list Prompt,
             model_calls (snd (MultiVideo.retrieve_documents env retriever q w))
             = model_calls w ++ requests /\
             Forall (fun p => p = QueryConstructorPrompt q) requests /\
             (length requests <= 2)%nat).
  { retrieval_cases; cbn [snd model_calls set_clock log_model_call];
      eexists;
      (split; [first [exact (eq_sym (app_nil_r _)) | reflexivity
                     | exact (eq_sym (app_assoc _ _ _))]|]);
      (split; [repeat constructor|cbn; lia]). }
  intros o w' Hcall. rewrite Hcall in H. exact H.
Qed.

Variable env : Env.

(** C1 (as the code has it).  When the quality filter keeps none of the
    retrieved segments, the two chat paths differ.  [chat_with_video] of
    [pipeline.py] has no path of its own for that case: after the router's
    and the query constructor's requests it sends the RAG prompt, with an
    empty context, second 0 and the title of the video, and returns the
    answer as a [RAG] result without sources.  [answer_question_single] of
    [multiVideo.py] sends the metadata-only prompt instead, and no RAG
    prompt; the requests before it are those of the query constructor. *)
Theorem chat_without_evidence :
  (forall (session_id video_url message : string) (w w1 w2 w3 : World)
          (proc : ProcessedVideo) (session : Session)
          (c : Document) (chunks : list Document) (vs : Chroma)
          (retrieved : list Document),
     Pipeline.process_video env session_id video_url w = (Return proc, w1) ->
     pv_chunks proc = c :: chunks ->
     pv_vectorstore proc = Some vs ->
     sessions w1 !! session_id = Some session ->
     Pipeline.get_intent env message (history session) false w1 = (Return RAG, w2) ->
     retriever_invoke env vs (pv_dynamic_k proc) message w2 = (Return retrieved, w3) ->
     Retriever.kept (snd (Retriever.format_evidence retrieved true)) = 0 ->
     let prompt :=
       RagPrompt "" message (Transcript.extract_video_id video_url) 0
         (history_str 6 (history session)) (vi_title (pv_metadata proc)) in
     exists w4 : World,
       Pipeline.chat_with_video env session_id video_url message w
       = (match env_model env (clock w3) prompt with
          | Some answer => Return (Pipeline.mkChatResult answer RAG [])
          | None => Return (Pipeline.error_result "Error generating an answer.")
          end, w4) /\
       model_calls w3 = model_calls w2 ++ [QueryConstructorPrompt message] /\
       model_calls w4 = model_calls w3 ++ [prompt])
  /\
  (forall (video question : string) (history : list Message) (w w1 w2 : World)
          (proc : ProcessedVideo) (c : Document) (chunks : list Document)
          (vs : Chroma) (retrieved : list Document),
     MultiVideo.process_and_store_video env video None w = (Return proc, w1) ->
     pv_chunks proc = c :: chunks ->
     pv_vectorstore proc = Some vs ->
     MultiVideo.retrieve_documents env (Some (vs, pv_dynamic_k proc)) question w1
     = (Return (Some retrieved), w2) ->
     Retriever.kept (snd (Retriever.format_evidence retrieved true)) = 0 ->
     let prompt :=
       FallbackPrompt question (vi_title (pv_metadata proc))
         (vi_channel (pv_metadata proc)) (vi_date (pv_metadata proc))
         (vi_description (pv_metadata proc)) in
     exists (w3 : World) (requests : list Prompt),
       MultiVideo.answer_question_single env video question history w
       = (match env_model env (clock w2) prompt with
          | Some answer =>
              Return (answer,
                      add_ai_message (add_user_message history question) answer)
          | None => Raise
          end, w3) /\
       model_calls w2 = model_calls w1 ++ requests /\
       Forall (fun p => p = QueryConstructorPrompt question) requests /\
       model_calls w3 = model_calls w2 ++ [prompt]).
Proof.
  split.
  - intros session_id video_url message w w1 w2 w3 proc session c chunks vs
      retrieved Hproc Hchunks Hvs Hsess Hintent Hret Hkept prompt.
    pose proof (kept_zero_good_docs _ Hkept) as Hgood.
    destruct (retriever_invoke_requests _ _ _ _ _ _ _ Hret) as [Hsess3 Hcalls3].
    pose proof (get_intent_sessions _ _ _ _ _ _ _ Hintent) as Hsess2.
    unfold Pipeline.chat_with_video, bind.
    assert (Hs : exists s, Pipeline.get_session session_id w = (Return s, w)).
    { unfold Pipeline.process_video, bind, Pipeline.get_session in *.
      destruct (sessions w !! session_id) as [s|]; [|discriminate].
      exists s. reflexivity. }
    destruct Hs as [s ->]. rewrite Hproc, Hchunks, Hvs.
    unfold Pipeline.get_session at 1. rewrite Hsess, Hintent.
    destruct (decide (RAG = SUMMARY)) as [|_]; [discriminate|].
    unfold try_except, bind. rewrite Hret. unfold ret at 1.
    rewrite Hgood. cbn [Pipeline.first_start fmap list_fmap take].
    change (Pipeline.context_of []) with ""%string. subst prompt.
    unfold Pipeline.get_session. rewrite Hsess3, Hsess2, Hsess.
    unfold model_invoke, call_raising. cbn [clock log_model_call].
    destruct (env_model env (clock w3) _);
      eexists; (split; [reflexivity|]); (split; [exact Hcalls3|reflexivity]).
  - intros video question history w w1 w2 proc c chunks vs retrieved
      Hproc Hchunks Hvs Hret Hkept prompt.
    destruct (retrieve_documents_requests _ _ _ _ _ _ Hret)
      as (requests & Hcalls2 & Hall & _).
    unfold MultiVideo.answer_question_single, bind.
    rewrite Hproc, Hchunks, Hvs, Hret.
    destruct (Retriever.format_evidence retrieved true) as [text stats].
    cbn [snd] in Hkept. rewrite Hkept. cbn [Z.eqb]. subst prompt.
    unfold model_invoke, call_raising, ret. cbn [clock log_model_call].
    destruct (env_model env (clock w2) _);
      eexists _, requests; (split; [reflexivity|]);
      (split; [exact Hcalls2|]); (split; [exact Hall|reflexivity]).
Qed.

End EmptyEvidence.

Lemma chat_without_evidence_witness :
  let url := "https://youtu.be/dQw4w9WgXcQ"%string in
  let question := "who is mentioned?"%string in
  let answer := "That is not covered in the video."%string in
  let segment := mkDocument "[Timestamp: 65s] wait... what is going on here"
                   (mkMetadata "dQw4w9WgXcQ" 65 70) in
  let env := Spec.sample_env
               [Transcript.mkFragment "wait... what is going on here" 65 70]
               (Some (Spec.ones 100)) (Some RAG) (Some [segment]) (Some answer) in
  (exists w4 : World,
     Pipeline.chat_with_video env "s" url question (Spec.world_with_session "s")
     = (Return (Pipeline.mkChatResult answer RAG []), w4) /\
     model_calls w4
     = [RouterPrompt "" question None; QueryConstructorPrompt question;
        RagPrompt "" question "dQw4w9WgXcQ" 0 "" "Unknown"]) /\
  (exists w3 : World,
     MultiVideo.answer_question_single env url question [] Spec.empty_world
     = (Return (answer, [mkMessage human question; mkMessage ai answer]), w3) /\
     model_calls w3
     = [QueryConstructorPrompt question;
        FallbackPrompt question "Unknown" "Unknown" "Unknown" ""]).
Proof.
  intros url question answer segment env.
  pose (vs := mkChroma "youtube-dQw4w9WgXcQ" [segment]).
  pose (proc := mkProcessedVideo "dQw4w9WgXcQ"
                  (mkVideoInfo "dQw4w9WgXcQ" "Unknown" "Unknown" "Unknown" "")
                  [segment] 1 (Some vs)).
  split.
  - pose (w := Spec.world_with_session "s").
    pose (w1 := snd (Pipeline.process_video env "s" url w)).
    pose (w2 := snd (Pipeline.get_intent env question [] false w1)).
    pose (w3 := snd (retriever_invoke env vs 1 question w2)).
    destruct (proj1 (chat_without_evidence env) "s" url question w w1 w2 w3
                proc (mkSession [] {["dQw4w9WgXcQ"%string := proc]} ∅)
                segment [] vs [segment])
      as (w4 & Hcall & Hcalls3 & Hcalls4).
    + vm_compute. reflexivity.
    + reflexivity.
    + reflexivity.
    + vm_compute. reflexivity.
    + vm_compute. reflexivity.
    + vm_compute. reflexivity.
    + vm_compute. reflexivity.
    + exists w4. split; [exact Hcall|].
      rewrite Hcalls4, Hcalls3. vm_compute. reflexivity.
  - pose (w1 := snd (MultiVideo.process_and_store_video env url None Spec.empty_world)).
    pose (w2 := snd (MultiVideo.retrieve_documents env (Some (vs, 1)) question w1)).
    destruct (proj2 (chat_without_evidence env) url question [] Spec.empty_world
                w1 w2 proc segment [] vs [segment])
      as (w3 & requests & Hcall & Hcalls2 & _ & Hcalls3).
    + vm_compute. reflexivity.
    + reflexivity.
    + reflexivity.
    + vm_compute. reflexivity.
    + vm_compute. reflexivity.
    + exists w3. split; [exact Hcall|].
      rewrite Hcalls3. vm_compute. reflexivity.
Defined.

(** C1 as worded fails on [pipeline.py]: the only segment of the index is
    retrieved, the quality filter rejects it for its run of punctuation, so
    no segment is kept, and [chat_with_video] sends the RAG prompt with an
    empty context and returns the answer as a [RAG] result. *)
Lemma chat_sends_empty_context :
  let url := "https://youtu.be/dQw4w9WgXcQ"%string in
  let question := "who is mentioned?"%string in
  let answer := "That is not covered in the video."%string in
  let segment := mkDocument "[Timestamp: 65s] wait... what is going on here"
                   (mkMetadata "dQw4w9WgXcQ" 65 70) in
  let env := Spec.sample_env
               [Transcript.mkFragment "wait... what is going on here" 65 70]
               (Some (Spec.ones 100)) (Some RAG) (Some [segment]) (Some answer) in
  let w := Spec.world_with_session "s" in
  let out := Pipeline.chat_with_video env "s" url question w in
  fst (Pipeline.process_video env "s" url w)
  = Return (mkProcessedVideo "dQw4w9WgXcQ"
              (mkVideoInfo "dQw4w9WgXcQ" "Unknown" "Unknown" "Unknown" "")
              [segment] 1 (Some (mkChroma "youtube-dQw4w9WgXcQ" [segment]))) /\
  Retriever.kept (snd (Retriever.format_evidence [segment] true)) = 0 /\
  fst out = Return (Pipeline.mkChatResult answer RAG []) /\
  model_calls (snd out)
  = [RouterPrompt "" question None; QueryConstructorPrompt question;
     RagPrompt "" question "dQw4w9WgXcQ" 0 "" "Unknown"].
Proof. vm_compute. repeat split. Qed.
